(** * ThreeDeeRender: point clouds, sphere markers and the frame loop

    A shallow embedding of three pieces of the 3D panel:
    - [PointClouds] (renderables/PointClouds.ts): the per-topic renderable
      map, PointCloud2 validation and decoding, and the per-frame pose pass;
    - [Markers] (renderables/markers/RenderableMarker.ts and
      RenderableSphere.ts): the marker update chain;
    - [Renderer] (Renderer.ts): the animation-frame loop and [frameHandler].

    JavaScript objects are kept in an explicit store, exceptions are an
    outcome of every stateful function, and the modules imported by the
    sources but not part of this development are interfaces (type classes). *)

From Stdlib Require Import QArith Qcanon.
From stdpp Require Import base numbers list strings gmap pretty.

Local Open Scope string_scope.
Local Open Scope list_scope.

(* ===================================================================== *)
(** ** JavaScript values used by the sources *)
(* ===================================================================== *)

Module Js.

(** A JavaScript [number] as far as the sources observe it.  The point-cloud
    code never does arithmetic on decoded values: it compares them
    ([Math.min], [Math.max]) and stores them.  Every finite double is a
    rational, so finite values are carried as canonical rationals; the two
    infinities and NaN are kept apart because [Math.min]/[Math.max] and the
    [??] defaults of the colour scan treat them specially. *)
Inductive number : Type :=
  | NaN
  | NegInfinity
  | Finite (q : Qc)
  | PosInfinity.

#[global] Instance number_eq_dec : EqDecision number.
Proof. solve_decision. Defined.

Definition num (z : Z) : number := Finite (Qc_of_Z z).

(** [a === b] on numbers: NaN is not equal to itself. *)
Definition strict_eq (a b : number) : bool :=
  match a, b with
  | NaN, _ | _, NaN => false
  | _, _ => bool_decide (a = b)
  end.

Definition Qc_leb (a b : Qc) : bool := Qle_bool (this a) (this b).

(** [a <= b] on numbers that are not NaN (IEEE order with the infinities as
    the two ends). Any comparison with NaN is false. *)
Definition leb (a b : number) : bool :=
  match a, b with
  | NaN, _ | _, NaN => false
  | NegInfinity, _ => true
  | _, PosInfinity => true
  | Finite x, Finite y => Qc_leb x y
  | _, _ => false
  end.

(** [a < b] *)
Definition ltb (a b : number) : bool := leb a b && negb (leb b a).

Definition is_nan (a : number) : bool :=
  match a with NaN => true | _ => false end.

(** [Math.min(a, b)]: NaN when either argument is NaN, else the smaller. *)
Definition Math_min (a b : number) : number :=
  match a, b with
  | NaN, _ | _, NaN => NaN
  | _, _ => if leb a b then a else b
  end.

(** [Math.max(a, b)]: NaN when either argument is NaN, else the larger. *)
Definition Math_max (a b : number) : number :=
  match a, b with
  | NaN, _ | _, NaN => NaN
  | _, _ => if leb a b then b else a
  end.

(** [a ?? b] on an optional value ([undefined] is [None]). *)
Definition nullish {A} (a : option A) (b : A) : A :=
  match a with Some x => x | None => b end.

(** Truthiness of [string | undefined]: [undefined] and the empty string
    are falsy. *)
Definition truthy (s : option string) : bool :=
  match s with
  | Some (String _ _) => true
  | _ => false
  end.

(** [a % b !== 0] on non-negative integers. [a % 0] is NaN, and
    [NaN !== 0] holds. *)
Definition rem_nonzero (a b : N) : bool :=
  match b with
  | 0%N => true
  | _ => negb (N.eqb (a mod b) 0)
  end.

(** Exceptions raised by the language itself. *)
Inductive exn : Type :=
  | TypeError (message : string).

(** How a call ends: it returns a value or throws. *)
Inductive completion (A : Type) : Type :=
  | Return (a : A)
  | Throw (e : exn).
Arguments Return {A} a.
Arguments Throw {A} e.

(** A [Map] in insertion order, as [Map.prototype.values] iterates it. *)
Section JsMap.
Context {K V : Type} `{EqDecision K}.

Fixpoint map_get (k : K) (m : list (K * V)) : option V :=
  match m with
  | [] => None
  | (k', v) :: m' => if decide (k = k') then Some v else map_get k m'
  end.

(** [set] keeps the position of a key that is present and appends a new one. *)
Fixpoint map_set (k : K) (v : V) (m : list (K * V)) : list (K * V) :=
  match m with
  | [] => [(k, v)]
  | (k', v') :: m' =>
      if decide (k = k') then (k, v) :: m' else (k', v') :: map_set k v m'
  end.

Definition map_values (m : list (K * V)) : list V := m.*2.

Definition map_keys (m : list (K * V)) : list K := m.*1.

End JsMap.

End Js.

(* ===================================================================== *)
(** ** A state monad with exceptions *)
(* ===================================================================== *)

Module Eff.
Import Js.

(** A stateful computation over a store [S] that returns or throws. The
    store is kept in both cases: what a function wrote before it threw
    stays written. *)
Definition M (S A : Type) : Type := S -> completion A * S.

Definition ret {S A} (a : A) : M S A := fun s => (Return a, s).

Definition bind {S A B} (m : M S A) (k : A -> M S B) : M S B :=
  fun s =>
    match m s with
    | (Return a, s') => k a s'
    | (Throw e, s') => (Throw e, s')
    end.

Definition throw {S A} (e : exn) : M S A := fun s => (Throw e, s).

Definition get {S} : M S S := fun s => (Return s, s).

Definition gets {S A} (f : S -> A) : M S A := fun s => (Return (f s), s).

Definition modify {S} (f : S -> S) : M S unit := fun s => (Return tt, f s).

(** A step that cannot throw. *)
Definition lift {S A} (f : S -> A * S) : M S A := fun s => (Return (f s).1, (f s).2).

(** [for (const x of l) body(x)] *)
Fixpoint for_each {S A} (l : list A) (body : A -> M S unit) : M S unit :=
  match l with
  | [] => ret tt
  | x :: l' => bind (body x) (fun _ => for_each l' body)
  end.

(** Run a computation on a component of the store (an object reached
    through a reference held in the store) and write the component back,
    also when the computation throws. *)
Definition zoom {S T A} (proj : S -> T) (inj : T -> S -> S) (m : M T A) : M S A :=
  fun s =>
    match m (proj s) with
    | (c, t') => (c, inj t' s)
    end.

End Eff.

Declare Scope eff_scope.
Delimit Scope eff_scope with eff.
Notation "x <- m ;; k" := (Eff.bind m (fun x => k))
  (at level 100, m at next level, right associativity) : eff_scope.
Notation "m ;;; k" := (Eff.bind m (fun _ => k))
  (at level 100, right associativity) : eff_scope.

(* ===================================================================== *)
(** ** Message types (../ros) and the THREE objects the sources touch *)
(* ===================================================================== *)

Module Ros.
Import Js.

Record Time : Type := { sec : Z; nsec : Z }.

Record Header : Type := { stamp : Time; frame_id : string }.

Record Vector3 : Type := { x : number; y : number; z : number }.

Record Quaternion : Type := { qx : number; qy : number; qz : number; qw : number }.

Record Pose : Type := { pose_position : Vector3; pose_orientation : Quaternion }.

Record ColorRGBA : Type :=
  { color_r : number; color_g : number; color_b : number; color_a : number }.

Record PointField : Type :=
  { field_name : string; field_offset : N; field_datatype : N; field_count : N }.

(** sensor_msgs/PointCloud2. The integer members are uint32 on the wire and
    [data] is a [Uint8Array]. Products of two of them stay below 2^64 and
    are compared with values below 2^53, so the comparisons the code makes
    on doubles agree with the same comparisons on integers. *)
Record PointCloud2 : Type := {
  header : Header;
  height : N;
  width : N;
  fields : list PointField;
  is_bigendian : bool;
  point_step : N;
  row_step : N;
  data : list Byte.byte;
}.

End Ros.

Module Three.
Import Js Ros.

(** The part of [THREE.Object3D] the sources read or write. [object_id]
    stands for the identity of the JavaScript object. *)
Record Object3D : Type := {
  object_id : nat;
  name : string;
  children : list nat;
  position : Vector3;
  quaternion : Quaternion;
  visible : bool;
}.

(** [THREE.BufferAttribute] over a [Float32Array]. [buffer] stands for the
    identity of the typed array: it changes when the array is reallocated.
    The array holds the numbers handed to [setXYZ]/[setXYZW]; narrowing to
    single precision inside the typed array is below this model (it keeps
    0 as 0). *)
Record BufferAttribute : Type := {
  array : list number;
  itemSize : N;
  needsUpdate : bool;
  buffer : nat;
}.

Definition set_array (f : list number -> list number) (at_ : BufferAttribute) : BufferAttribute :=
  {| array := f (array at_); itemSize := itemSize at_;
     needsUpdate := needsUpdate at_; buffer := buffer at_ |}.

Definition set_needsUpdate (v : bool) (at_ : BufferAttribute) : BufferAttribute :=
  {| array := array at_; itemSize := itemSize at_;
     needsUpdate := v; buffer := buffer at_ |}.

(** [attribute.setXYZ(index, x, y, z)]: a write past the end of a typed
    array is ignored, as is a list insert out of range. *)
Definition setXYZ (index : N) (vx vy vz : number) (at_ : BufferAttribute) : BufferAttribute :=
  let i := N.to_nat (index * itemSize at_) in
  set_array (fun arr => <[i + 2 := vz]> (<[i + 1 := vy]> (<[i := vx]> arr))) at_.

(** [attribute.setXYZW(index, x, y, z, w)] *)
Definition setXYZW (index : N) (vx vy vz vw : number) (at_ : BufferAttribute) : BufferAttribute :=
  let i := N.to_nat (index * itemSize at_) in
  set_array
    (fun arr => <[i + 3 := vw]> (<[i + 2 := vz]> (<[i + 1 := vy]> (<[i := vx]> arr)))) at_.

End Three.

(* ===================================================================== *)
(** ** renderables/PointClouds.ts *)
(* ===================================================================== *)

Module PointClouds.
Import Js Eff Ros Three.
Local Open Scope eff_scope.

(** *** Types declared by the imported modules *)

(** ./pointClouds/settings *)
Inductive PointCloudColorMode : Type :=
  | Flat | Gradient | Rainbow | Turbo | Rgb | Rgba.

#[global] Instance PointCloudColorMode_eq_dec : EqDecision PointCloudColorMode.
Proof. solve_decision. Defined.

Record PointCloudSettings : Type := {
  pointSize : number;
  pointShape : string;
  decayTime : number;
  colorMode : PointCloudColorMode;
  rgbByteOrder : string;
  flatColor : ColorRGBA;
  minColor : ColorRGBA;
  maxColor : ColorRGBA;
  colorField : option string;
  minValue : option number;
  maxValue : option number;
}.

(** ./pointClouds/fieldReaders: [(view: DataView, pointOffset: number) => number].
    The view spans the message's [data]. A reader is a total function here:
    the readers [getReader] hands out for a [point_step] read inside one
    point record, and the loops only visit records that lie inside [data]. *)
Definition FieldReader : Type := list Byte.byte -> N -> number.

(** ../MaterialCache, [PointsVertexColor]: a points material is identified
    by the configuration it was acquired for. *)
Record PointsMaterial : Type := {
  material_scale : number * number;
  material_transparent : bool;
}.

#[global] Instance PointsMaterial_eq_dec : EqDecision PointsMaterial.
Proof. solve_decision. Defined.

(** Modelled from the spec: the material cache (../MaterialCache is not part
    of the sources) is a shared, reference-counted resource; renderables
    acquire a material by configuration identity and release it on disposal. *)
Definition MaterialCache : Type := list (PointsMaterial * nat).

(** Modelled from the spec: [materialCache.acquire(id, create, dispose)] of
    ../MaterialCache, which is not part of the sources: the material of the
    configuration, with one more reference counted for it. *)
Definition acquire (id : PointsMaterial) (cache : MaterialCache) : PointsMaterial * MaterialCache :=
  (id, map_set id (S (default 0 (map_get id cache))) cache).

(** Modelled from the spec: [materialCache.release(id)] of ../MaterialCache,
    which is not part of the sources: one reference fewer is counted for the
    material of the configuration, and the material leaves the cache with
    its last reference. *)
Definition release (id : PointsMaterial) (cache : MaterialCache) : MaterialCache :=
  match map_get id cache with
  | Some (S (S n)) => map_set id (S n) cache
  | Some _ => filter (fun entry => entry.1 <> id) cache
  | None => cache
  end.

(** The picking material made by [createPickingMaterial]: its [pointSize]
    uniform (the shader sources are constants). *)
Record ShaderMaterial : Type := { uniform_pointSize : number }.

(** ../DynamicBufferGeometry *)
Record DynamicBufferGeometry : Type := {
  geometry_id : nat;
  geometry_name : string;
  attributes : list (string * BufferAttribute);
  itemCount : N;
}.

Definition zeros (n : N) : list number := replicate (N.to_nat n) (num 0).

(** Modelled from the spec: [new DynamicBufferGeometry(Float32Array)] of
    ../DynamicBufferGeometry, which is not part of the sources. A new
    geometry has no attribute and no point. *)
Definition new_DynamicBufferGeometry (id : nat) : DynamicBufferGeometry :=
  {| geometry_id := id; geometry_name := ""; attributes := []; itemCount := 0 |}.

(** Modelled from the spec: [createAttribute(name, itemSize)] of
    ../DynamicBufferGeometry, which is not part of the sources. The
    attribute gets a typed array for the current number of points;
    [fresh] is the identity of that array. *)
Definition createAttribute (attr : string) (size : N) (fresh : nat)
    (g : DynamicBufferGeometry) : DynamicBufferGeometry :=
  {| geometry_id := geometry_id g; geometry_name := geometry_name g;
     attributes :=
       map_set attr
         {| array := zeros (itemCount g * size); itemSize := size;
            needsUpdate := false; buffer := fresh |}
         (attributes g);
     itemCount := itemCount g |}.

(** Modelled from the spec: the reallocation of one attribute by [resize]
    of ../DynamicBufferGeometry: a new typed array for [n] points. *)
Definition reallocate (n : N) (fresh : nat) (k : nat) (entry : string * BufferAttribute)
    : string * BufferAttribute :=
  (entry.1,
   {| array := zeros (n * itemSize entry.2); itemSize := itemSize entry.2;
      needsUpdate := needsUpdate entry.2; buffer := fresh + k |}).

(** Modelled from the spec: [resize(itemCount)] of ../DynamicBufferGeometry,
    which is not part of the sources. The spec: buffers are resized to
    exactly the point count before writing; they are resized only if the
    point count changed, otherwise the contents are overwritten in place (no
    reallocation). [resize n fresh g] is the resized geometry and the number
    of typed arrays it allocated (their identities are [fresh],
    [fresh + 1], ...). *)
Definition resize (n : N) (fresh : nat) (g : DynamicBufferGeometry) : DynamicBufferGeometry * nat :=
  if (n =? itemCount g)%N then (g, 0)
  else
    ({| geometry_id := geometry_id g; geometry_name := geometry_name g;
        attributes := imap (reallocate n fresh) (attributes g);
        itemCount := n |},
     length (attributes g)).

(** [geometry.getAttribute(name)]: [undefined] for a name the geometry
    does not have. *)
Definition getAttribute (attr : string) (g : DynamicBufferGeometry) : option BufferAttribute :=
  map_get attr (attributes g).

Definition set_attributes (f : list (string * BufferAttribute) -> list (string * BufferAttribute))
    (g : DynamicBufferGeometry) : DynamicBufferGeometry :=
  {| geometry_id := geometry_id g; geometry_name := geometry_name g;
     attributes := f (attributes g); itemCount := itemCount g |}.

Definition set_geometry_name (s : string) (g : DynamicBufferGeometry) : DynamicBufferGeometry :=
  {| geometry_id := geometry_id g; geometry_name := s;
     attributes := attributes g; itemCount := itemCount g |}.

(** [THREE.Points]: it refers to its geometry (by identity) and material. *)
Record Points : Type := {
  points_id : nat;
  points_name : string;
  points_geometry : nat;
  points_material : PointsMaterial;
  pickingMaterial : ShaderMaterial;
}.

(** [PointCloudRenderable]: a [THREE.Object3D] whose [userData] has the
    members the type declares. *)
Record UserData : Type := {
  topic : string;
  settings : PointCloudSettings;
  pointCloud : PointCloud2;
  pose : Pose;
  srcTime : Z;
  geometry : DynamicBufferGeometry;
  points : Points;
}.

Record PointCloudRenderable : Type := {
  object3d : Object3D;
  userData : UserData;
}.

(** *** Functions and constants of the imported modules

    [../ros] ([rosTimeToNanoSec], the [PointFieldType] enum),
    [../transforms/geometry] ([makePose]), [../updatePose],
    [./pointClouds/colors] ([getColorConverter]),
    [./pointClouds/fieldReaders] ([getReader]) and [./transforms]
    ([missingTransformMessage], [MISSING_TRANSFORM]) are imported by
    PointClouds.ts and are not part of the sources: they are an interface.

    [updatePose] receives the renderable (its [Object3D] part and
    [userData.pose]); it returns the re-posed object and the success flag. A
    colour converter writes into the colour object it is given. *)
Class Imports : Type := {
  TransformTree : Type;
  rosTimeToNanoSec : Time -> Z;
  makePose : Pose;
  updatePose :
    Object3D -> Pose -> TransformTree -> string -> string -> string -> Z -> Z ->
    Object3D * bool;
  getColorConverter :
    PointCloudSettings -> number -> number -> ColorRGBA -> number -> ColorRGBA;
  getReader : PointField -> N -> option FieldReader;
  PointFieldType_name : N -> option string;
  missingTransformMessage : string -> string -> string -> string;
  MISSING_TRANSFORM : string;
}.

(** Calls into the imported modules that the properties below speak about,
    in the order they are made. *)
Inductive Call : Type :=
  | Call_updatePose (renderable : nat) (renderFrameId fixedFrameId frameId : string)
      (currentTime srcTime : Z)
  | Call_getColorConverter (settings : PointCloudSettings)
      (minColorValue maxColorValue : number).

(** What [dispose] gives back, in the order of its statements: a release
    at the material cache, the [dispose] of a geometry and the [dispose] of
    a picking material. *)
Inductive Disposal : Type :=
  | materialCache_release (id : PointsMaterial)
  | geometry_dispose (geometry : nat)
  | pickingMaterial_dispose (material : ShaderMaterial).

(** Modelled from the spec: the renderer's per-topic diagnostic sink.
    PointClouds.ts reaches it as [renderer.layerErrors]; neither the class of
    the sink nor a renderer with that member is part of the sources (the
    Renderer.ts at hand has a [topicErrors] member of the absent class
    [TopicErrors]). [addToTopic(topic, errorKind, message)] records a
    diagnostic keyed by (topic, errorKind); the diagnostic of a pair is
    replaced, not accumulated. *)
Definition addToTopic (topic errorId message : string)
    (errors : gmap string (gmap string string)) : gmap string (gmap string string) :=
  <[topic := <[errorId := message]> (default ∅ (errors !! topic))]> errors.

Section Model.
Context `{Imports}.

(** *** The store

    The members of [this.renderer] that PointClouds.ts uses, the members of
    the [PointClouds] object, the module-level [tempColor], the allocation
    counter for object identities, and the log of calls.

    Each renderable is referenced by its [pointCloudsByTopic] entry; the
    state of the object is kept in that entry, so a function that mutates a
    renderable it holds a reference to writes the entry. *)
Record World : Type := {
  layerErrors : gmap string (gmap string string);
  materialCache : MaterialCache;
  transformTree : TransformTree;
  renderFrameId : option string;
  fixedFrameId : option string;
  pointCloudsByTopic : list (string * PointCloudRenderable);
  scene_children : list nat;
  tempColor : ColorRGBA;
  next_id : nat;
  calls : list Call;
}.

Definition set_layerErrors (f : gmap string (gmap string string) -> gmap string (gmap string string))
    (w : World) : World :=
  {| layerErrors := f (layerErrors w); materialCache := materialCache w;
     transformTree := transformTree w; renderFrameId := renderFrameId w;
     fixedFrameId := fixedFrameId w; pointCloudsByTopic := pointCloudsByTopic w;
     scene_children := scene_children w; tempColor := tempColor w;
     next_id := next_id w; calls := calls w |}.

Definition set_materialCache (f : MaterialCache -> MaterialCache) (w : World) : World :=
  {| layerErrors := layerErrors w; materialCache := f (materialCache w);
     transformTree := transformTree w; renderFrameId := renderFrameId w;
     fixedFrameId := fixedFrameId w; pointCloudsByTopic := pointCloudsByTopic w;
     scene_children := scene_children w; tempColor := tempColor w;
     next_id := next_id w; calls := calls w |}.

Definition set_pointCloudsByTopic
    (f : list (string * PointCloudRenderable) -> list (string * PointCloudRenderable))
    (w : World) : World :=
  {| layerErrors := layerErrors w; materialCache := materialCache w;
     transformTree := transformTree w; renderFrameId := renderFrameId w;
     fixedFrameId := fixedFrameId w; pointCloudsByTopic := f (pointCloudsByTopic w);
     scene_children := scene_children w; tempColor := tempColor w;
     next_id := next_id w; calls := calls w |}.

Definition set_scene_children (f : list nat -> list nat) (w : World) : World :=
  {| layerErrors := layerErrors w; materialCache := materialCache w;
     transformTree := transformTree w; renderFrameId := renderFrameId w;
     fixedFrameId := fixedFrameId w; pointCloudsByTopic := pointCloudsByTopic w;
     scene_children := f (scene_children w); tempColor := tempColor w;
     next_id := next_id w; calls := calls w |}.

Definition set_tempColor (f : ColorRGBA -> ColorRGBA) (w : World) : World :=
  {| layerErrors := layerErrors w; materialCache := materialCache w;
     transformTree := transformTree w; renderFrameId := renderFrameId w;
     fixedFrameId := fixedFrameId w; pointCloudsByTopic := pointCloudsByTopic w;
     scene_children := scene_children w; tempColor := f (tempColor w);
     next_id := next_id w; calls := calls w |}.

Definition set_next_id (f : nat -> nat) (w : World) : World :=
  {| layerErrors := layerErrors w; materialCache := materialCache w;
     transformTree := transformTree w; renderFrameId := renderFrameId w;
     fixedFrameId := fixedFrameId w; pointCloudsByTopic := pointCloudsByTopic w;
     scene_children := scene_children w; tempColor := tempColor w;
     next_id := f (next_id w); calls := calls w |}.

Definition log_call (c : Call) (w : World) : World :=
  {| layerErrors := layerErrors w; materialCache := materialCache w;
     transformTree := transformTree w; renderFrameId := renderFrameId w;
     fixedFrameId := fixedFrameId w; pointCloudsByTopic := pointCloudsByTopic w;
     scene_children := scene_children w; tempColor := tempColor w;
     next_id := next_id w; calls := (calls w ++ [c])%list |}.

Definition set_userData (f : UserData -> UserData) (r : PointCloudRenderable) : PointCloudRenderable :=
  {| object3d := object3d r; userData := f (userData r) |}.

Definition set_object3d (o : Object3D) (r : PointCloudRenderable) : PointCloudRenderable :=
  {| object3d := o; userData := userData r |}.

Definition set_pointCloud (pc : PointCloud2) (u : UserData) : UserData :=
  {| topic := topic u; settings := settings u; pointCloud := pc; pose := pose u;
     srcTime := srcTime u; geometry := geometry u; points := points u |}.

Definition set_srcTime (t : Z) (u : UserData) : UserData :=
  {| topic := topic u; settings := settings u; pointCloud := pointCloud u; pose := pose u;
     srcTime := t; geometry := geometry u; points := points u |}.

Definition set_geometry (f : DynamicBufferGeometry -> DynamicBufferGeometry) (u : UserData) : UserData :=
  {| topic := topic u; settings := settings u; pointCloud := pointCloud u; pose := pose u;
     srcTime := srcTime u; geometry := f (geometry u); points := points u |}.

(** *** Constants *)

Definition DEFAULT_POINT_SIZE : number := Finite (Q2Qc (3 # 2)).
Definition DEFAULT_POINT_SHAPE : string := "circle".
Definition DEFAULT_COLOR_MODE : PointCloudColorMode := Turbo.
Definition DEFAULT_FLAT_COLOR : ColorRGBA :=
  {| color_r := num 1; color_g := num 1; color_b := num 1; color_a := num 1 |}.
Definition DEFAULT_MIN_COLOR : ColorRGBA :=
  {| color_r := num 0; color_g := num 0; color_b := num 1; color_a := num 1 |}.
Definition DEFAULT_MAX_COLOR : ColorRGBA :=
  {| color_r := num 1; color_g := num 0; color_b := num 0; color_a := num 1 |}.
Definition DEFAULT_RGB_BYTE_ORDER : string := "rgba".

Definition COLOR_FIELDS : list string := ["rgb"; "rgba"; "bgr"; "bgra"; "abgr"; "color"].
Definition INTENSITY_FIELDS : list string := ["intensity"; "i"].

Definition INVALID_POINT_CLOUD : string := "INVALID_POINT_CLOUD".

(** The initial value of the module-level [tempColor]. *)
Definition tempColor_init : ColorRGBA :=
  {| color_r := num 0; color_g := num 0; color_b := num 0; color_a := num 0 |}.

Definition set_color (field : option string) (mode : PointCloudColorMode) (order : string)
    (output : PointCloudSettings) : PointCloudSettings :=
  {| pointSize := pointSize output; pointShape := pointShape output;
     decayTime := decayTime output; colorMode := mode; rgbByteOrder := order;
     flatColor := flatColor output; minColor := minColor output;
     maxColor := maxColor output; colorField := field;
     minValue := minValue output; maxValue := maxValue output |}.

(** *** [autoSelectColorField] (lines 334-379)

    The settings object is updated in place by the source; here the updated
    settings are the result. In the [switch], [default] shares the branch of
    ["rgba"], which is where the name ["color"] ends up. *)
Definition autoSelectColorField (output : PointCloudSettings) (pointCloud : PointCloud2)
    : PointCloudSettings :=
  match find (fun field => bool_decide (field_name field ∈ COLOR_FIELDS)) (fields pointCloud) with
  | Some field =>
      let n := field_name field in
      if decide (n = "rgb") then set_color (Some n) Rgb "rgba" output
      else if decide (n = "bgr") then set_color (Some n) Rgb "bgra" output
      else if decide (n = "bgra") then set_color (Some n) Rgba "bgra" output
      else if decide (n = "abgr") then set_color (Some n) Rgba "abgr" output
      else set_color (Some n) Rgba "rgba" output
  | None =>
      match find (fun field => bool_decide (field_name field ∈ INTENSITY_FIELDS))
              (fields pointCloud) with
      | Some field =>
          set_color (Some (field_name field)) DEFAULT_COLOR_MODE (rgbByteOrder output) output
      | None =>
          match fields pointCloud with
          | firstField :: _ =>
              set_color (Some (field_name firstField)) DEFAULT_COLOR_MODE
                (rgbByteOrder output) output
          | [] => output
          end
      end
  end.

(** *** Materials (lines 277-332) *)

Definition pointCloudHasTransparency (settings : PointCloudSettings) : bool :=
  match colorMode settings with
  | Flat => ltb (color_a (flatColor settings)) (num 1)
  | Gradient =>
      ltb (color_a (minColor settings)) (num 1) || ltb (color_a (maxColor settings)) (num 1)
  | Rainbow | Turbo | Rgb => false
  | Rgba => true
  end.

Definition pointsMaterial (settings : PointCloudSettings) (cache : MaterialCache)
    : PointsMaterial * MaterialCache :=
  let transparent := pointCloudHasTransparency settings in
  let scale := (pointSize settings, pointSize settings) in
  acquire {| material_scale := scale; material_transparent := transparent |} cache.

Definition MIN_PICKING_POINT_SIZE : number := num 8.

Definition createPickingMaterial (settings : PointCloudSettings) : ShaderMaterial :=
  {| uniform_pointSize := Math_max (pointSize settings) MIN_PICKING_POINT_SIZE |}.

(** *** [pointFieldTypeName], [zeroReader], [invalidPointCloudError] *)

Definition pointFieldTypeName (type : N) : string :=
  nullish (PointFieldType_name type) (pretty type).

Definition zeroReader : FieldReader := fun _ _ => num 0.

(** The state a method of a renderable runs in: the renderable it was
    handed and the rest of the store. *)
Definition Ctx : Type := PointCloudRenderable * World.

Definition on_world (f : World -> World) : M Ctx unit := modify (fun s => (s.1, f s.2)).
Definition on_renderable (f : PointCloudRenderable -> PointCloudRenderable) : M Ctx unit :=
  modify (fun s => (f s.1, s.2)).

(** [invalidPointCloudError] (lines 385-393). The diagnostic is recorded
    first. Then [renderable.userData.positionAttribute] is read: [userData]
    has no such member (the type at lines 18-28 declares none and
    [addPointCloud2Message] assigns none), so the read gives [undefined] and
    calling [resize] on it throws a [TypeError]; the statement after it is
    not reached. *)
Definition invalidPointCloudError (message : string) : M Ctx unit :=
  renderable <- gets fst ;;
  on_world (set_layerErrors (addToTopic (topic (userData renderable)) INVALID_POINT_CLOUD message)) ;;;
  throw (TypeError "Cannot read properties of undefined (reading 'resize')").

(** *** [_updatePointCloudRenderable] (lines 136-274)

    The method is split along its own comments: the invalid point cloud
    checks, the field scan that binds the readers, and the decoding. *)

Definition dquote : string := String (Ascii.ascii_of_nat 34) EmptyString.

Definition data_length (pointCloud : PointCloud2) : N := N.of_nat (length (data pointCloud)).

(** Lines 144-165: the message of the first check that fails. *)
Definition structuralError (pointCloud : PointCloud2) : option string :=
  let len := data_length pointCloud in
  if is_bigendian pointCloud then
    Some "PointCloud2 is_bigendian=true is not supported"
  else if rem_nonzero len (point_step pointCloud) then
    Some ("PointCloud2 data length " +:+ pretty len +:+ " is not a multiple of point_step "
          +:+ pretty (point_step pointCloud))
  else if bool_decide (fields pointCloud = []) then
    Some "PointCloud2 has no fields"
  else if (len <? height pointCloud * row_step pointCloud)%N then
    Some ("PointCloud2 data length " +:+ pretty len +:+ " is less than height "
          +:+ pretty (height pointCloud) +:+ " * row_step " +:+ pretty (row_step pointCloud))
  else if (row_step pointCloud <? width pointCloud * point_step pointCloud)%N then
    Some ("PointCloud2 width " +:+ pretty (width pointCloud) +:+ " * point_step "
          +:+ pretty (point_step pointCloud) +:+ " is greater than row_step "
          +:+ pretty (row_step pointCloud))
  else None.

(** The four reader variables of lines 168-171. *)
Record Readers : Type := {
  xReader : option FieldReader;
  yReader : option FieldReader;
  zReader : option FieldReader;
  colorReader : option FieldReader;
}.

Definition noReaders : Readers :=
  {| xReader := None; yReader := None; zReader := None; colorReader := None |}.

Definition invalidFieldMessage (shown : string) (field : PointField) (step : N) : string :=
  "PointCloud2 field " +:+ dquote +:+ shown +:+ dquote +:+ " is invalid. type="
  +:+ pointFieldTypeName (field_datatype field) +:+ ", offset=" +:+ pretty (field_offset field)
  +:+ ", point_step=" +:+ pretty step.

(** Lines 174-198: the [if]/[else if] chain on the names x, y and z. The
    result is the readers, or the message of the error the source reports
    before it returns. *)
Definition bindPosition (field : PointField) (step : N) (rs : Readers) : Readers + string :=
  if decide (field_name field = "x") then
    match getReader field step with
    | Some rd => inl {| xReader := Some rd; yReader := yReader rs; zReader := zReader rs;
                        colorReader := colorReader rs |}
    | None => inr (invalidFieldMessage "x" field step)
    end
  else if decide (field_name field = "y") then
    match getReader field step with
    | Some rd => inl {| xReader := xReader rs; yReader := Some rd; zReader := zReader rs;
                        colorReader := colorReader rs |}
    | None => inr (invalidFieldMessage "y" field step)
    end
  else if decide (field_name field = "z") then
    match getReader field step with
    | Some rd => inl {| xReader := xReader rs; yReader := yReader rs; zReader := Some rd;
                        colorReader := colorReader rs |}
    | None => inr (invalidFieldMessage "z" field step)
    end
  else inl rs.

(** Lines 200-208: [field.name === settings.colorField]. *)
Definition bindColor (settings : PointCloudSettings) (field : PointField) (step : N)
    (rs : Readers) : Readers + string :=
  if decide (Some (field_name field) = colorField settings) then
    match getReader field step with
    | Some rd => inl {| xReader := xReader rs; yReader := yReader rs; zReader := zReader rs;
                        colorReader := Some rd |}
    | None => inr (invalidFieldMessage (field_name field) field step)
    end
  else inl rs.

Definition allBound (rs : Readers) : bool :=
  bool_decide (is_Some (xReader rs)) && bool_decide (is_Some (yReader rs))
  && bool_decide (is_Some (zReader rs)) && bool_decide (is_Some (colorReader rs)).

(** Lines 172-213: the loop over [fields], left at the first invalid field
    and by [break] once the four readers are bound. *)
Fixpoint resolveReaders (settings : PointCloudSettings) (step : N) (fs : list PointField)
    (rs : Readers) : Readers + string :=
  match fs with
  | [] => inl rs
  | field :: rest =>
      match bindPosition field step rs with
      | inr message => inr message
      | inl rs1 =>
          match bindColor settings field step rs1 with
          | inr message => inr message
          | inl rs2 =>
              if allBound rs2 then inl rs2 else resolveReaders settings step rest rs2
          end
      end
  end.

(** [reader ? 1 : 0] *)
Definition bound (rd : option FieldReader) : N :=
  match rd with Some _ => 1%N | None => 0%N end.

Definition positionReaderCount (rs : Readers) : N :=
  (bound (xReader rs) + bound (yReader rs) + bound (zReader rs))%N.

(** Lines 167-220: the field scan and the count of position readers. *)
Definition bindReaders (settings : PointCloudSettings) (pointCloud : PointCloud2)
    : Readers + string :=
  match resolveReaders settings (point_step pointCloud) (fields pointCloud) noReaders with
  | inr message => inr message
  | inl rs =>
      if (positionReaderCount rs <? 2)%N
      then inr "PointCloud2 must contain at least two of x/y/z fields"
      else inl rs
  end.

(** Lines 144-220: every path that ends in [invalidPointCloudError], with
    the message it reports; otherwise the readers the field scan bound. *)
Definition validate (settings : PointCloudSettings) (pointCloud : PointCloud2)
    : Readers + string :=
  match structuralError pointCloud with
  | Some message => inr message
  | None => bindReaders settings pointCloud
  end.

(** Line 142. [Math.trunc(data.length / point_step)]: for a positive
    [point_step] this is the integer quotient. A zero [point_step] gives
    NaN or Infinity in the source, and such a message never gets past the
    checks, so the value is not used then. *)
Definition pointCount (pointCloud : PointCloud2) : N :=
  (data_length pointCloud / point_step pointCloud)%N.

(** The indices [i] that a loop [for (let i = 0; i < pointCount; i++)]
    visits, in order. *)
Definition pointIndices (pointCloud : PointCloud2) : list N :=
  N.of_nat <$> seq 0 (N.to_nat (pointCount pointCloud)).

(** Lines 234-246: the colour domain handed to [getColorConverter]. *)
Definition scanStep (reader : FieldReader) (view : list Byte.byte) (step : N)
    (acc : number * number) (i : N) : number * number :=
  let pointOffset := (i * step)%N in
  let colorValue := reader view pointOffset in
  (Math_min acc.1 colorValue, Math_max acc.2 colorValue).

Definition colorDomain (settings : PointCloudSettings) (reader : FieldReader)
    (pointCloud : PointCloud2) : number * number :=
  let minColorValue := nullish (minValue settings) PosInfinity in
  let maxColorValue := nullish (maxValue settings) NegInfinity in
  if bool_decide (minValue settings = None) || bool_decide (maxValue settings = None) then
    let scanned :=
      fold_left (scanStep reader (data pointCloud) (point_step pointCloud))
        (pointIndices pointCloud) (minColorValue, maxColorValue) in
    (nullish (minValue settings) scanned.1, nullish (maxValue settings) scanned.2)
  else (minColorValue, maxColorValue).

(** A use of an attribute obtained with [geometry.getAttribute(name)]: a
    method call or an assignment on [undefined] throws. *)
Definition with_attribute (attr : string) (f : BufferAttribute -> BufferAttribute) : M Ctx unit :=
  renderable <- gets fst ;;
  match getAttribute attr (geometry (userData renderable)) with
  | Some at_ =>
      on_renderable (set_userData (set_geometry (set_attributes (map_set attr (f at_)))))
  | None => throw (TypeError "Cannot read properties of undefined")
  end.

(** [geometry.resize(pointCount)] *)
Definition geometry_resize (n : N) : M Ctx unit :=
  s <- get ;;
  let '(g, allocated) := resize n (next_id s.2) (geometry (userData s.1)) in
  on_renderable (set_userData (set_geometry (fun _ => g))) ;;;
  on_world (set_next_id (fun k => k + allocated)).

(** Lines 252-265: the body of the loop that fills the two attributes. *)
Definition decodePoint (pointCloud : PointCloud2) (rdx rdy rdz rdc : FieldReader)
    (colorConverter : ColorRGBA -> number -> ColorRGBA) (i : N) : M Ctx unit :=
  let view := data pointCloud in
  let pointOffset := (i * point_step pointCloud)%N in
  let vx := rdx view pointOffset in
  let vy := rdy view pointOffset in
  let vz := rdz view pointOffset in
  with_attribute "position" (setXYZ i vx vy vz) ;;;
  let colorValue := rdc view pointOffset in
  on_world (set_tempColor (fun c => colorConverter c colorValue)) ;;;
  c <- gets (fun s => tempColor s.2) ;;
  with_attribute "color" (setXYZW i (color_r c) (color_g c) (color_b c) (color_a c)).

(** Lines 222-268. *)
Definition decode (pointCloud : PointCloud2) (rs : Readers) : M Ctx unit :=
  settings <- gets (fun s => settings (userData s.1)) ;;
  let rdc :=
    nullish (colorReader rs)
      (nullish (xReader rs) (nullish (yReader rs) (nullish (zReader rs) zeroReader))) in
  let rdx := nullish (xReader rs) zeroReader in
  let rdy := nullish (yReader rs) zeroReader in
  let rdz := nullish (zReader rs) zeroReader in
  geometry_resize (pointCount pointCloud) ;;;
  let domain := colorDomain settings rdc pointCloud in
  on_world (log_call (Call_getColorConverter settings domain.1 domain.2)) ;;;
  let colorConverter := getColorConverter settings domain.1 domain.2 in
  for_each (pointIndices pointCloud) (decodePoint pointCloud rdx rdy rdz rdc colorConverter) ;;;
  with_attribute "position" (set_needsUpdate true) ;;;
  with_attribute "color" (set_needsUpdate true).

Definition _updatePointCloudRenderable (pointCloud : PointCloud2) : M Ctx unit :=
  on_renderable (set_userData (set_pointCloud pointCloud)) ;;;
  on_renderable (set_userData (set_srcTime (rosTimeToNanoSec (stamp (header pointCloud))))) ;;;
  settings <- gets (fun s => settings (userData s.1)) ;;
  match validate settings pointCloud with
  | inr message => invalidPointCloudError message
  | inl rs => decode pointCloud rs
  end.

(** *** [addPointCloud2Message] (lines 66-108) *)

Definition defaultSettings : PointCloudSettings :=
  {| pointSize := DEFAULT_POINT_SIZE; pointShape := DEFAULT_POINT_SHAPE;
     decayTime := num 0; colorMode := Flat; rgbByteOrder := DEFAULT_RGB_BYTE_ORDER;
     flatColor := DEFAULT_FLAT_COLOR; minColor := DEFAULT_MIN_COLOR;
     maxColor := DEFAULT_MAX_COLOR; colorField := None;
     minValue := None; maxValue := None |}.

Definition origin : Vector3 := {| x := num 0; y := num 0; z := num 0 |}.
Definition identityQuaternion : Quaternion :=
  {| qx := num 0; qy := num 0; qz := num 0; qw := num 1 |}.

(** Lines 69-104: the branch taken when the topic has no renderable yet.
    The objects created are, in order, the renderable, the geometry, its two
    typed arrays and the [THREE.Points]; their identities are the next five
    values of the allocation counter. *)
Definition createRenderable (topic_ : string) (pointCloud : PointCloud2) (w : World)
    : PointCloudRenderable * World :=
  let id := next_id w in
  let settings_ := autoSelectColorField defaultSettings pointCloud in
  let geometry_ :=
    createAttribute "color" 4 (id + 3)
      (createAttribute "position" 3 (id + 2)
         (set_geometry_name (topic_ +:+ ":PointCloud2:geometry")
            (new_DynamicBufferGeometry (id + 1)))) in
  let material := pointsMaterial settings_ (materialCache w) in
  let points_ :=
    {| points_id := id + 4; points_name := topic_ +:+ ":PointCloud2:points";
       points_geometry := geometry_id geometry_; points_material := material.1;
       pickingMaterial := createPickingMaterial settings_ |} in
  let renderable :=
    {| object3d :=
         {| object_id := id; name := topic_; children := [points_id points_];
            position := origin; quaternion := identityQuaternion; visible := true |};
       userData :=
         {| topic := topic_; settings := settings_; pointCloud := pointCloud;
            pose := makePose;
            srcTime := rosTimeToNanoSec (stamp (header pointCloud));
            geometry := geometry_; points := points_ |} |} in
  (renderable,
   set_pointCloudsByTopic (map_set topic_ renderable)
     (set_scene_children (fun c => (c ++ [id])%list)
        (set_materialCache (fun _ => material.2)
           (set_next_id (fun _ => id + 5) w)))).

(** A method call on the renderable registered for [topic_]: the method
    mutates the object the map entry refers to, also when it throws. *)
Definition on_entry {A} (topic_ : string) (renderable : PointCloudRenderable)
    (m : M Ctx A) : M World A :=
  zoom (fun w => (renderable, w))
       (fun s _ => set_pointCloudsByTopic (map_set topic_ s.1) s.2) m.

Definition addPointCloud2Message (topic_ : string) (pointCloud : PointCloud2) : M World unit :=
  w <- get ;;
  renderable <-
    match map_get topic_ (pointCloudsByTopic w) with
    | Some renderable => ret renderable
    | None => lift (createRenderable topic_ pointCloud)
    end ;;
  on_entry topic_ renderable (_updatePointCloudRenderable pointCloud).

(** *** [startFrame] (lines 110-134) *)

(** The body of the loop, run on one renderable. *)
Definition poseRenderable (renderFrameId_ fixedFrameId_ : string) (currentTime : Z) : M Ctx unit :=
  s <- get ;;
  let renderable := s.1 in
  let srcTime_ := srcTime (userData renderable) in
  let frameId := frame_id (header (pointCloud (userData renderable))) in
  on_world (log_call (Call_updatePose (object_id (object3d renderable))
                        renderFrameId_ fixedFrameId_ frameId currentTime srcTime_)) ;;;
  let '(posed, updated) :=
    updatePose (object3d renderable) (pose (userData renderable)) (transformTree s.2)
      renderFrameId_ fixedFrameId_ frameId currentTime srcTime_ in
  on_renderable (set_object3d posed) ;;;
  if negb updated then
    let message := missingTransformMessage renderFrameId_ fixedFrameId_ frameId in
    on_world (set_layerErrors (addToTopic (topic (userData renderable)) MISSING_TRANSFORM message))
  else ret tt.

(** [for (const renderable of this.pointCloudsByTopic.values()) body]: the
    entries are visited in insertion order; what the body does to a
    renderable is written to its entry before the next one is visited. *)
Fixpoint for_values (body : M Ctx unit)
    (visited todo : list (string * PointCloudRenderable)) : M World unit :=
  fun w =>
    match todo with
    | [] => (Return tt, w)
    | (k, renderable) :: rest =>
        match body (renderable, w) with
        | (c, (renderable', w')) =>
            let w'' :=
              set_pointCloudsByTopic (fun _ => (visited ++ (k, renderable') :: rest)%list) w' in
            match c with
            | Return _ => for_values body (visited ++ [(k, renderable')])%list rest w''
            | Throw e => (Throw e, w'')
            end
        end
    end.

Definition startFrame (currentTime : Z) : M World unit :=
  w <- get ;;
  if negb (truthy (renderFrameId w)) || negb (truthy (fixedFrameId w)) then ret tt
  else
    match renderFrameId w, fixedFrameId w with
    | Some renderFrameId_, Some fixedFrameId_ =>
        for_values (poseRenderable renderFrameId_ fixedFrameId_ currentTime)
          [] (pointCloudsByTopic w)
    | _, _ => ret tt
    end.

(** *** Notions used to state the properties *)

(** The renderable right after lines 137-138 of [_updatePointCloudRenderable]. *)
Definition stamped (pointCloud : PointCloud2) (r : PointCloudRenderable) : PointCloudRenderable :=
  set_userData (set_srcTime (rosTimeToNanoSec (stamp (header pointCloud))))
    (set_userData (set_pointCloud pointCloud) r).

(** A field named [axis] that resolves to a typed reader. *)
Definition resolves (pointCloud : PointCloud2) (axis : string) : bool :=
  existsb
    (fun field =>
       bool_decide (field_name field = axis)
       && bool_decide (is_Some (getReader field (point_step pointCloud))))
    (fields pointCloud).

(** How many of x, y and z resolve. *)
Definition resolvedAxes (pointCloud : PointCloud2) : nat :=
  Nat.b2n (resolves pointCloud "x") + Nat.b2n (resolves pointCloud "y")
  + Nat.b2n (resolves pointCloud "z").

(** No field is named [axis]. *)
Definition absent (pointCloud : PointCloud2) (axis : string) : Prop :=
  Forall (fun field => field_name field <> axis) (fields pointCloud).

(** The decoded values of the colour field, point by point. *)
Definition colorValues (reader : FieldReader) (pointCloud : PointCloud2) : list number :=
  (fun i => reader (data pointCloud) (i * point_step pointCloud)%N) <$> pointIndices pointCloud.

(** The reader the colour scan and the colour attribute use (line 222). *)
Definition activeColorReader (rs : Readers) : FieldReader :=
  nullish (colorReader rs)
    (nullish (xReader rs) (nullish (yReader rs) (nullish (zReader rs) zeroReader))).

(** [m] is the exact minimum (maximum) of [values]: one of the values, and
    no value is below (above) it. *)
Definition minimumOf (values : list number) (m : number) : Prop :=
  m ∈ values /\ Forall (fun v => leb m v = true) values.

Definition maximumOf (values : list number) (m : number) : Prop :=
  m ∈ values /\ Forall (fun v => leb v m = true) values.

(** An attribute of the geometry with its item size and a typed array of
    [itemCount * itemSize] numbers. *)
Definition attribute_ok (g : DynamicBufferGeometry) (attr : string) (size : N) : Prop :=
  exists at_,
    getAttribute attr g = Some at_
    /\ itemSize at_ = size
    /\ length (array at_) = N.to_nat (itemCount g * size).

(** The geometry [addPointCloud2Message] builds: a position attribute of
    three and a colour attribute of four numbers per point. *)
Definition geometry_ok (g : DynamicBufferGeometry) : Prop :=
  attribute_ok g "position" 3 /\ attribute_ok g "color" 4.

(** The identities of the typed arrays of a geometry, by attribute. *)
Definition buffers (g : DynamicBufferGeometry) : list (string * nat) :=
  (fun entry => (entry.1, buffer entry.2)) <$> attributes g.

(** The colour mode and channel order that go with a colour field name. *)
Definition colorEncoding : list (string * (PointCloudColorMode * string)) :=
  [ ("rgb", (Rgb, "rgba")); ("rgba", (Rgba, "rgba")); ("bgr", (Rgb, "bgra"));
    ("bgra", (Rgba, "bgra")); ("abgr", (Rgba, "abgr")); ("color", (Rgba, "rgba")) ].

(** [f] is the first field of the message whose name is one of [names]. *)
Definition firstFieldIn (names : list string) (pointCloud : PointCloud2) (f : PointField) : Prop :=
  exists before after,
    fields pointCloud = before ++ f :: after
    /\ field_name f ∈ names
    /\ Forall (fun g => field_name g ∉ names) before.

(** The call of [updatePose] that [startFrame] makes for a renderable, and
    what the call returns. *)
Definition poseCall (renderFrameId_ fixedFrameId_ : string) (currentTime : Z)
    (r : PointCloudRenderable) : Call :=
  Call_updatePose (object_id (object3d r)) renderFrameId_ fixedFrameId_
    (frame_id (header (pointCloud (userData r)))) currentTime (srcTime (userData r)).

Definition poseResult (renderFrameId_ fixedFrameId_ : string) (currentTime : Z)
    (tree : TransformTree) (r : PointCloudRenderable) : Object3D * bool :=
  updatePose (object3d r) (pose (userData r)) tree renderFrameId_ fixedFrameId_
    (frame_id (header (pointCloud (userData r)))) currentTime (srcTime (userData r)).

(** The diagnostic of kind [kind] recorded for [topic_], if any. *)
Definition diagnostic (topic_ kind : string) (errors : gmap string (gmap string string))
    : option string :=
  (errors !! topic_) ≫= (fun kinds => kinds !! kind).

(** What [_updatePointCloudRenderable] never writes once the message is
    stored: everything of the renderable except the contents of its
    geometry, and everything of the store except the diagnostics, the
    scratch colour, the allocation counter and the call log. *)
Record Frame : Type := {
  frame_object3d : Object3D;
  frame_topic : string;
  frame_settings : PointCloudSettings;
  frame_pointCloud : PointCloud2;
  frame_pose : Pose;
  frame_srcTime : Z;
  frame_points : Points;
  frame_geometry_id : nat;
  frame_geometry_name : string;
  frame_materialCache : MaterialCache;
  frame_transformTree : TransformTree;
  frame_renderFrameId : option string;
  frame_fixedFrameId : option string;
  frame_pointCloudsByTopic : list (string * PointCloudRenderable);
  frame_scene_children : list nat;
}.

Definition frame (s : Ctx) : Frame :=
  {| frame_object3d := object3d s.1;
     frame_topic := topic (userData s.1);
     frame_settings := settings (userData s.1);
     frame_pointCloud := pointCloud (userData s.1);
     frame_pose := pose (userData s.1);
     frame_srcTime := srcTime (userData s.1);
     frame_points := points (userData s.1);
     frame_geometry_id := geometry_id (geometry (userData s.1));
     frame_geometry_name := geometry_name (geometry (userData s.1));
     frame_materialCache := materialCache s.2;
     frame_transformTree := transformTree s.2;
     frame_renderFrameId := renderFrameId s.2;
     frame_fixedFrameId := fixedFrameId s.2;
     frame_pointCloudsByTopic := pointCloudsByTopic s.2;
     frame_scene_children := scene_children s.2 |}.

(** The size of a geometry and, by attribute, the identity, item size and
    length of its typed array. *)
Definition shape (s : Ctx) : N * list (string * (nat * N * nat)) :=
  (itemCount (geometry (userData s.1)),
   (fun entry => (entry.1, (buffer entry.2, itemSize entry.2, length (array entry.2))))
     <$> attributes (geometry (userData s.1))).

(** The renderable with one attribute of its geometry replaced. *)
Definition put_attribute (attr : string) (a : BufferAttribute) (s : Ctx) : Ctx :=
  (set_userData (set_geometry (set_attributes (map_set attr a))) s.1, s.2).

(** The write of point [i] into the position attribute (lines 256-259). *)
Definition writePosition (pointCloud : PointCloud2) (rdx rdy rdz : FieldReader)
    (a : BufferAttribute) (i : N) : BufferAttribute :=
  let pointOffset := (i * point_step pointCloud)%N in
  setXYZ i (rdx (data pointCloud) pointOffset) (rdy (data pointCloud) pointOffset)
    (rdz (data pointCloud) pointOffset) a.

(** [m] keeps [proj]: the projection of the store is the same after [m],
    whether [m] returns or throws. *)
Definition keeps {B : Type} (proj : Ctx -> B) {A : Type} (m : M Ctx A) : Prop :=
  forall s, proj (m s).2 = proj s.

(** The store of a freshly constructed [PointClouds] (constructor, lines
    49-52), given the renderer's transform tree. *)
Definition emptyWorld (tree : TransformTree) : World :=
  {| layerErrors := ∅; materialCache := []; transformTree := tree;
     renderFrameId := None; fixedFrameId := None; pointCloudsByTopic := [];
     scene_children := []; tempColor := tempColor_init; next_id := 0; calls := [] |}.

(** *** [dispose] (lines 54-64) and [releasePointsMaterial] (lines 290-294) *)

Definition releasePointsMaterial (settings : PointCloudSettings) (cache : MaterialCache)
    : MaterialCache :=
  let transparent := pointCloudHasTransparency settings in
  let scale := (pointSize settings, pointSize settings) in
  release {| material_scale := scale; material_transparent := transparent |} cache.

(** The body of the loop of [dispose], run on one renderable: the material
    cache after it, and what has been given back so far. *)
Definition disposeRenderable (acc : MaterialCache * list Disposal)
    (renderable : PointCloudRenderable) : MaterialCache * list Disposal :=
  let settings_ := settings (userData renderable) in
  let points_ := points (userData renderable) in
  (releasePointsMaterial settings_ acc.1,
   (acc.2 ++ [ materialCache_release
                 {| material_scale := (pointSize settings_, pointSize settings_);
                    material_transparent := pointCloudHasTransparency settings_ |};
               geometry_dispose (points_geometry points_);
               pickingMaterial_dispose (pickingMaterial points_) ])%list).

(** [dispose]: the store after the call and what was given back.
    [this.children.length = 0] empties the children of the collection and
    [clear()] empties the map. *)
Definition dispose (w : World) : World * list Disposal :=
  let done :=
    fold_left disposeRenderable (map_values (pointCloudsByTopic w)) (materialCache w, []) in
  (set_pointCloudsByTopic (fun _ => [])
     (set_scene_children (fun _ => [])
        (set_materialCache (fun _ => done.1) w)),
   done.2).

(** *** The life of a collection *)

Definition set_frames (renderFrameId_ fixedFrameId_ : option string) (w : World) : World :=
  {| layerErrors := layerErrors w; materialCache := materialCache w;
     transformTree := transformTree w; renderFrameId := renderFrameId_;
     fixedFrameId := fixedFrameId_; pointCloudsByTopic := pointCloudsByTopic w;
     scene_children := scene_children w; tempColor := tempColor w;
     next_id := next_id w; calls := calls w |}.

(** What the owner of a [PointClouds] does with it: it hands it a message,
    starts a frame, disposes it; the renderer assigns its two frame names. *)
Inductive Op : Type :=
  | Message (topic : string) (pointCloud : PointCloud2)
  | Tick (currentTime : Z)
  | Frames (renderFrameId fixedFrameId : option string)
  | Dispose.

(** The store after one operation. An exception leaves the store as the
    method left it. *)
Definition apply_op (w : World) (op : Op) : World :=
  match op with
  | Message topic_ pointCloud_ => (addPointCloud2Message topic_ pointCloud_ w).2
  | Tick currentTime => (startFrame currentTime w).2
  | Frames renderFrameId_ fixedFrameId_ => set_frames renderFrameId_ fixedFrameId_ w
  | Dispose => (dispose w).1
  end.

Definition run_ops (ops : list Op) (w : World) : World := fold_left apply_op ops w.

(** *** More notions used to state the properties *)

(** [PointsVertexColor.id(scale, transparent)] for the settings: the
    configuration that [pointsMaterial] acquires and that
    [releasePointsMaterial] releases. *)
Definition materialId (settings : PointCloudSettings) : PointsMaterial :=
  {| material_scale := (pointSize settings, pointSize settings);
     material_transparent := pointCloudHasTransparency settings |}.

(** Settings that differ from the ones [addPointCloud2Message] starts from
    (lines 74-83) in nothing but the colour field, the colour mode and the
    byte order. *)
Definition defaultsKept (s : PointCloudSettings) : Prop :=
  s = set_color (colorField s) (colorMode s) (rgbByteOrder s) defaultSettings.

(** A map entry as [addPointCloud2Message] makes it: the renderable knows
    the topic it is registered for, its geometry has the two attributes,
    its [THREE.Points] refers to that geometry, and material and picking
    material are those of its settings. *)
Definition entry_ok (entry : string * PointCloudRenderable) : Prop :=
  let u := userData entry.2 in
  topic u = entry.1
  /\ geometry_ok (geometry u)
  /\ points_geometry (points u) = geometry_id (geometry u)
  /\ points_material (points u) = materialId (settings u)
  /\ pickingMaterial (points u) = createPickingMaterial (settings u)
  /\ defaultsKept (settings u).

Definition registered (w : World) : Prop :=
  NoDup (map_keys (pointCloudsByTopic w)) /\ Forall entry_ok (pointCloudsByTopic w).

(** The settings a message on [topic_] is validated and decoded with: those
    of the topic's renderable or, for a topic without one, those selected
    from the message itself (line 84). *)
Definition settingsFor (topic_ : string) (pointCloud : PointCloud2) (w : World)
    : PointCloudSettings :=
  match map_get topic_ (pointCloudsByTopic w) with
  | Some renderable => settings (userData renderable)
  | None => autoSelectColorField defaultSettings pointCloud
  end.

(** A field named [n], and a field named as the colour field of the
    settings, among [fs]. *)
Definition named (n : string) (fs : list PointField) : bool :=
  existsb (fun field => bool_decide (field_name field = n)) fs.

Definition colorNamed (settings : PointCloudSettings) (fs : list PointField) : bool :=
  existsb (fun field => bool_decide (Some (field_name field) = colorField settings)) fs.

(** A field the scan asks [getReader] about (lines 174-208). *)
Definition scanned (settings : PointCloudSettings) (field : PointField) : bool :=
  bool_decide (field_name field ∈ ["x"; "y"; "z"])
  || bool_decide (Some (field_name field) = colorField settings).

(** The fields carry all four names the scan looks for: once it has met
    them, with a reader for each, the loop is left by [break] (line 210). *)
Definition bindsAll (settings : PointCloudSettings) (fs : list PointField) : bool :=
  named "x" fs && named "y" fs && named "z" fs && colorNamed settings fs.

(** The write of point [i] into the colour attribute (lines 262-264): the
    converter writes into the scratch colour, whose four channels are then
    stored. The result is the attribute and the scratch colour. *)
Definition writeColor (pointCloud : PointCloud2) (rdc : FieldReader)
    (colorConverter : ColorRGBA -> number -> ColorRGBA)
    (acc : BufferAttribute * ColorRGBA) (i : N) : BufferAttribute * ColorRGBA :=
  let colorValue := rdc (data pointCloud) (i * point_step pointCloud)%N in
  let c := colorConverter acc.2 colorValue in
  (setXYZW i (color_r c) (color_g c) (color_b c) (color_a c) acc.1, c).

(** A map entry after the pose pass of [startFrame]: the renderable with
    the object [updatePose] returned for it. *)
Definition posedEntry (renderFrameId_ fixedFrameId_ : string) (currentTime : Z)
    (tree : TransformTree) (entry : string * PointCloudRenderable)
    : string * PointCloudRenderable :=
  (entry.1,
   set_object3d (poseResult renderFrameId_ fixedFrameId_ currentTime tree entry.2).1 entry.2).

(** The four reader variables of the scan, and the test by which a field
    is taken for each (lines 174, 182, 190 and 200). *)
Inductive Slot : Type := slot_x | slot_y | slot_z | slot_color.

Definition slotReader (slot : Slot) (rs : Readers) : option FieldReader :=
  match slot with
  | slot_x => xReader rs
  | slot_y => yReader rs
  | slot_z => zReader rs
  | slot_color => colorReader rs
  end.

Definition slotNamed (settings : PointCloudSettings) (slot : Slot) (field : PointField) : bool :=
  match slot with
  | slot_x => bool_decide (field_name field = "x")
  | slot_y => bool_decide (field_name field = "y")
  | slot_z => bool_decide (field_name field = "z")
  | slot_color => bool_decide (Some (field_name field) = colorField settings)
  end.

(** What [dispose] gives back for one renderable. *)
Definition disposalOf (renderable : PointCloudRenderable) : list Disposal :=
  [ materialCache_release (points_material (points (userData renderable)));
    geometry_dispose (geometry_id (geometry (userData renderable)));
    pickingMaterial_dispose (pickingMaterial (points (userData renderable))) ].

End Model.

(** *** A concrete instance of the imported modules

    Used to run the model on concrete messages: unsigned-byte fields only,
    a transform tree that is the list of frames it can place, and a colour
    converter that shows the value and the domain it was built for. *)

Definition UINT8 : N := 2.

Definition readUint8 (offset : N) : FieldReader :=
  fun view pointOffset =>
    match view !! N.to_nat (pointOffset + offset) with
    | Some byte => num (Z.of_N (Byte.to_N byte))
    | None => NaN
    end.

Definition hide (o : Object3D) (shown : bool) : Object3D :=
  {| object_id := object_id o; name := name o; children := children o;
     position := position o; quaternion := quaternion o; visible := shown |}.

#[global] Instance testImports : Imports := {|
  TransformTree := list string;
  rosTimeToNanoSec := fun t => (sec t * 1000000000 + nsec t)%Z;
  makePose := {| pose_position := origin; pose_orientation := identityQuaternion |};
  updatePose := fun o _ tree _ _ frameId _ _ =>
    let known := bool_decide (frameId ∈ tree) in (hide o known, known);
  getColorConverter := fun _ lo hi _ value =>
    {| color_r := value; color_g := lo; color_b := hi; color_a := num 1 |};
  getReader := fun field step =>
    if (field_datatype field =? UINT8)%N && (field_offset field + 1 <=? step)%N
    then Some (readUint8 (field_offset field)) else None;
  PointFieldType_name := fun type => if (type =? UINT8)%N then Some "UINT8" else None;
  missingTransformMessage := fun renderFrameId_ fixedFrameId_ frameId =>
    "Missing transform from frame <" +:+ frameId +:+ "> to frame <" +:+ renderFrameId_ +:+ ">";
  MISSING_TRANSFORM := "MISSING_TRANSFORM";
|}.

Definition uint8Field (n : string) (offset : N) : PointField :=
  {| field_name := n; field_offset := offset; field_datatype := UINT8; field_count := 1 |}.

Definition stampAt (s : Z) : Header :=
  {| stamp := {| sec := s; nsec := 0 |}; frame_id := "base_link" |}.

(** Three points (1,2), (3,4), (5,6) with intensities 0, 5 and 10: fields
    x, y and intensity, no z. *)
Definition cloudXY : PointCloud2 :=
  {| header := stampAt 1; height := 1; width := 3;
     fields := [uint8Field "x" 0; uint8Field "y" 1; uint8Field "intensity" 2];
     is_bigendian := false; point_step := 3; row_step := 9;
     data := [Byte.x01; Byte.x02; Byte.x00; Byte.x03; Byte.x04; Byte.x05;
              Byte.x05; Byte.x06; Byte.x0a] |}.

(** The same payload, declared big-endian and stamped one second later. *)
Definition cloudBigEndian : PointCloud2 :=
  {| header := stampAt 2; height := 1; width := 3;
     fields := fields cloudXY; is_bigendian := true; point_step := 3; row_step := 9;
     data := data cloudXY |}.


Definition world0 : World := emptyWorld (["base_link"] : list string).

(** The store after the first message on /points. *)
Definition world1 : World := (addPointCloud2Message "/points" cloudXY world0).2.

(** The renderable of /points in [world1]. *)
Definition renderable1 : PointCloudRenderable :=
  (_updatePointCloudRenderable cloudXY (createRenderable "/points" cloudXY world0)).2.1.

(** The readers bound for [cloudXY] when the colour field is intensity. *)
Definition readersXY : Readers :=
  {| xReader := Some (readUint8 0); yReader := Some (readUint8 1); zReader := None;
     colorReader := Some (readUint8 2) |}.

(** A cloud with a composite colour field after an intensity field. *)
Definition cloudBgr : PointCloud2 :=
  {| header := stampAt 5; height := 1; width := 1;
     fields := [uint8Field "x" 0; uint8Field "y" 1; uint8Field "i" 2; uint8Field "bgr" 3];
     is_bigendian := false; point_step := 4; row_step := 4;
     data := [Byte.x01; Byte.x02; Byte.x03; Byte.x04] |}.

(** A cloud in the frame lidar, which the transform tree cannot place. *)
Definition cloudLidar : PointCloud2 :=
  {| header := {| stamp := {| sec := 4; nsec := 0 |}; frame_id := "lidar" |};
     height := 1; width := 1;
     fields := [uint8Field "x" 0; uint8Field "y" 1; uint8Field "z" 2];
     is_bigendian := false; point_step := 3; row_step := 3;
     data := [Byte.x07; Byte.x08; Byte.x09] |}.

(** The readers bound for [cloudLidar] when the colour field is intensity,
    which the cloud does not carry. *)
Definition readersXYZ : Readers :=
  {| xReader := Some (readUint8 0); yReader := Some (readUint8 1);
     zReader := Some (readUint8 2); colorReader := None |}.

(** An empty payload with a zero [point_step], and a payload of seven
    bytes for points of three. *)
Definition cloudZeroStep : PointCloud2 :=
  {| header := stampAt 7; height := 0; width := 0; fields := [uint8Field "x" 0];
     is_bigendian := false; point_step := 0; row_step := 0; data := [] |}.

Definition cloudRagged : PointCloud2 :=
  {| header := stampAt 8; height := 1; width := 2; fields := fields cloudXY;
     is_bigendian := false; point_step := 3; row_step := 6;
     data := [Byte.x01; Byte.x02; Byte.x00; Byte.x03; Byte.x04; Byte.x05; Byte.x06] |}.

(** A cloud whose only field is x. *)
Definition cloudX : PointCloud2 :=
  {| header := stampAt 6; height := 1; width := 2; fields := [uint8Field "x" 0];
     is_bigendian := false; point_step := 1; row_step := 2;
     data := [Byte.x01; Byte.x02] |}.

(** The renderer's frames as [frameHandler] assigns them. *)
Definition withFrames (frames : option string) (w : World) : World :=
  {| layerErrors := layerErrors w; materialCache := materialCache w;
     transformTree := transformTree w; renderFrameId := frames;
     fixedFrameId := frames; pointCloudsByTopic := pointCloudsByTopic w;
     scene_children := scene_children w; tempColor := tempColor w;
     next_id := next_id w; calls := calls w |}.

(** Two topics, /points in base_link and /lidar in lidar, with both frames
    of the renderer set to base_link. *)
Definition world2 : World :=
  withFrames (Some "base_link") (addPointCloud2Message "/lidar" cloudLidar world1).2.

(** The store after the big-endian message was rejected on /points. *)
Definition world3 : World := (addPointCloud2Message "/points" cloudBigEndian world1).2.

(** One point per row of six bytes: the last three bytes of the row are
    padding. *)
Definition cloudPadded : PointCloud2 :=
  {| header := stampAt 9; height := 1; width := 1;
     fields := [uint8Field "x" 0; uint8Field "y" 1; uint8Field "z" 2];
     is_bigendian := false; point_step := 3; row_step := 6;
     data := [Byte.x01; Byte.x02; Byte.x03; Byte.x04; Byte.x05; Byte.x06] |}.

(** A cloud whose y field has a type the readers do not cover (7 is
    FLOAT32). *)
Definition cloudFloatY : PointCloud2 :=
  {| header := stampAt 10; height := 1; width := 1;
     fields := [ uint8Field "x" 0;
                 {| field_name := "y"; field_offset := 1; field_datatype := 7;
                    field_count := 1 |};
                 uint8Field "z" 2 ];
     is_bigendian := false; point_step := 3; row_step := 3;
     data := [Byte.x01; Byte.x02; Byte.x03] |}.

(** A second instance, with readers of a one-byte format in which 255
    stands for a value that is not a number. *)
Definition readMarked (offset : N) : FieldReader :=
  fun view pointOffset =>
    match view !! N.to_nat (pointOffset + offset) with
    | Some byte =>
        if (Byte.to_N byte =? 255)%N then NaN else num (Z.of_N (Byte.to_N byte))
    | None => NaN
    end.

Definition markedImports : Imports := {|
  TransformTree := list string;
  rosTimeToNanoSec := fun t => (sec t * 1000000000 + nsec t)%Z;
  makePose := {| pose_position := origin; pose_orientation := identityQuaternion |};
  updatePose := fun o _ tree _ _ frameId _ _ =>
    let known := bool_decide (frameId ∈ tree) in (hide o known, known);
  getColorConverter := fun _ lo hi _ value =>
    {| color_r := value; color_g := lo; color_b := hi; color_a := num 1 |};
  getReader := fun field step =>
    if (field_datatype field =? UINT8)%N && (field_offset field + 1 <=? step)%N
    then Some (readMarked (field_offset field)) else None;
  PointFieldType_name := fun type => if (type =? UINT8)%N then Some "UINT8" else None;
  missingTransformMessage := fun renderFrameId_ fixedFrameId_ frameId =>
    "Missing transform from frame <" +:+ frameId +:+ "> to frame <" +:+ renderFrameId_ +:+ ">";
  MISSING_TRANSFORM := "MISSING_TRANSFORM";
|}.

(** Two points with the intensities 5 and 255. *)
Definition cloudMarked : PointCloud2 :=
  {| header := stampAt 11; height := 1; width := 2;
     fields := [uint8Field "x" 0; uint8Field "y" 1; uint8Field "intensity" 2];
     is_bigendian := false; point_step := 3; row_step := 6;
     data := [Byte.x01; Byte.x02; Byte.x05; Byte.x03; Byte.x04; Byte.xff] |}.

Definition readersMarked : Readers :=
  {| xReader := Some (readMarked 0); yReader := Some (readMarked 1); zReader := None;
     colorReader := Some (readMarked 2) |}.

(** A cloud with an rgba field. *)
Definition cloudRgba : PointCloud2 :=
  {| header := stampAt 12; height := 1; width := 1;
     fields := [uint8Field "x" 0; uint8Field "y" 1; uint8Field "rgba" 2];
     is_bigendian := false; point_step := 3; row_step := 3;
     data := [Byte.x01; Byte.x02; Byte.x03] |}.

(** The readers bound for [cloudPadded]. *)
Definition readersPadded : Readers :=
  {| xReader := Some (readUint8 0); yReader := Some (readUint8 1);
     zReader := Some (readUint8 2); colorReader := Some (readUint8 0) |}.

End PointClouds.

(* ===================================================================== *)
(** ** renderables/markers/RenderableMarker.ts and RenderableSphere.ts *)
(* ===================================================================== *)

Module Markers.
Import Js Ros.

(** visualization_msgs/Marker, the members the two classes read. *)
Record Marker : Type := {
  header : Header;
  ns : string;
  id : Z;
  pose : Pose;
  scale : Vector3;
  color : ColorRGBA;
  colors : list ColorRGBA;
  points : list Vector3;
}.

(** ../../DetailLevel *)
Inductive DetailLevel : Type := Low | Medium | High.

#[global] Instance DetailLevel_eq_dec : EqDecision DetailLevel.
Proof. solve_decision. Defined.

(** The imported modules that are not part of the sources: [../../color]
    ([rgbaEqual]), [./materials] ([standardMaterial],
    [releaseStandardMaterial], acting on the renderer's material cache),
    [../../ros] ([rosTimeToNanoSec]) and [./markerId] ([getMarkerId]). *)
Class Imports : Type := {
  Material : Type;
  MaterialCache : Type;
  rgbaEqual : ColorRGBA -> ColorRGBA -> bool;
  standardMaterial : Marker -> MaterialCache -> Material * MaterialCache;
  releaseStandardMaterial : Marker -> MaterialCache -> MaterialCache;
  rosTimeToNanoSec : Time -> Z;
  getMarkerId : string -> string -> Z -> string;
}.

Section Model.
Context `{Imports}.

Record MarkerUserData : Type := { userData_pose : Pose; userData_srcTime : Z }.

(** [THREE.SphereGeometry(0.5, subdivisions, subdivisions)] with its
    bounding sphere computed. *)
Record SphereGeometry : Type := { widthSegments : N; heightSegments : N }.

Record Mesh : Type := {
  mesh_geometry : SphereGeometry;
  material : Material;
  castShadow : bool;
  receiveShadow : bool;
}.

(** A [RenderableSphere]: the members of [RenderableMarker], the mesh, and
    the [scale] of the underlying [THREE.Object3D]. *)
Record RenderableSphere : Type := {
  name : string;
  topic : string;
  marker : Marker;
  userData : MarkerUserData;
  mesh : Mesh;
  object_scale : Vector3;
}.

(** What the classes share: the renderer's material cache, detail level and
    [renderables] map (names of the registered objects, in insertion
    order), and the static geometry cache of [RenderableSphere]. *)
Record Shared : Type := {
  materialCache : MaterialCache;
  lod : DetailLevel;
  renderables : list string;
  static_lod : option DetailLevel;
  static_geometry : option SphereGeometry;
}.

Definition set_materialCache (c : MaterialCache) (s : Shared) : Shared :=
  {| materialCache := c; lod := lod s; renderables := renderables s;
     static_lod := static_lod s; static_geometry := static_geometry s |}.

Definition sphereSubdivisions (l : DetailLevel) : N :=
  match l with Low => 10 | Medium => 24 | High => 32 end.

(** [RenderableSphere.geometry(lod)] (lines 50-58) *)
Definition geometry (l : DetailLevel) (s : Shared) : SphereGeometry * Shared :=
  match static_geometry s with
  | Some g =>
      if decide (Some l = static_lod s) then (g, s)
      else
        let subdivisions := sphereSubdivisions l in
        let g' := {| widthSegments := subdivisions; heightSegments := subdivisions |} in
        (g', {| materialCache := materialCache s; lod := lod s; renderables := renderables s;
                static_lod := Some l; static_geometry := Some g' |})
  | None =>
      let subdivisions := sphereSubdivisions l in
      let g' := {| widthSegments := subdivisions; heightSegments := subdivisions |} in
      (g', {| materialCache := materialCache s; lod := lod s; renderables := renderables s;
              static_lod := Some l; static_geometry := Some g' |})
  end.

(** [RenderableMarker.update] (RenderableMarker.ts, update) *)
Definition RenderableMarker_update (marker_ : Marker) (this : RenderableSphere) : RenderableSphere :=
  {| name := name this; topic := topic this;
     marker := marker_;
     userData := {| userData_pose := pose marker_;
                    userData_srcTime := rosTimeToNanoSec (stamp (header marker_)) |};
     mesh := mesh this; object_scale := object_scale this |}.

Definition set_material (m : Material) (this : RenderableSphere) : RenderableSphere :=
  {| name := name this; topic := topic this; marker := marker this;
     userData := userData this;
     mesh := {| mesh_geometry := mesh_geometry (mesh this); material := m;
                castShadow := castShadow (mesh this);
                receiveShadow := receiveShadow (mesh this) |};
     object_scale := object_scale this |}.

Definition set_scale (v : Vector3) (this : RenderableSphere) : RenderableSphere :=
  {| name := name this; topic := topic this; marker := marker this;
     userData := userData this; mesh := mesh this; object_scale := v |}.

(** [RenderableSphere.update] (RenderableSphere.ts, lines 39-48). The guard
    reads [this.marker] after [super.update] has assigned it. *)
Definition update (marker_ : Marker) (st : RenderableSphere * Shared) : RenderableSphere * Shared :=
  let this := RenderableMarker_update marker_ st.1 in
  let shared := st.2 in
  let '(this, shared) :=
    if negb (rgbaEqual (color marker_) (color (marker this))) then
      let cache := releaseStandardMaterial marker_ (materialCache shared) in
      let '(m, cache) := standardMaterial marker_ cache in
      (set_material m this, set_materialCache cache shared)
    else (this, shared) in
  (set_scale {| x := x (scale marker_); y := y (scale marker_); z := z (scale marker_) |} this,
   shared).

(** The constructor (RenderableMarker.ts constructor, then RenderableSphere.ts
    lines 22-33). *)
Definition new_RenderableSphere (topic_ : string) (marker_ : Marker) (shared : Shared)
    : RenderableSphere * Shared :=
  let name_ := getMarkerId topic_ (ns marker_) (id marker_) in
  let shared :=
    {| materialCache := materialCache shared; lod := lod shared;
       renderables :=
         if bool_decide (name_ ∈ renderables shared) then renderables shared
         else (renderables shared ++ [name_])%list;
       static_lod := static_lod shared; static_geometry := static_geometry shared |} in
  let '(m, cache) := standardMaterial marker_ (materialCache shared) in
  let shared := set_materialCache cache shared in
  let '(g, shared) := geometry (lod shared) shared in
  let this :=
    {| name := name_; topic := topic_; marker := marker_;
       userData := {| userData_pose := pose marker_;
                      userData_srcTime := rosTimeToNanoSec (stamp (header marker_)) |};
       mesh := {| mesh_geometry := g; material := m; castShadow := true;
                  receiveShadow := true |};
       object_scale := {| x := num 1; y := num 1; z := num 1 |} |} in
  update marker_ (this, shared).

(** [RenderableMarker.dispose] (RenderableMarker.ts, dispose):
    [renderables.delete(this.name)]. *)
Definition RenderableMarker_dispose (this : RenderableSphere) (shared : Shared) : Shared :=
  {| materialCache := materialCache shared; lod := lod shared;
     renderables := filter (fun n => n <> name this) (renderables shared);
     static_lod := static_lod shared; static_geometry := static_geometry shared |}.

(** [RenderableSphere.dispose] (RenderableSphere.ts, lines 35-37). The
    override releases the material and does not call [super.dispose()]. *)
Definition dispose (st : RenderableSphere * Shared) : Shared :=
  set_materialCache (releaseStandardMaterial (marker st.1) (materialCache st.2)) st.2.

(** A [THREE.Vector4Tuple]. *)
Definition Vector4Tuple : Type := number * number * number * number.

(** [_markerColorsToLinear] (RenderableMarker.ts, _markerColorsToLinear).
    [convertSRGBToLinear] stands for
    [tempColor.setRGB(r, g, b).convertSRGBToLinear()] of [THREE.Color], as a
    function of the three channels. The callback acts on a state of its own;
    it is handed the tuple as it is at the call. *)
Definition _markerColorsToLinear {S : Type}
    (convertSRGBToLinear : number * number * number -> number * number * number)
    (marker_ : Marker) (callback : Vector4Tuple -> nat -> S -> S) (s : S) : S :=
  let length_ := length (points marker_) in
  fold_left
    (fun s i =>
       let srgb := nullish (colors marker_ !! i) (color marker_) in
       let linear := convertSRGBToLinear (color_r srgb, color_g srgb, color_b srgb) in
       callback (linear.1.1, linear.1.2, linear.2, color_a srgb) i s)
    (seq 0 length_) s.

(** *** Notions used to state the properties *)

(** The static cache of [RenderableSphere] holds the geometry of the detail
    level it records. *)
Definition geometryCached (s : Shared) : Prop :=
  match static_geometry s with
  | Some g =>
      exists l, static_lod s = Some l
                /\ widthSegments g = sphereSubdivisions l
                /\ heightSegments g = sphereSubdivisions l
  | None => True
  end.

(** The calls a callback of [_markerColorsToLinear] receives, in order. *)
Definition linearColors
    (convertSRGBToLinear : number * number * number -> number * number * number)
    (marker_ : Marker) : list (Vector4Tuple * nat) :=
  _markerColorsToLinear convertSRGBToLinear marker_
    (fun tuple i received => (received ++ [(tuple, i)])%list) [].

End Model.

(** *** A concrete instance of the imported modules

    A material is identified by the colour it was made for, the cache counts
    the references to each material, and [rgbaEqual] compares the four
    channels with [===]. *)

#[global] Instance ColorRGBA_eq_dec : EqDecision ColorRGBA.
Proof. solve_decision. Defined.

Definition acquireColor (c : ColorRGBA) (cache : list (ColorRGBA * nat))
    : ColorRGBA * list (ColorRGBA * nat) :=
  (c, map_set c (S (default 0 (map_get c cache))) cache).

Definition releaseColor (c : ColorRGBA) (cache : list (ColorRGBA * nat)) : list (ColorRGBA * nat) :=
  match map_get c cache with
  | Some (S n) => map_set c n cache
  | _ => cache
  end.

#[global] Instance testImports : Imports := {|
  Material := ColorRGBA;
  MaterialCache := list (ColorRGBA * nat);
  rgbaEqual := fun a b =>
    strict_eq (color_r a) (color_r b) && strict_eq (color_g a) (color_g b)
    && strict_eq (color_b a) (color_b b) && strict_eq (color_a a) (color_a b);
  standardMaterial := fun m cache => acquireColor (color m) cache;
  releaseStandardMaterial := fun m cache => releaseColor (color m) cache;
  rosTimeToNanoSec := fun t => (sec t * 1000000000 + nsec t)%Z;
  getMarkerId := fun topic_ ns_ id_ => topic_ +:+ ":" +:+ ns_ +:+ ":" +:+ pretty id_;
|}.

Definition rgba (r g b a : Z) : ColorRGBA :=
  {| color_r := num r; color_g := num g; color_b := num b; color_a := num a |}.

Definition sphereMarker (t : Z) (c : ColorRGBA) : Marker :=
  {| header := {| stamp := {| sec := t; nsec := 0 |}; frame_id := "base_link" |};
     ns := "demo"; id := 7;
     pose := {| pose_position := {| x := num 0; y := num 0; z := num 0 |};
                pose_orientation := {| qx := num 0; qy := num 0; qz := num 0; qw := num 1 |} |};
     scale := {| x := num 2; y := num 2; z := num 2 |};
     color := c; colors := []; points := [] |}.

Definition shared0 : Shared :=
  {| materialCache := ([] : list (ColorRGBA * nat)); lod := High; renderables := [];
     static_lod := None; static_geometry := None |}.

(** A sphere constructed from a red marker. *)
Definition redSphere : RenderableSphere * Shared :=
  new_RenderableSphere "/markers" (sphereMarker 1 (rgba 1 0 0 1)) shared0.

(** A marker of three points with a colour for the first one only. *)
Definition stripMarker : Marker :=
  {| header := {| stamp := {| sec := 3; nsec := 0 |}; frame_id := "base_link" |};
     ns := "demo"; id := 8;
     pose := {| pose_position := {| x := num 0; y := num 0; z := num 0 |};
                pose_orientation := {| qx := num 0; qy := num 0; qz := num 0; qw := num 1 |} |};
     scale := {| x := num 1; y := num 1; z := num 1 |};
     color := rgba 0 0 1 0;
     colors := [rgba 1 0 0 1];
     points := [ {| x := num 0; y := num 0; z := num 0 |};
                 {| x := num 1; y := num 0; z := num 0 |};
                 {| x := num 2; y := num 0; z := num 0 |} ] |}.

(** The conversion from sRGB on channels that are 0 or 1, which it leaves
    as they are. *)
Definition linearEnds (c : number * number * number) : number * number * number := c.

End Markers.

(* ===================================================================== *)
(** ** Renderer.ts: the animation-frame loop *)
(* ===================================================================== *)

Module Renderer.
Import Js.

Inductive EventName : Type := startFrame | endFrame.

#[global] Instance EventName_eq_dec : EqDecision EventName.
Proof. solve_decision. Defined.

(** What the two handlers do to the objects around the renderer, in the
    order the statements run: the calls on the browser, the event emitter,
    the orbit controls, the material cache, the two renderable collections
    and the WebGL renderer. *)
Inductive Effect : Type :=
  | requestAnimationFrame
  | emit (event : EventName) (currentTime : Z)
  | controls_update
  | materialCache_update
  | frameAxes_startFrame (currentTime : Z)
  | markers_startFrame (currentTime : Z)
  | gl_clear
  | gl_render
  | gl_info_reset.

#[global] Instance Effect_eq_dec : EqDecision Effect.
Proof. solve_decision. Defined.

(** The members of [Renderer] that the handlers read or assign. *)
Record Renderer : Type := {
  currentTime : option Z;
  fixedFrameId : option string;
  renderFrameId : option string;
}.

(** [frameHandler] (lines 172-192): the renderer after the call and the
    effects of the call. *)
Definition frameHandler (currentTime_ : Z) (this : Renderer) : Renderer * list Effect :=
  ({| currentTime := currentTime this;
      fixedFrameId := Some "base_link";
      renderFrameId := Some "base_link" |},
   [ emit startFrame currentTime_;
     controls_update;
     materialCache_update;
     frameAxes_startFrame currentTime_;
     markers_startFrame currentTime_;
     gl_clear;
     gl_render;
     emit endFrame currentTime_;
     gl_info_reset ]).

(** [animationFrame] (lines 165-170). [currentTime != undefined] holds for
    every bigint, [0n] included. *)
Definition animationFrame (this : Renderer) : Renderer * list Effect :=
  match currentTime this with
  | Some currentTime_ =>
      let '(this', effects) := frameHandler currentTime_ this in
      (this', requestAnimationFrame :: effects)
  | None => (this, [requestAnimationFrame])
  end.

(** What happens to a renderer between its construction and its disposal:
    the display refreshes, and the host assigns [currentTime]. *)
Inductive HostStep : Type :=
  | refresh
  | setCurrentTime (t : Z).

(** The browser's side of the loop: [pending] tells whether a callback is
    queued with [requestAnimationFrame]; a refresh runs the queued callback. *)
Record Loop : Type := { renderer : Renderer; pending : bool }.

Definition scheduled (effects : list Effect) : bool :=
  bool_decide (requestAnimationFrame ∈ effects).

Definition hostStep (step : HostStep) (l : Loop) : Loop * list Effect :=
  match step with
  | setCurrentTime t =>
      ({| renderer :=
            {| currentTime := Some t; fixedFrameId := fixedFrameId (renderer l);
               renderFrameId := renderFrameId (renderer l) |};
          pending := pending l |}, [])
  | refresh =>
      if pending l then
        let '(this', effects) := animationFrame (renderer l) in
        ({| renderer := this'; pending := scheduled effects |}, effects)
      else (l, [])
  end.

Fixpoint run (steps : list HostStep) (l : Loop) : Loop * list Effect :=
  match steps with
  | [] => (l, [])
  | step :: rest =>
      let '(l', effects) := hostStep step l in
      let '(l'', effects') := run rest l' in
      (l'', (effects ++ effects')%list)
  end.

(** The constructor ends with a direct call of [animationFrame] (line 128);
    [currentTime] has no initialiser. *)
Definition constructed : Loop * list Effect :=
  let this := {| currentTime := None; fixedFrameId := None; renderFrameId := None |} in
  let '(this', effects) := animationFrame this in
  ({| renderer := this'; pending := scheduled effects |}, effects).

(** The steps of a tick that the scheduler's description names. *)
Definition updatesPoses (e : Effect) : bool :=
  match e with frameAxes_startFrame _ | markers_startFrame _ => true | _ => false end.

(** The resets a tick performs. The only one in [frameHandler] is
    [this.gl.info.reset()], the WebGL statistics of the frame. *)
Definition resetsFrameState (e : Effect) : bool :=
  match e with gl_info_reset => true | _ => false end.

Definition renders (e : Effect) : bool :=
  match e with gl_render => true | _ => false end.

(** The order of a tick as the scheduler's description gives it: the
    [startFrame] event, a pose update, a reset of per-frame state, the
    render, the [endFrame] event, each after the one before. *)
Definition describedOrder (t : Z) (effects : list Effect) : Prop :=
  exists i j k l m e_j e_k e_l,
    i < j /\ j < k /\ k < l /\ l < m /\
    effects !! i = Some (emit startFrame t) /\
    effects !! j = Some e_j /\ updatesPoses e_j = true /\
    effects !! k = Some e_k /\ resetsFrameState e_k = true /\
    effects !! l = Some e_l /\ renders e_l = true /\
    effects !! m = Some (emit endFrame t).

(** The order [frameHandler] has: the same steps with the reset last. *)
Definition handlerOrder (t : Z) (effects : list Effect) : Prop :=
  exists i j l m k e_j e_l e_k,
    i < j /\ j < l /\ l < m /\ m < k /\
    effects !! i = Some (emit startFrame t) /\
    effects !! j = Some e_j /\ updatesPoses e_j = true /\
    effects !! l = Some e_l /\ renders e_l = true /\
    effects !! m = Some (emit endFrame t) /\
    effects !! k = Some e_k /\ resetsFrameState e_k = true.

Definition occurrences (e : Effect) (effects : list Effect) : nat :=
  length (filter (fun e' => e' = e) effects).

(** *** [dispose] (lines 131-136)

    The four calls of the method. It assigns no member of the renderer and
    makes no call on the browser: a callback queued with
    [requestAnimationFrame] stays queued. *)
Inductive Teardown : Type :=
  | frameAxes_dispose
  | markers_dispose
  | gl_dispose
  | gl_forceContextLoss.

#[global] Instance Teardown_eq_dec : EqDecision Teardown.
Proof. solve_decision. Defined.

Definition dispose (this : Renderer) : Renderer * list Teardown :=
  (this, [frameAxes_dispose; markers_dispose; gl_dispose; gl_forceContextLoss]).

(** The life of a renderer: the steps of the host, and the call of
    [dispose] by its owner. *)
Inductive LifeStep : Type :=
  | host (step : HostStep)
  | disposeRenderer.

#[global] Instance HostStep_eq_dec : EqDecision HostStep.
Proof. solve_decision. Defined.

#[global] Instance LifeStep_eq_dec : EqDecision LifeStep.
Proof. solve_decision. Defined.

Definition lifeStep (step : LifeStep) (l : Loop) : Loop * list (Effect + Teardown) :=
  match step with
  | host step_ =>
      let '(l', effects) := hostStep step_ l in (l', inl <$> effects)
  | disposeRenderer =>
      let '(this', teardown) := dispose (renderer l) in
      ({| renderer := this'; pending := pending l |}, inr <$> teardown)
  end.

Fixpoint lifeRun (steps : list LifeStep) (l : Loop) : Loop * list (Effect + Teardown) :=
  match steps with
  | [] => (l, [])
  | step :: rest =>
      let '(l', effects) := lifeStep step l in
      let '(l'', effects') := lifeRun rest l' in
      (l'', (effects ++ effects')%list)
  end.

(** For each display refresh at which [currentTime] is set, the value it
    has then; [time] is the value before the first step. *)
Fixpoint frameTimes (steps : list LifeStep) (time : option Z) : list Z :=
  match steps with
  | [] => []
  | host refresh :: rest =>
      match time with
      | Some t => t :: frameTimes rest time
      | None => frameTimes rest time
      end
  | host (setCurrentTime t) :: rest => frameTimes rest (Some t)
  | disposeRenderer :: rest => frameTimes rest time
  end.

(** The number of display refreshes among the steps. *)
Definition refreshes (steps : list LifeStep) : nat :=
  length (filter (fun step => step = host refresh) steps).

(** The times of the events emitted under [name], the number of scenes
    rendered and the number of callbacks queued, in a trace. *)
Definition emitted (name : EventName) (trace : list (Effect + Teardown)) : list Z :=
  omap (fun e =>
          match e with
          | inl (emit name' t) => if decide (name' = name) then Some t else None
          | _ => None
          end) trace.

Definition rendered (trace : list (Effect + Teardown)) : nat :=
  length (filter (fun e => e = inl gl_render) trace).

Definition queued (trace : list (Effect + Teardown)) : nat :=
  length (filter (fun e => e = inl requestAnimationFrame) trace).

(** *** [markerWorldPosition] (lines 152-161) *)

Section WorldPosition.
Import Ros.

(** [THREE.Matrix4] and [Vector3.applyMatrix4] are the library's. *)
Context {Matrix4 : Type} (applyMatrix4 : Vector3 -> Matrix4 -> Vector3).

(** [renderables], each object with its [matrixWorld], and the module-level
    [tempVec]. *)
Record Positions : Type := {
  renderables : list (string * Matrix4);
  tempVec : Vector3;
}.

(** The vector a result refers to. The only vector the method returns is
    the module-level [tempVec]. *)
Inductive VectorRef : Type := ref_tempVec.

Definition markerWorldPosition (markerId : string) (s : Positions)
    : option VectorRef * Positions :=
  match map_get markerId (renderables s) with
  | None => (None, s)
  | Some matrixWorld =>
      let zero := {| x := num 0; y := num 0; z := num 0 |} in
      (Some ref_tempVec,
       {| renderables := renderables s; tempVec := applyMatrix4 zero matrixWorld |})
  end.

(** Reading a result. *)
Definition deref (r : VectorRef) (s : Positions) : Vector3 :=
  match r with ref_tempVec => tempVec s end.

End WorldPosition.

(** *** A concrete instance of the library's part

    World matrices that are translations, each given by its translation
    vector; the sums are the exact ones, which is what the library computes
    on the small integers used here. *)
Definition plus (a b : number) : number :=
  match a, b with
  | NaN, _ | _, NaN => NaN
  | Finite p, Finite q => Finite (p + q)
  | PosInfinity, NegInfinity | NegInfinity, PosInfinity => NaN
  | PosInfinity, _ | _, PosInfinity => PosInfinity
  | NegInfinity, _ | _, NegInfinity => NegInfinity
  end.

Definition applyTranslation (v : Ros.Vector3) (matrixWorld : Ros.Vector3) : Ros.Vector3 :=
  {| Ros.x := plus (Ros.x v) (Ros.x matrixWorld);
     Ros.y := plus (Ros.y v) (Ros.y matrixWorld);
     Ros.z := plus (Ros.z v) (Ros.z matrixWorld) |}.

Definition positions0 : Positions :=
  {| renderables :=
       [ ("/markers:demo:7", {| Ros.x := num 1; Ros.y := num 2; Ros.z := num 3 |});
         ("/markers:demo:8", {| Ros.x := num 4; Ros.y := num 5; Ros.z := num 6 |}) ];
     tempVec := {| Ros.x := num 9; Ros.y := num 9; Ros.z := num 9 |} |}.

(** A renderer whose [currentTime] is set and whose callback is queued. *)
Definition running : Loop :=
  {| renderer := {| currentTime := Some 7%Z; fixedFrameId := None; renderFrameId := None |};
     pending := true |}.

End Renderer.

(* ===================================================================== *)
(** ** Properties of the frame loop *)
(* ===================================================================== *)

Module RendererFacts.
Import Renderer.

Lemma frameHandler_effects (t : Z) (this : Renderer) :
  (frameHandler t this).2 =
    [ emit startFrame t; controls_update; materialCache_update;
      frameAxes_startFrame t; markers_startFrame t;
      gl_clear; gl_render; emit endFrame t; gl_info_reset ].
Proof. reflexivity. Qed.

Lemma frameHandler_keeps_currentTime (t : Z) (this : Renderer) :
  currentTime (frameHandler t this).1 = currentTime this.
Proof. reflexivity. Qed.

Lemma refresh_idle (l : Loop) :
  currentTime (renderer l) = None -> pending l = true ->
  hostStep refresh l = (l, [requestAnimationFrame]).
Proof.
  intros Hnone Hpending. destruct l as [this p]; simpl in *; subst p.
  unfold animationFrame. rewrite Hnone. reflexivity.
Qed.

Lemma run_idle (n : nat) (l : Loop) :
  currentTime (renderer l) = None -> pending l = true ->
  run (repeat refresh n) l = (l, repeat requestAnimationFrame n).
Proof.
  intros Hnone Hpending. induction n as [|n IH]; [reflexivity|].
  cbn [repeat run]. rewrite (refresh_idle l Hnone Hpending), IH. reflexivity.
Qed.

Lemma run_app (steps1 steps2 : list HostStep) (l : Loop) :
  run (steps1 ++ steps2) l =
    let '(l1, effects1) := run steps1 l in
    let '(l2, effects2) := run steps2 l1 in
    (l2, effects1 ++ effects2).
Proof.
  revert l. induction steps1 as [|step steps1 IH]; intros l; simpl.
  - destruct (run steps2 l); reflexivity.
  - destruct (hostStep step l) as [l' e]. rewrite IH.
    destruct (run steps1 l') as [l1 e1]. destruct (run steps2 l1) as [l2 e2].
    rewrite app_assoc. reflexivity.
Qed.

(** C10. While [currentTime] is undefined, every display refresh only queues
    the next [animationFrame] callback: the renderer is unchanged and the
    effects of [n] refreshes are [n] calls of [requestAnimationFrame], so no
    event is emitted, no pose is updated and nothing is rendered. Once the
    host has assigned [currentTime], the next refresh runs [frameHandler]
    with that time. *)
Theorem idle_until_currentTime_is_set (l : Loop) :
  currentTime (renderer l) = None ->
  pending l = true ->
  (forall n, run (repeat refresh n) l = (l, repeat requestAnimationFrame n))
  /\ (forall n t,
        (run (repeat refresh n ++ [setCurrentTime t; refresh]) l).2 =
          repeat requestAnimationFrame n
          ++ requestAnimationFrame :: (frameHandler t (renderer l)).2).
Proof.
  intros Hnone Hpending. split.
  - intros n. apply run_idle; assumption.
  - intros n t. rewrite run_app, (run_idle n l Hnone Hpending).
    destruct l as [this p]; simpl in *; subst p. reflexivity.
Qed.

Lemma idle_until_currentTime_is_set_witness :
  currentTime (renderer constructed.1) = None
  /\ pending constructed.1 = true
  /\ constructed.2 = [requestAnimationFrame]
  /\ (run [refresh; refresh; refresh] constructed.1).2 =
       [requestAnimationFrame; requestAnimationFrame; requestAnimationFrame]
  /\ (run [refresh; setCurrentTime 0; refresh] constructed.1).2 =
       [ requestAnimationFrame; requestAnimationFrame;
         emit startFrame 0; controls_update; materialCache_update;
         frameAxes_startFrame 0; markers_startFrame 0;
         gl_clear; gl_render; emit endFrame 0; gl_info_reset ].
Proof.
  pose proof (idle_until_currentTime_is_set constructed.1 eq_refl eq_refl) as [Hidle Hset].
  split; [reflexivity|]. split; [reflexivity|]. split; [reflexivity|]. split.
  - exact (f_equal snd (Hidle 3)).
  - exact (Hset 1 0%Z).
Defined.

Lemma reset_is_last (t : Z) (this : Renderer) (k : nat) (e : Effect) :
  (frameHandler t this).2 !! k = Some e -> resetsFrameState e = true -> k = 8.
Proof.
  rewrite frameHandler_effects.
  do 9 (destruct k as [|k]; [intros [= <-]; try discriminate; reflexivity|]).
  discriminate.
Qed.

Lemma render_is_seventh (t : Z) (this : Renderer) (l : nat) (e : Effect) :
  (frameHandler t this).2 !! l = Some e -> renders e = true -> l = 6.
Proof.
  rewrite frameHandler_effects.
  do 9 (destruct l as [|l]; [intros [= <-]; try discriminate; reflexivity|]).
  discriminate.
Qed.

(** C8, as stated, fails: in the tick run at time 0 no reset lies between
    the pose updates and the render. The only reset of the tick is
    [gl.info.reset()], and it is the last statement, after [endFrame]. *)
Lemma described_tick_order_fails :
  ~ describedOrder 0
      (frameHandler 0 {| currentTime := Some 0%Z; fixedFrameId := None;
                         renderFrameId := None |}).2.
Proof.
  intros (i & j & k & l & m & e_j & e_k & e_l & Hij & Hjk & Hkl & Hlm
          & Hi & Hj & Hpose & Hk & Hreset & Hl & Hrender & Hm).
  apply reset_is_last in Hk; [|assumption].
  apply render_is_seventh in Hl; [|assumption].
  lia.
Qed.

(** C8, amended. Every call of [frameHandler] emits [startFrame] once,
    then updates the poses through [frameAxes.startFrame] and
    [markers.startFrame], renders the scene once, emits [endFrame] once, and
    only then resets the WebGL frame statistics; no reset precedes the
    render. *)
Theorem frameHandler_tick_order (t : Z) (this : Renderer) :
  let effects := (frameHandler t this).2 in
  handlerOrder t effects
  /\ occurrences (emit startFrame t) effects = 1
  /\ occurrences (emit endFrame t) effects = 1
  /\ occurrences gl_render effects = 1
  /\ occurrences (frameAxes_startFrame t) effects = 1
  /\ occurrences (markers_startFrame t) effects = 1
  /\ head effects = Some (emit startFrame t)
  /\ (forall k l e_k e_l,
        effects !! k = Some e_k -> resetsFrameState e_k = true ->
        effects !! l = Some e_l -> renders e_l = true -> l < k).
Proof.
  cbv zeta. rewrite frameHandler_effects. split.
  { exists 0, 3, 6, 7, 8, (frameAxes_startFrame t), gl_render, gl_info_reset.
    repeat split; lia. }
  unfold occurrences.
  repeat split;
    try (cbn; repeat case_decide; simplify_eq; reflexivity).
  intros k l e_k e_l Hk Hreset Hl Hrender.
  rewrite <- (frameHandler_effects t this) in Hk, Hl.
  apply reset_is_last in Hk; [|assumption].
  apply render_is_seventh in Hl; [|assumption].
  lia.
Qed.

End RendererFacts.

(* ===================================================================== *)
(** ** Properties of the sphere marker *)
(* ===================================================================== *)

Module MarkersFacts.
Import Js Ros Markers.

Section Facts.
Context `{Imports}.

Lemma super_update_assigns_marker (m : Marker) (this : RenderableSphere) :
  marker (RenderableMarker_update m this) = m.
Proof. reflexivity. Qed.

(** The guard of [update] depends on the new marker alone. *)
Lemma update_unfold (m : Marker) (this : RenderableSphere) (shared : Shared) :
  update m (this, shared) =
    if rgbaEqual (color m) (color m) then
      (set_scale (scale m) (RenderableMarker_update m this), shared)
    else
      let cache := releaseStandardMaterial m (materialCache shared) in
      (set_scale (scale m)
         (set_material (standardMaterial m cache).1 (RenderableMarker_update m this)),
       set_materialCache (standardMaterial m cache).2 shared).
Proof.
  unfold update. cbn [fst snd]. rewrite super_update_assigns_marker.
  destruct (scale m) as [sx sy sz].
  destruct (rgbaEqual (color m) (color m)); cbn [negb].
  - reflexivity.
  - destruct (standardMaterial m _) as [mat cache']. reflexivity.
Qed.

(** C9. [update(m)] leaves the mesh's material (and the material cache) as
    they were, whatever the colour of the marker the sphere held before:
    [super.update] has already stored [m] when the guard is evaluated, so the
    guard compares [m.color] with itself. The hypothesis says that
    [rgbaEqual], which is imported, finds a colour equal to itself. *)
Theorem sphere_update_never_replaces_material
    (m : Marker) (this : RenderableSphere) (shared : Shared) :
  rgbaEqual (color m) (color m) = true ->
  material (mesh (update m (this, shared)).1) = material (mesh this)
  /\ materialCache (update m (this, shared)).2 = materialCache shared
  /\ marker (update m (this, shared)).1 = m.
Proof.
  intros Hrefl. rewrite update_unfold, Hrefl. repeat split.
Qed.

End Facts.

(** A red sphere updated with a blue marker keeps the red material. *)
Lemma sphere_update_never_replaces_material_witness :
  rgbaEqual (color (sphereMarker 2 (rgba 0 0 1 1))) (color (sphereMarker 2 (rgba 0 0 1 1))) = true
  /\ color (marker redSphere.1) = rgba 1 0 0 1
  /\ material (mesh (update (sphereMarker 2 (rgba 0 0 1 1)) redSphere).1) = rgba 1 0 0 1
  /\ materialCache (update (sphereMarker 2 (rgba 0 0 1 1)) redSphere).2 = [(rgba 1 0 0 1, 1)].
Proof.
  pose proof (sphere_update_never_replaces_material
                (sphereMarker 2 (rgba 0 0 1 1)) redSphere.1 redSphere.2 eq_refl)
    as (Hmaterial & Hcache & _).
  split; [reflexivity|]. split; [reflexivity|]. split.
  - exact Hmaterial.
  - exact Hcache.
Defined.

End MarkersFacts.

(* ===================================================================== *)
(** ** Properties of the point-cloud collection *)
(* ===================================================================== *)

Module PointCloudsFacts.
Import Js Eff Ros Three PointClouds.
Local Open Scope eff_scope.

Section Facts.
Context `{Imports}.

(** *** The two ways [_updatePointCloudRenderable] ends *)

Lemma update_rejected (r : PointCloudRenderable) (w : World) (pc : PointCloud2) (message : string) :
  validate (settings (userData r)) pc = inr message ->
  _updatePointCloudRenderable pc (r, w) =
    (Throw (TypeError "Cannot read properties of undefined (reading 'resize')"),
     (stamped pc r,
      set_layerErrors (addToTopic (topic (userData r)) INVALID_POINT_CLOUD message) w)).
Proof.
  intros Hv. unfold _updatePointCloudRenderable, bind, on_renderable, modify, gets.
  cbn [fst snd userData settings set_userData set_srcTime set_pointCloud].
  rewrite Hv. reflexivity.
Qed.

Lemma update_accepted (r : PointCloudRenderable) (w : World) (pc : PointCloud2) (rs : Readers) :
  validate (settings (userData r)) pc = inl rs ->
  _updatePointCloudRenderable pc (r, w) = decode pc rs (stamped pc r, w).
Proof.
  intros Hv. unfold _updatePointCloudRenderable, bind, on_renderable, modify, gets.
  cbn [fst snd userData settings set_userData set_srcTime set_pointCloud].
  rewrite Hv. reflexivity.
Qed.

(** *** Structural validation *)

Lemma rem_nonzero_spec (a b : N) :
  rem_nonzero a b = true <-> (b = 0 \/ a mod b <> 0)%N.
Proof.
  unfold rem_nonzero. destruct b as [|p].
  - split; [intros _; left; reflexivity | reflexivity].
  - rewrite negb_true_iff, N.eqb_neq. split; [intros Hm; right; exact Hm|].
    intros [Hz | Hm]; [discriminate | exact Hm].
Qed.

(** For a positive [point_step] the remainder test says that [data.length]
    is not a multiple of [point_step]. *)
Lemma rem_nonzero_not_multiple (a b : N) :
  (0 < b)%N -> rem_nonzero a b = true <-> ~ (exists k, a = k * b)%N.
Proof.
  intros Hb. rewrite rem_nonzero_spec. split.
  - intros [Hz | Hm] [k Hk]; [lia|]. apply Hm. subst a. apply N.Div0.mod_mul.
  - intros Hno. right. intros Hm. apply Hno. exists (a / b)%N.
    pose proof (N.div_mod a b ltac:(lia)) as Hdm. lia.
Qed.

Lemma structuralError_is_Some (pc : PointCloud2) :
  is_Some (structuralError pc) <->
    is_bigendian pc = true
    \/ (point_step pc = 0 \/ data_length pc mod point_step pc <> 0)%N
    \/ fields pc = []
    \/ (data_length pc < height pc * row_step pc)%N
    \/ (row_step pc < width pc * point_step pc)%N.
Proof.
  unfold structuralError. rewrite <- rem_nonzero_spec.
  destruct (is_bigendian pc); [split; [intros _; left; reflexivity | eauto]|].
  destruct (rem_nonzero (data_length pc) (point_step pc));
    [split; [intros _; right; left; reflexivity | eauto]|].
  case_bool_decide as Hfields; [split; [intros _; tauto | eauto]|].
  destruct (N.ltb_spec (data_length pc) (height pc * row_step pc));
    [split; [intros _; tauto | eauto]|].
  destruct (N.ltb_spec (row_step pc) (width pc * point_step pc));
    [split; [intros _; tauto | eauto]|].
  split.
  - intros [? [=]].
  - intros [Hb | [Hr | [Hf | [Hl | Hw]]]]; try discriminate; try contradiction; lia.
Qed.

(** C3. The structural checks reject a message exactly when it is
    big-endian, [data.length % point_step !== 0] (the remainder by a zero
    [point_step] is NaN, which is not 0),
    it has no fields, [data.length < height * row_step], or
    [width * point_step > row_step]. A rejected message has its error
    recorded for the topic, the geometry is not touched and no colour
    converter is built; a message that none of the five conditions holds for
    goes on to the field scan, which alone decides the rest of the
    validation. *)
Theorem structural_validation (r : PointCloudRenderable) (w : World) (pc : PointCloud2) :
  (is_Some (structuralError pc) <->
     is_bigendian pc = true
     \/ (point_step pc = 0 \/ data_length pc mod point_step pc <> 0)%N
     \/ fields pc = []
     \/ (data_length pc < height pc * row_step pc)%N
     \/ (row_step pc < width pc * point_step pc)%N)
  /\ (forall message,
        structuralError pc = Some message ->
        validate (settings (userData r)) pc = inr message
        /\ layerErrors (_updatePointCloudRenderable pc (r, w)).2.2 =
             addToTopic (topic (userData r)) INVALID_POINT_CLOUD message (layerErrors w)
        /\ geometry (userData (_updatePointCloudRenderable pc (r, w)).2.1) =
             geometry (userData r)
        /\ calls (_updatePointCloudRenderable pc (r, w)).2.2 = calls w)
  /\ (structuralError pc = None ->
        validate (settings (userData r)) pc = bindReaders (settings (userData r)) pc).
Proof.
  split; [apply structuralError_is_Some|]. split.
  - intros message Hs.
    assert (Hv : validate (settings (userData r)) pc = inr message)
      by (unfold validate; rewrite Hs; reflexivity).
    rewrite (update_rejected r w pc message Hv). repeat split; assumption.
  - intros Hs. unfold validate. rewrite Hs. reflexivity.
Qed.

(** *** Invalid messages *)

Lemma invalid_message_is_recorded_and_stamped_aux
    (r : PointCloudRenderable) (w : World) (pc : PointCloud2) (message : string) :
  validate (settings (userData r)) pc = inr message ->
  layerErrors (_updatePointCloudRenderable pc (r, w)).2.2 =
    addToTopic (topic (userData r)) INVALID_POINT_CLOUD message (layerErrors w)
  /\ diagnostic (topic (userData r)) INVALID_POINT_CLOUD
       (layerErrors (_updatePointCloudRenderable pc (r, w)).2.2) = Some message
  /\ (_updatePointCloudRenderable pc (r, w)).2.1 = stamped pc r.
Proof.
  intros Hv. rewrite (update_rejected r w pc message Hv).
  cbn [fst snd layerErrors set_layerErrors]. split; [reflexivity|]. split; [|reflexivity].
  unfold diagnostic, addToTopic. rewrite lookup_insert_eq. cbn. apply lookup_insert_eq.
Qed.

(** C1, amended. A message that fails validation has an INVALID_POINT_CLOUD
    diagnostic recorded for the renderable's topic and nothing is decoded
    from it: no colour converter is built and no object is allocated. The
    stored message and the source timestamp are those of the invalid
    message, because lines 137-138 assign them before the checks; topic,
    settings, pose and the [THREE.Points] stay as they were. *)
Theorem invalid_message_is_recorded_and_stamped
    (r : PointCloudRenderable) (w : World) (pc : PointCloud2) (message : string) :
  validate (settings (userData r)) pc = inr message ->
  let after := (_updatePointCloudRenderable pc (r, w)).2 in
  layerErrors after.2 =
    addToTopic (topic (userData r)) INVALID_POINT_CLOUD message (layerErrors w)
  /\ diagnostic (topic (userData r)) INVALID_POINT_CLOUD (layerErrors after.2) = Some message
  /\ pointCloud (userData after.1) = pc
  /\ srcTime (userData after.1) = rosTimeToNanoSec (stamp (header pc))
  /\ topic (userData after.1) = topic (userData r)
  /\ settings (userData after.1) = settings (userData r)
  /\ pose (userData after.1) = pose (userData r)
  /\ points (userData after.1) = points (userData r)
  /\ object3d after.1 = object3d r
  /\ calls after.2 = calls w
  /\ next_id after.2 = next_id w.
Proof.
  intros Hv after. subst after. rewrite (update_rejected r w pc message Hv).
  cbn [fst snd]. split; [reflexivity|]. split.
  - cbn [layerErrors set_layerErrors]. unfold diagnostic, addToTopic.
    rewrite lookup_insert_eq. cbn. apply lookup_insert_eq.
  - repeat split.
Qed.

End Facts.

(** The cloud of three whole points passes the checks; a big-endian cloud,
    a ragged payload and a zero [point_step] are rejected with the message
    of their check. *)
Lemma structural_validation_witness :
  structuralError cloudXY = None
  /\ validate (settings (userData renderable1)) cloudXY = inl readersXY
  /\ structuralError cloudBigEndian = Some "PointCloud2 is_bigendian=true is not supported"
  /\ structuralError cloudRagged
       = Some "PointCloud2 data length 7 is not a multiple of point_step 3"
  /\ structuralError cloudZeroStep
       = Some "PointCloud2 data length 0 is not a multiple of point_step 0"
  /\ diagnostic "/points" INVALID_POINT_CLOUD
       (layerErrors (_updatePointCloudRenderable cloudRagged (renderable1, world1)).2.2)
     = Some "PointCloud2 data length 7 is not a multiple of point_step 3".
Proof.
  destruct (structural_validation renderable1 world1 cloudXY) as (_ & _ & Hpass).
  destruct (structural_validation renderable1 world1 cloudRagged) as (Hiff & Hreject & _).
  assert (Hragged : is_Some (structuralError cloudRagged)).
  { apply Hiff. right. left. right. vm_compute. discriminate. }
  assert (Hmessage : structuralError cloudRagged
            = Some "PointCloud2 data length 7 is not a multiple of point_step 3").
  { destruct Hragged as [m Hm]. rewrite Hm. vm_compute in Hm. symmetry. exact Hm. }
  split; [vm_compute; reflexivity|].
  split; [rewrite (Hpass ltac:(vm_compute; reflexivity)); vm_compute; reflexivity|].
  split; [vm_compute; reflexivity|]. split; [exact Hmessage|].
  split; [vm_compute; reflexivity|].
  destruct (Hreject _ Hmessage) as (_ & Herrors & _).
  rewrite Herrors. unfold diagnostic, addToTopic.
  rewrite lookup_insert_eq. cbn. apply lookup_insert_eq.
Defined.

(** The renderable of /points holds the cloud stamped at 1 s; a big-endian
    message stamped at 2 s is rejected, and the renderable then holds the
    rejected message and its timestamp. *)
Lemma invalid_message_is_recorded_and_stamped_witness :
  exists r,
    map_get "/points" (pointCloudsByTopic world1) = Some r
    /\ validate (settings (userData r)) cloudBigEndian
         = inr "PointCloud2 is_bigendian=true is not supported"
    /\ let after := (_updatePointCloudRenderable cloudBigEndian (r, world1)).2 in
       diagnostic "/points" INVALID_POINT_CLOUD (layerErrors after.2)
         = Some "PointCloud2 is_bigendian=true is not supported"
       /\ pointCloud (userData after.1) = cloudBigEndian
       /\ srcTime (userData after.1) = 2000000000%Z.
Proof.
  eexists. split; [vm_compute; reflexivity|]. split; [vm_compute; reflexivity|].
  match goal with
  | |- let after := (_updatePointCloudRenderable _ (?r, _)).2 in _ =>
      pose proof (invalid_message_is_recorded_and_stamped r world1 cloudBigEndian
                    "PointCloud2 is_bigendian=true is not supported" eq_refl)
        as (_ & Herr & Hpc & Htime & _)
  end.
  cbv zeta. split; [exact Herr|]. split; [exact Hpc | exact Htime].
Defined.

(** C1, as stated, fails: the renderable of /points is not what it was
    before the rejected message arrived. Its timestamp moved from 1 s to
    2 s and it stores the rejected message. *)
Lemma invalid_message_changes_renderable :
  validate (autoSelectColorField defaultSettings cloudXY) cloudBigEndian
    = inr "PointCloud2 is_bigendian=true is not supported"
  /\ (srcTime ∘ userData) <$> map_get "/points" (pointCloudsByTopic world1)
       = Some 1000000000%Z
  /\ (srcTime ∘ userData) <$>
       map_get "/points"
         (pointCloudsByTopic (addPointCloud2Message "/points" cloudBigEndian world1).2)
       = Some 2000000000%Z
  /\ userData <$>
       map_get "/points"
         (pointCloudsByTopic (addPointCloud2Message "/points" cloudBigEndian world1).2)
     <> userData <$> map_get "/points" (pointCloudsByTopic world1).
Proof.
  split; [vm_compute; reflexivity|]. split; [vm_compute; reflexivity|].
  assert (Hafter :
    (srcTime ∘ userData) <$>
      map_get "/points"
        (pointCloudsByTopic (addPointCloud2Message "/points" cloudBigEndian world1).2)
    = Some 2000000000%Z) by (vm_compute; reflexivity).
  split; [exact Hafter|].
  intros Heq.
  assert (Hbefore :
    (srcTime ∘ userData) <$> map_get "/points" (pointCloudsByTopic world1)
    = Some 1000000000%Z) by (vm_compute; reflexivity).
  rewrite option_fmap_compose in Hafter, Hbefore.
  assert (Hsame :
    srcTime <$> (userData <$> map_get "/points"
       (pointCloudsByTopic (addPointCloud2Message "/points" cloudBigEndian world1).2))
    = srcTime <$> (userData <$> map_get "/points" (pointCloudsByTopic world1)))
    by (rewrite Heq; reflexivity).
  rewrite Hafter, Hbefore in Hsame. discriminate.
Qed.

(** *** The pose pass of [startFrame] *)

Section Poses.
Context `{Imports}.

Lemma diagnostic_addToTopic_same (topic_ kind message : string)
    (errors : gmap string (gmap string string)) :
  diagnostic topic_ kind (addToTopic topic_ kind message errors) = Some message.
Proof.
  unfold diagnostic, addToTopic. rewrite lookup_insert_eq. cbn. apply lookup_insert_eq.
Qed.

(** Recording a diagnostic removes none. *)
Lemma diagnostic_addToTopic_mono (topic_ kind message topic' kind' : string)
    (errors : gmap string (gmap string string)) :
  is_Some (diagnostic topic' kind' errors) ->
  is_Some (diagnostic topic' kind' (addToTopic topic_ kind message errors)).
Proof.
  unfold diagnostic, addToTopic. intros Hsome.
  destruct (decide (topic_ = topic')) as [->|Hne].
  - rewrite lookup_insert_eq. cbn.
    destruct (errors !! topic') as [kinds|] eqn:E; cbn in *.
    + destruct (decide (kind = kind')) as [->|Hk].
      * rewrite lookup_insert_eq. eauto.
      * rewrite lookup_insert_ne by assumption. assumption.
    + destruct Hsome as [? [=]].
  - rewrite lookup_insert_ne by assumption. assumption.
Qed.

Lemma poseRenderable_run (rf ff : string) (t : Z) (r : PointCloudRenderable) (w : World) :
  poseRenderable rf ff t (r, w) =
    (Return tt,
     (set_object3d (poseResult rf ff t (transformTree w) r).1 r,
      if (poseResult rf ff t (transformTree w) r).2
      then log_call (poseCall rf ff t r) w
      else set_layerErrors
             (addToTopic (topic (userData r)) MISSING_TRANSFORM
                (missingTransformMessage rf ff (frame_id (header (pointCloud (userData r))))))
             (log_call (poseCall rf ff t r) w))).
Proof.
  unfold poseRenderable, poseResult, poseCall, bind, get, on_world, on_renderable, modify, ret.
  cbn [fst snd transformTree log_call].
  destruct (updatePose _ _ _ _ _ _ _ _) as [posed updated].
  destruct updated; reflexivity.
Qed.

Lemma for_values_pose (rf ff : string) (t : Z) (todo : list (string * PointCloudRenderable)) :
  forall (visited : list (string * PointCloudRenderable)) (w : World),
    let res := for_values (poseRenderable rf ff t) visited todo w in
    res.1 = Return tt
    /\ calls res.2 = calls w ++ (poseCall rf ff t <$> map_values todo)
    /\ transformTree res.2 = transformTree w
    /\ (forall topic_ kind,
          is_Some (diagnostic topic_ kind (layerErrors w)) ->
          is_Some (diagnostic topic_ kind (layerErrors res.2)))
    /\ (forall r,
          r ∈ map_values todo ->
          (poseResult rf ff t (transformTree w) r).2 = false ->
          is_Some (diagnostic (topic (userData r)) MISSING_TRANSFORM (layerErrors res.2))).
Proof.
  induction todo as [|[k r] rest IH]; intros visited w; cbn zeta.
  - cbn. rewrite app_nil_r. repeat split; try done.
    intros r Hin. apply elem_of_nil in Hin. contradiction.
  - cbn [for_values]. rewrite poseRenderable_run.
    set (w1 := set_pointCloudsByTopic _ _).
    specialize (IH (visited ++ [(k, set_object3d (poseResult rf ff t (transformTree w) r).1 r)]) w1).
    cbn zeta in IH. destruct IH as (Hret & Hcalls & Htree & Hmono & Hmiss).
    assert (Htree1 : transformTree w1 = transformTree w)
      by (subst w1; destruct (poseResult rf ff t (transformTree w) r).2; reflexivity).
    assert (Hcalls1 : calls w1 = calls w ++ [poseCall rf ff t r])
      by (subst w1; destruct (poseResult rf ff t (transformTree w) r).2; reflexivity).
    split; [exact Hret|]. split.
    { rewrite Hcalls, Hcalls1. unfold map_values. cbn. rewrite <- app_assoc. reflexivity. }
    split; [congruence|]. split.
    { intros topic_ kind Hsome. apply Hmono. subst w1.
      destruct (poseResult rf ff t (transformTree w) r).2; cbn; [assumption|].
      apply diagnostic_addToTopic_mono. assumption. }
    intros r' Hin Hfail. unfold map_values in Hin. cbn in Hin.
    apply elem_of_cons in Hin as [->|Hin].
    + apply Hmono. subst w1. rewrite Hfail. cbn.
      rewrite diagnostic_addToTopic_same. eauto.
    + apply Hmiss; [exact Hin|]. rewrite Htree1. exact Hfail.
Qed.

(** C2. With a render frame and a fixed frame set (non-empty names),
    [startFrame(currentTime)] returns without throwing; it calls
    [updatePose] once for every registered renderable, in the order of the
    map, with that renderable's frame and source timestamp and with the
    current time; and for every renderable whose call returned false a
    MISSING_TRANSFORM diagnostic is recorded for its topic. *)
Theorem startFrame_poses_every_renderable
    (w : World) (currentTime : Z) (rf ff : string) :
  renderFrameId w = Some rf -> fixedFrameId w = Some ff -> rf <> "" -> ff <> "" ->
  (startFrame currentTime w).1 = Return tt
  /\ calls (startFrame currentTime w).2 =
       calls w ++ (poseCall rf ff currentTime <$> map_values (pointCloudsByTopic w))
  /\ (forall r,
        r ∈ map_values (pointCloudsByTopic w) ->
        (poseResult rf ff currentTime (transformTree w) r).2 = false ->
        exists message,
          diagnostic (topic (userData r)) MISSING_TRANSFORM
            (layerErrors (startFrame currentTime w).2) = Some message).
Proof.
  intros Hrf Hff Hrf_ne Hff_ne.
  unfold startFrame, bind, get. rewrite Hrf, Hff.
  destruct rf as [|c rf]; [contradiction|]. destruct ff as [|c' ff]; [contradiction|].
  cbn [truthy negb orb].
  pose proof (for_values_pose (String c rf) (String c' ff) currentTime
                (pointCloudsByTopic w) [] w) as Hloop.
  cbn zeta in Hloop. destruct Hloop as (Hret & Hcalls & _ & _ & Hmiss).
  split; [exact Hret|]. split; [exact Hcalls|].
  intros r Hin Hfail. destruct (Hmiss r Hin Hfail) as [message Hm]. eauto.
Qed.

(** X2. Without a render frame or without a fixed frame ([undefined] or the
    empty string) [startFrame] returns at once: no renderable is posed and
    the store is left as it was. *)
Theorem startFrame_without_frames (w : World) (currentTime : Z) :
  truthy (renderFrameId w) = false \/ truthy (fixedFrameId w) = false ->
  startFrame currentTime w = (Return tt, w).
Proof.
  intros Hfalsy. unfold startFrame, bind, get, ret.
  destruct Hfalsy as [-> | ->]; [reflexivity|].
  rewrite orb_true_r. reflexivity.
Qed.

End Poses.

(** Before the renderer has assigned its frames, a tick poses nothing. *)
Lemma startFrame_without_frames_witness :
  truthy (renderFrameId world1) = false
  /\ pointCloudsByTopic world1 <> []
  /\ startFrame 5 world1 = (Return tt, world1).
Proof.
  split; [reflexivity|]. split; [vm_compute; discriminate|].
  apply startFrame_without_frames. left. reflexivity.
Defined.

(** At time 5 both renderables are posed, each with its own timestamp; the
    cloud in the frame lidar cannot be placed and gets the diagnostic. *)
Lemma startFrame_poses_every_renderable_witness :
  renderFrameId world2 = Some "base_link"
  /\ fixedFrameId world2 = Some "base_link"
  /\ (startFrame 5 world2).1 = Return tt
  /\ calls (startFrame 5 world2).2 =
       calls world2
       ++ [ Call_updatePose 0 "base_link" "base_link" "base_link" 5 1000000000;
            Call_updatePose 7 "base_link" "base_link" "lidar" 5 4000000000 ]
  /\ diagnostic "/lidar" MISSING_TRANSFORM (layerErrors (startFrame 5 world2).2)
       = Some "Missing transform from frame <lidar> to frame <base_link>"
  /\ diagnostic "/points" MISSING_TRANSFORM (layerErrors (startFrame 5 world2).2) = None.
Proof.
  pose proof (startFrame_poses_every_renderable world2 5 "base_link" "base_link"
                eq_refl eq_refl ltac:(discriminate) ltac:(discriminate))
    as (Hret & Hcalls & _).
  split; [reflexivity|]. split; [reflexivity|]. split; [exact Hret|].
  split; [exact Hcalls|]. split; vm_compute; reflexivity.
Defined.

(** *** What a computation leaves as it was *)

Section Keeps.
Context `{Imports}.
Context {B : Type} (proj : Ctx -> B).

Lemma keeps_ret {A} (a : A) : keeps proj (ret a).
Proof. intros s. reflexivity. Qed.

Lemma keeps_throw {A} (e : exn) : keeps proj (@throw Ctx A e).
Proof. intros s. reflexivity. Qed.

Lemma keeps_get : keeps proj get.
Proof. intros s. reflexivity. Qed.

Lemma keeps_gets {A} (f : Ctx -> A) : keeps proj (gets f).
Proof. intros s. reflexivity. Qed.

Lemma keeps_modify (f : Ctx -> Ctx) : (forall s, proj (f s) = proj s) -> keeps proj (modify f).
Proof. intros Hf s. apply Hf. Qed.

Lemma keeps_bind {A C} (m : M Ctx A) (k : A -> M Ctx C) :
  keeps proj m -> (forall a, keeps proj (k a)) -> keeps proj (bind m k).
Proof.
  intros Hm Hk s. unfold bind. specialize (Hm s).
  destruct (m s) as [[a|e] s']; cbn in *; [|exact Hm].
  rewrite Hk. exact Hm.
Qed.

Lemma keeps_for_each {A} (l : list A) (body : A -> M Ctx unit) :
  (forall a, keeps proj (body a)) -> keeps proj (for_each l body).
Proof.
  intros Hbody. induction l as [|a l IH]; cbn [for_each].
  - apply keeps_ret.
  - apply keeps_bind; [apply Hbody | intros _; exact IH].
Qed.

Lemma keeps_with_attribute (attr : string) (f : BufferAttribute -> BufferAttribute) :
  (forall s at_,
     getAttribute attr (geometry (userData s.1)) = Some at_ ->
     proj (set_userData (set_geometry (set_attributes (map_set attr (f at_)))) s.1, s.2)
       = proj s) ->
  keeps proj (with_attribute attr f).
Proof.
  intros Hf s. unfold with_attribute, bind, gets, on_renderable, modify, throw.
  cbn [fst snd].
  destruct (getAttribute attr (geometry (userData s.1))) as [at_|] eqn:E; cbn [fst snd].
  - apply Hf. exact E.
  - reflexivity.
Qed.

End Keeps.

Section Frames.
Context `{Imports}.

Lemma map_get_set_eq {V} (k : string) (v : V) (m : list (string * V)) :
  map_get k (map_set k v m) = Some v.
Proof.
  induction m as [|[k' v'] m IH]; cbn.
  - rewrite decide_True by reflexivity. reflexivity.
  - destruct (decide (k = k')) as [->|Hne]; cbn.
    + rewrite decide_True by reflexivity. reflexivity.
    + rewrite decide_False by assumption. exact IH.
Qed.

Lemma map_get_set_ne {V} (k k' : string) (v : V) (m : list (string * V)) :
  k <> k' -> map_get k' (map_set k v m) = map_get k' m.
Proof.
  intros Hne. induction m as [|[k'' v''] m IH]; cbn.
  - rewrite decide_False by congruence. reflexivity.
  - destruct (decide (k = k'')) as [->|Hne']; cbn.
    + rewrite !decide_False by congruence. reflexivity.
    + destruct (decide (k' = k'')); [reflexivity | exact IH].
Qed.

(** Replacing the value of a key that is present keeps the keys in place. *)
Lemma map_set_present_keys {V} (k : string) (v v' : V) (m : list (string * V)) :
  map_get k m = Some v -> map_keys (map_set k v' m) = map_keys m.
Proof.
  unfold map_keys. induction m as [|[k' v''] m IH]; cbn; [discriminate|].
  destruct (decide (k = k')) as [->|Hne]; cbn; [reflexivity|].
  intros Hget. rewrite IH by assumption. reflexivity.
Qed.

(** Setting a key that is absent appends it. *)
Lemma map_set_absent {V} (k : string) (v : V) (m : list (string * V)) :
  map_get k m = None -> map_set k v m = m ++ [(k, v)].
Proof.
  induction m as [|[k' v'] m IH]; cbn; [reflexivity|].
  destruct (decide (k = k')) as [->|Hne]; cbn; [discriminate|].
  intros Hget. rewrite IH by assumption. reflexivity.
Qed.

Lemma map_get_None_keys {V} (k : string) (m : list (string * V)) :
  map_get k m = None <-> k ∉ map_keys m.
Proof.
  unfold map_keys. induction m as [|[k' v'] m IH]; cbn.
  - split; [intros _; apply not_elem_of_nil | reflexivity].
  - rewrite not_elem_of_cons. destruct (decide (k = k')) as [->|Hne].
    + split; [discriminate | intros [Hk _]; contradiction].
    + rewrite IH. tauto.
Qed.

(** Replacing an attribute by one with the same array identity, item size
    and array length keeps the shape of the geometry. *)
Lemma map_set_same_summary {V W} (h : V -> W) (k : string) (v v' : V) (m : list (string * V)) :
  map_get k m = Some v -> h v' = h v ->
  (fun entry => (entry.1, h entry.2)) <$> map_set k v' m
    = (fun entry => (entry.1, h entry.2)) <$> m.
Proof.
  intros Hget Hh. induction m as [|[k' v''] m IH]; cbn in *; [discriminate|].
  destruct (decide (k = k')) as [->|Hne]; cbn.
  - injection Hget as ->. rewrite Hh. reflexivity.
  - rewrite IH by assumption. reflexivity.
Qed.

End Frames.

Section Decoding.
Context `{Imports}.

Lemma resize_identity (n : N) (fresh : nat) (g : DynamicBufferGeometry) :
  geometry_id (resize n fresh g).1 = geometry_id g
  /\ geometry_name (resize n fresh g).1 = geometry_name g.
Proof. unfold resize. destruct (n =? itemCount g)%N; split; reflexivity. Qed.

Lemma resize_itemCount (n : N) (fresh : nat) (g : DynamicBufferGeometry) :
  itemCount (resize n fresh g).1 = n.
Proof.
  unfold resize. destruct (N.eqb_spec n (itemCount g)) as [->|Hne]; reflexivity.
Qed.

Lemma resize_same_count (fresh : nat) (g : DynamicBufferGeometry) :
  resize (itemCount g) fresh g = (g, 0).
Proof. unfold resize. rewrite N.eqb_refl. reflexivity. Qed.

Lemma geometry_resize_run (n : N) (s : Ctx) :
  geometry_resize n s =
    (Return tt,
     (set_userData (set_geometry (fun _ => (resize n (next_id s.2) (geometry (userData s.1))).1)) s.1,
      set_next_id (fun k => k + (resize n (next_id s.2) (geometry (userData s.1))).2) s.2)).
Proof.
  unfold geometry_resize, bind, get, on_renderable, on_world, modify.
  destruct (resize n (next_id s.2) (geometry (userData s.1))) as [g allocated].
  reflexivity.
Qed.

Lemma geometry_resize_keeps_frame (n : N) : keeps frame (geometry_resize n).
Proof.
  intros s. rewrite geometry_resize_run. unfold frame. cbn.
  destruct (resize_identity n (next_id s.2) (geometry (userData s.1))) as [-> ->].
  reflexivity.
Qed.

Lemma with_attribute_keeps_frame (attr : string) (f : BufferAttribute -> BufferAttribute) :
  keeps frame (with_attribute attr f).
Proof. apply keeps_with_attribute. intros s at_ _. reflexivity. Qed.

Lemma decodePoint_keeps_frame (pc : PointCloud2) (rdx rdy rdz rdc : FieldReader)
    (conv : ColorRGBA -> number -> ColorRGBA) (i : N) :
  keeps frame (decodePoint pc rdx rdy rdz rdc conv i).
Proof.
  unfold decodePoint.
  apply keeps_bind; [apply with_attribute_keeps_frame | intros _].
  apply keeps_bind; [apply keeps_modify; intros s; reflexivity | intros _].
  apply keeps_bind; [apply keeps_gets | intros c].
  apply with_attribute_keeps_frame.
Qed.

Lemma decode_keeps_frame (pc : PointCloud2) (rs : Readers) : keeps frame (decode pc rs).
Proof.
  unfold decode.
  apply keeps_bind; [apply keeps_gets | intros settings_].
  apply keeps_bind; [apply geometry_resize_keeps_frame | intros _].
  apply keeps_bind; [apply keeps_modify; intros s; reflexivity | intros _].
  apply keeps_bind; [apply keeps_for_each; intros i; apply decodePoint_keeps_frame | intros _].
  apply keeps_bind; [apply with_attribute_keeps_frame | intros _].
  apply with_attribute_keeps_frame.
Qed.

(** Whatever the message, [_updatePointCloudRenderable] writes only the
    stored message, the timestamp and the contents of the geometry. *)
Lemma update_frame (pc : PointCloud2) (r : PointCloudRenderable) (w : World) :
  frame (_updatePointCloudRenderable pc (r, w)).2 = frame (stamped pc r, w).
Proof.
  destruct (validate (settings (userData r)) pc) as [rs|message] eqn:Hv.
  - rewrite (update_accepted r w pc rs Hv). apply decode_keeps_frame.
  - rewrite (update_rejected r w pc message Hv). reflexivity.
Qed.

Lemma update_keeps_settings (pc : PointCloud2) (r : PointCloudRenderable) (w : World) :
  settings (userData (_updatePointCloudRenderable pc (r, w)).2.1) = settings (userData r).
Proof. exact (f_equal frame_settings (update_frame pc r w)). Qed.

Lemma update_keeps_map (pc : PointCloud2) (r : PointCloudRenderable) (w : World) :
  pointCloudsByTopic (_updatePointCloudRenderable pc (r, w)).2.2 = pointCloudsByTopic w.
Proof. exact (f_equal frame_pointCloudsByTopic (update_frame pc r w)). Qed.

(** *** [addPointCloud2Message], by cases on the map *)

Lemma add_known (topic_ : string) (pc : PointCloud2) (w : World) (r : PointCloudRenderable) :
  map_get topic_ (pointCloudsByTopic w) = Some r ->
  addPointCloud2Message topic_ pc w =
    ((_updatePointCloudRenderable pc (r, w)).1,
     set_pointCloudsByTopic (map_set topic_ (_updatePointCloudRenderable pc (r, w)).2.1)
       (_updatePointCloudRenderable pc (r, w)).2.2).
Proof.
  intros Hget. unfold addPointCloud2Message, bind, get, ret, on_entry, zoom.
  rewrite Hget. destruct (_updatePointCloudRenderable pc (r, w)) as [c [r' w']].
  reflexivity.
Qed.

Lemma add_new (topic_ : string) (pc : PointCloud2) (w : World) :
  map_get topic_ (pointCloudsByTopic w) = None ->
  addPointCloud2Message topic_ pc w =
    ((_updatePointCloudRenderable pc (createRenderable topic_ pc w)).1,
     set_pointCloudsByTopic
       (map_set topic_ (_updatePointCloudRenderable pc (createRenderable topic_ pc w)).2.1)
       (_updatePointCloudRenderable pc (createRenderable topic_ pc w)).2.2).
Proof.
  intros Hget. unfold addPointCloud2Message, bind, get, lift, on_entry, zoom.
  rewrite Hget. cbn [fst snd].
  destruct (createRenderable topic_ pc w) as [r0 w0]. cbn [fst snd].
  destruct (_updatePointCloudRenderable pc (r0, w0)) as [c [r' w']].
  reflexivity.
Qed.

(** The entry of the topic after a message, in both cases. *)
Lemma add_entry (topic_ : string) (pc : PointCloud2) (w : World) :
  map_get topic_ (pointCloudsByTopic (addPointCloud2Message topic_ pc w).2) =
    Some (_updatePointCloudRenderable pc
            (match map_get topic_ (pointCloudsByTopic w) with
             | Some r => (r, w)
             | None => createRenderable topic_ pc w
             end)).2.1.
Proof.
  destruct (map_get topic_ (pointCloudsByTopic w)) as [r|] eqn:Hget.
  - rewrite (add_known topic_ pc w r Hget). cbn [snd pointCloudsByTopic set_pointCloudsByTopic].
    apply map_get_set_eq.
  - rewrite (add_new topic_ pc w Hget). cbn [snd pointCloudsByTopic set_pointCloudsByTopic].
    apply map_get_set_eq.
Qed.

End Decoding.

(** *** The colour field *)

Section ColorField.
Context `{Imports}.

Lemma find_first {A} (p : A -> bool) (l : list A) (f : A) :
  find p l = Some f <->
  exists before after,
    l = before ++ f :: after /\ p f = true /\ Forall (fun g => p g = false) before.
Proof.
  induction l as [|a l IH]; cbn.
  - split; [discriminate|]. intros ([|? ?] & after & Heq & _); discriminate.
  - destruct (p a) eqn:Hpa.
    + split.
      * intros [= <-]. exists [], l. repeat split; [assumption | constructor].
      * intros (before & after & Heq & Hpf & Hall).
        destruct before as [|b before]; cbn in Heq.
        -- injection Heq as -> _. reflexivity.
        -- injection Heq as -> _. apply Forall_cons in Hall as [Hb _]. congruence.
    + rewrite IH. split.
      * intros (before & after & -> & Hpf & Hall).
        exists (a :: before), after. repeat split; [assumption|].
        constructor; assumption.
      * intros (before & after & Heq & Hpf & Hall).
        destruct before as [|b before]; cbn in Heq.
        -- injection Heq as -> _. congruence.
        -- injection Heq as -> ->. apply Forall_cons in Hall as [_ Hall].
           exists before, after. repeat split; assumption.
Qed.

Lemma find_none_iff {A} (p : A -> bool) (l : list A) :
  find p l = None <-> Forall (fun g => p g = false) l.
Proof.
  induction l as [|a l IH]; cbn.
  - split; [constructor | reflexivity].
  - rewrite Forall_cons. destruct (p a); [|rewrite IH; tauto].
    split; [discriminate | intros [? _]; discriminate].
Qed.

Lemma find_firstFieldIn (names : list string) (pc : PointCloud2) (f : PointField) :
  firstFieldIn names pc f <->
  find (fun field => bool_decide (field_name field ∈ names)) (fields pc) = Some f.
Proof.
  rewrite find_first. unfold firstFieldIn. split.
  - intros (before & after & Heq & Hin & Hall). exists before, after.
    split; [assumption|]. split; [apply bool_decide_eq_true; assumption|].
    eapply Forall_impl; [exact Hall|]. intros g Hg. apply bool_decide_eq_false. exact Hg.
  - intros (before & after & Heq & Hin & Hall). exists before, after.
    split; [assumption|]. split; [apply bool_decide_eq_true in Hin; assumption|].
    eapply Forall_impl; [exact Hall|]. intros g Hg. apply bool_decide_eq_false in Hg. exact Hg.
Qed.

Lemma find_none_fields (names : list string) (pc : PointCloud2) :
  Forall (fun g => field_name g ∉ names) (fields pc) <->
  find (fun field => bool_decide (field_name field ∈ names)) (fields pc) = None.
Proof.
  rewrite find_none_iff. split; intros Hall; (eapply Forall_impl; [exact Hall|]); intros g Hg.
  - apply bool_decide_eq_false. exact Hg.
  - apply bool_decide_eq_false in Hg. exact Hg.
Qed.

(** The colour mode and byte order chosen for a composite colour field are
    those of the table [colorEncoding]. *)
Lemma autoSelect_color (output : PointCloudSettings) (pc : PointCloud2) (f : PointField) :
  firstFieldIn COLOR_FIELDS pc f ->
  colorField (autoSelectColorField output pc) = Some (field_name f)
  /\ map_get (field_name f) colorEncoding =
       Some (colorMode (autoSelectColorField output pc),
             rgbByteOrder (autoSelectColorField output pc)).
Proof.
  intros Hfirst. pose proof Hfirst as (_ & _ & _ & Hin & _).
  apply find_firstFieldIn in Hfirst. unfold autoSelectColorField. rewrite Hfirst.
  unfold COLOR_FIELDS in Hin.
  repeat (apply elem_of_cons in Hin as [->|Hin]; [split; reflexivity|]).
  apply elem_of_nil in Hin. contradiction.
Qed.

Lemma autoSelect_intensity (output : PointCloudSettings) (pc : PointCloud2) (f : PointField) :
  Forall (fun g => field_name g ∉ COLOR_FIELDS) (fields pc) ->
  firstFieldIn INTENSITY_FIELDS pc f ->
  colorField (autoSelectColorField output pc) = Some (field_name f)
  /\ colorMode (autoSelectColorField output pc) = DEFAULT_COLOR_MODE.
Proof.
  intros Hnone Hfirst. apply find_none_fields in Hnone. apply find_firstFieldIn in Hfirst.
  unfold autoSelectColorField. rewrite Hnone, Hfirst. split; reflexivity.
Qed.

Lemma autoSelect_first (output : PointCloudSettings) (pc : PointCloud2)
    (f : PointField) (rest : list PointField) :
  Forall (fun g => field_name g ∉ COLOR_FIELDS) (fields pc) ->
  Forall (fun g => field_name g ∉ INTENSITY_FIELDS) (fields pc) ->
  fields pc = f :: rest ->
  colorField (autoSelectColorField output pc) = Some (field_name f)
  /\ colorMode (autoSelectColorField output pc) = DEFAULT_COLOR_MODE.
Proof.
  intros Hnone Hnone' Hfields. apply find_none_fields in Hnone, Hnone'.
  unfold autoSelectColorField. rewrite Hnone, Hnone', Hfields. split; reflexivity.
Qed.

(** C5. [autoSelectColorField] chooses the first field whose name is one of
    rgb, rgba, bgr, bgra, abgr, color, with the colour mode and byte order of
    the table [colorEncoding]; failing that the first field named intensity
    or i; failing that the first declared field. It runs for the first
    message of a topic only: after the first message the renderable's
    settings are the selection made from that message, and after any later
    message on the topic they are the settings the renderable already had. *)
Theorem color_field_is_selected_once (w : World) (topic_ : string) (pc : PointCloud2) :
  (forall output f,
     firstFieldIn COLOR_FIELDS pc f ->
     colorField (autoSelectColorField output pc) = Some (field_name f)
     /\ map_get (field_name f) colorEncoding =
          Some (colorMode (autoSelectColorField output pc),
                rgbByteOrder (autoSelectColorField output pc)))
  /\ (forall output f,
        Forall (fun g => field_name g ∉ COLOR_FIELDS) (fields pc) ->
        firstFieldIn INTENSITY_FIELDS pc f ->
        colorField (autoSelectColorField output pc) = Some (field_name f)
        /\ colorMode (autoSelectColorField output pc) = DEFAULT_COLOR_MODE)
  /\ (forall output f rest,
        Forall (fun g => field_name g ∉ COLOR_FIELDS) (fields pc) ->
        Forall (fun g => field_name g ∉ INTENSITY_FIELDS) (fields pc) ->
        fields pc = f :: rest ->
        colorField (autoSelectColorField output pc) = Some (field_name f)
        /\ colorMode (autoSelectColorField output pc) = DEFAULT_COLOR_MODE)
  /\ (map_get topic_ (pointCloudsByTopic w) = None ->
        (settings ∘ userData) <$>
          map_get topic_ (pointCloudsByTopic (addPointCloud2Message topic_ pc w).2)
        = Some (autoSelectColorField defaultSettings pc))
  /\ (forall r,
        map_get topic_ (pointCloudsByTopic w) = Some r ->
        (settings ∘ userData) <$>
          map_get topic_ (pointCloudsByTopic (addPointCloud2Message topic_ pc w).2)
        = Some (settings (userData r))).
Proof.
  split; [intros output f; apply autoSelect_color|].
  split; [intros output f; apply autoSelect_intensity|].
  split; [intros output f rest; apply autoSelect_first|].
  split.
  - intros Hget. rewrite add_entry, Hget. cbn [fmap option_fmap option_map compose].
    destruct (createRenderable topic_ pc w) as [r0 w0] eqn:Hcreate.
    rewrite update_keeps_settings.
    apply (f_equal fst) in Hcreate. cbn in Hcreate. subst r0. reflexivity.
  - intros r Hget. rewrite add_entry, Hget. cbn [fmap option_fmap option_map compose].
    rewrite update_keeps_settings. reflexivity.
Qed.

End ColorField.

(** The first message on /points selected the intensity field. A later
    message that carries a bgr field leaves that selection in place, while
    on a topic of its own the same message selects bgr. *)
Lemma color_field_is_selected_once_witness :
  map_get "/points" (pointCloudsByTopic world1) = Some renderable1
  /\ colorField (settings (userData renderable1)) = Some "intensity"
  /\ (settings ∘ userData) <$>
       map_get "/points" (pointCloudsByTopic (addPointCloud2Message "/points" cloudBgr world1).2)
     = Some (settings (userData renderable1))
  /\ (settings ∘ userData) <$>
       map_get "/camera" (pointCloudsByTopic (addPointCloud2Message "/camera" cloudBgr world1).2)
     = Some (autoSelectColorField defaultSettings cloudBgr)
  /\ (colorField (autoSelectColorField defaultSettings cloudBgr),
      colorMode (autoSelectColorField defaultSettings cloudBgr),
      rgbByteOrder (autoSelectColorField defaultSettings cloudBgr))
     = (Some "bgr", Rgb, "bgra").
Proof.
  destruct (color_field_is_selected_once world1 "/points" cloudBgr)
    as (_ & _ & _ & _ & Hsticky).
  destruct (color_field_is_selected_once world1 "/camera" cloudBgr)
    as (_ & _ & _ & Hfirst & _).
  split; [vm_compute; reflexivity|]. split; [vm_compute; reflexivity|].
  split; [apply Hsticky; vm_compute; reflexivity|].
  split; [apply Hfirst; vm_compute; reflexivity|].
  vm_compute; reflexivity.
Defined.

(** *** Order on numbers *)

Section NumberOrder.

Lemma Qc_leb_refl (a : Qc) : Qc_leb a a = true.
Proof. unfold Qc_leb. apply Qle_bool_iff. apply Qle_refl. Qed.

Lemma Qc_leb_trans (a b c : Qc) : Qc_leb a b = true -> Qc_leb b c = true -> Qc_leb a c = true.
Proof. unfold Qc_leb. rewrite !Qle_bool_iff. apply Qle_trans. Qed.

Lemma Qc_leb_total (a b : Qc) : Qc_leb a b = true \/ Qc_leb b a = true.
Proof.
  unfold Qc_leb. rewrite !Qle_bool_iff.
  destruct (Qlt_le_dec (this a) (this b)) as [Hlt|Hle]; [left; apply Qlt_le_weak|right]; assumption.
Qed.

Lemma leb_refl (a : number) : is_nan a = false -> leb a a = true.
Proof. destruct a; cbn; try done. intros _. apply Qc_leb_refl. Qed.

Lemma leb_trans (a b c : number) : leb a b = true -> leb b c = true -> leb a c = true.
Proof.
  destruct a, b, c; cbn; try done. apply Qc_leb_trans.
Qed.

Lemma leb_total (a b : number) :
  is_nan a = false -> is_nan b = false -> leb a b = true \/ leb b a = true.
Proof.
  destruct a, b; cbn; try done; auto. intros _ _. apply Qc_leb_total.
Qed.

Lemma leb_not_nan (a b : number) : leb a b = true -> is_nan a = false /\ is_nan b = false.
Proof. destruct a, b; cbn; done. Qed.

Lemma Math_min_spec (a b : number) :
  is_nan a = false -> is_nan b = false ->
  (Math_min a b = a \/ Math_min a b = b)
  /\ leb (Math_min a b) a = true /\ leb (Math_min a b) b = true.
Proof.
  intros Ha Hb. pose proof (leb_total a b Ha Hb) as Htotal.
  assert (Hmin : Math_min a b = if leb a b then a else b) by (destruct a, b; done).
  rewrite Hmin. destruct (leb a b) eqn:Hab.
  - split; [left; reflexivity|]. split; [apply leb_refl|]; assumption.
  - destruct Htotal as [|Hba]; [discriminate|].
    split; [right; reflexivity|]. split; [assumption | apply leb_refl; assumption].
Qed.

Lemma Math_max_spec (a b : number) :
  is_nan a = false -> is_nan b = false ->
  (Math_max a b = a \/ Math_max a b = b)
  /\ leb a (Math_max a b) = true /\ leb b (Math_max a b) = true.
Proof.
  intros Ha Hb. pose proof (leb_total a b Ha Hb) as Htotal.
  assert (Hmax : Math_max a b = if leb a b then b else a) by (destruct a, b; done).
  rewrite Hmax. destruct (leb a b) eqn:Hab.
  - split; [right; reflexivity|]. split; [assumption | apply leb_refl; assumption].
  - destruct Htotal as [|Hba]; [discriminate|].
    split; [left; reflexivity|]. split; [apply leb_refl|]; assumption.
Qed.

(** The running minimum of a scan that started from [acc]. *)
Lemma fold_min (values : list number) :
  forall acc,
    is_nan acc = false -> Forall (fun v => is_nan v = false) values ->
    let m := fold_left Math_min values acc in
    is_nan m = false /\ leb m acc = true
    /\ Forall (fun v => leb m v = true) values
    /\ (m = acc \/ m ∈ values).
Proof.
  induction values as [|v values IH]; intros acc Hacc Hall; cbn zeta; cbn [fold_left].
  - repeat split; [assumption | apply leb_refl; assumption | constructor | left; reflexivity].
  - apply Forall_cons in Hall as [Hv Hall].
    destruct (Math_min_spec acc v Hacc Hv) as (Hchoice & Hle_acc & Hle_v).
    assert (Hnan : is_nan (Math_min acc v) = false) by (destruct Hchoice as [-> | ->]; assumption).
    specialize (IH (Math_min acc v) Hnan Hall). cbn zeta in IH.
    destruct IH as (Hm & Hle & Hrest & Hin).
    split; [assumption|]. split; [eapply leb_trans; eassumption|]. split.
    + constructor; [eapply leb_trans; eassumption | assumption].
    + destruct Hin as [Heq | Hin].
      * rewrite Heq. destruct Hchoice as [-> | ->]; [left; reflexivity|].
        right. apply elem_of_cons. left. reflexivity.
      * right. apply elem_of_cons. right. assumption.
Qed.

Lemma fold_max (values : list number) :
  forall acc,
    is_nan acc = false -> Forall (fun v => is_nan v = false) values ->
    let m := fold_left Math_max values acc in
    is_nan m = false /\ leb acc m = true
    /\ Forall (fun v => leb v m = true) values
    /\ (m = acc \/ m ∈ values).
Proof.
  induction values as [|v values IH]; intros acc Hacc Hall; cbn zeta; cbn [fold_left].
  - repeat split; [assumption | apply leb_refl; assumption | constructor | left; reflexivity].
  - apply Forall_cons in Hall as [Hv Hall].
    destruct (Math_max_spec acc v Hacc Hv) as (Hchoice & Hle_acc & Hle_v).
    assert (Hnan : is_nan (Math_max acc v) = false) by (destruct Hchoice as [-> | ->]; assumption).
    specialize (IH (Math_max acc v) Hnan Hall). cbn zeta in IH.
    destruct IH as (Hm & Hle & Hrest & Hin).
    split; [assumption|]. split; [eapply leb_trans; eassumption|]. split.
    + constructor; [eapply leb_trans; eassumption | assumption].
    + destruct Hin as [Heq | Hin].
      * rewrite Heq. destruct Hchoice as [-> | ->]; [left; reflexivity|].
        right. apply elem_of_cons. left. reflexivity.
      * right. apply elem_of_cons. right. assumption.
Qed.

(** A scan that starts from +Infinity ends at the exact minimum. *)
Lemma scan_minimum (values : list number) :
  values <> [] -> Forall (fun v => is_nan v = false) values ->
  minimumOf values (fold_left Math_min values PosInfinity).
Proof.
  intros Hne Hall. destruct (fold_min values PosInfinity eq_refl Hall) as (_ & _ & Hle & Hin).
  split; [|exact Hle]. destruct Hin as [Heq | Hin]; [|exact Hin].
  destruct values as [|v values]; [contradiction|].
  apply Forall_cons in Hle as [Hv _]. rewrite Heq in Hv |- *.
  destruct v; try discriminate. apply elem_of_cons. left. reflexivity.
Qed.

(** A scan that starts from -Infinity ends at the exact maximum. *)
Lemma scan_maximum (values : list number) :
  values <> [] -> Forall (fun v => is_nan v = false) values ->
  maximumOf values (fold_left Math_max values NegInfinity).
Proof.
  intros Hne Hall. destruct (fold_max values NegInfinity eq_refl Hall) as (_ & _ & Hle & Hin).
  split; [|exact Hle]. destruct Hin as [Heq | Hin]; [|exact Hin].
  destruct values as [|v values]; [contradiction|].
  apply Forall_cons in Hle as [Hv _]. rewrite Heq in Hv |- *.
  destruct v; try discriminate. apply elem_of_cons. left. reflexivity.
Qed.

End NumberOrder.

(** *** The colour domain *)

Section ColorDomain.
Context `{Imports}.

Lemma scan_fold (reader : FieldReader) (view : list Byte.byte) (step : N) (indices : list N) :
  forall acc,
    fold_left (scanStep reader view step) indices acc =
      (fold_left Math_min ((fun i => reader view (i * step)%N) <$> indices) acc.1,
       fold_left Math_max ((fun i => reader view (i * step)%N) <$> indices) acc.2).
Proof.
  induction indices as [|i indices IH]; intros [lo hi]; cbn [fold_left fmap list_fmap];
    [reflexivity|].
  rewrite IH. reflexivity.
Qed.

(** The two bounds, each pinned or scanned on its own. *)
Lemma colorDomain_eq (settings_ : PointCloudSettings) (reader : FieldReader) (pc : PointCloud2) :
  colorDomain settings_ reader pc =
    (nullish (minValue settings_) (fold_left Math_min (colorValues reader pc) PosInfinity),
     nullish (maxValue settings_) (fold_left Math_max (colorValues reader pc) NegInfinity)).
Proof.
  unfold colorDomain, colorValues.
  destruct (minValue settings_) as [a|], (maxValue settings_) as [b|]; cbn;
    try rewrite scan_fold; reflexivity.
Qed.

Lemma with_attribute_keeps_calls (attr : string) (f : BufferAttribute -> BufferAttribute) :
  keeps (fun s => calls s.2) (with_attribute attr f).
Proof. apply keeps_with_attribute. intros s at_ _. reflexivity. Qed.

Lemma decodePoint_keeps_calls (pc : PointCloud2) (rdx rdy rdz rdc : FieldReader)
    (conv : ColorRGBA -> number -> ColorRGBA) (i : N) :
  keeps (fun s => calls s.2) (decodePoint pc rdx rdy rdz rdc conv i).
Proof.
  unfold decodePoint.
  apply keeps_bind; [apply with_attribute_keeps_calls | intros _].
  apply keeps_bind; [apply keeps_modify; intros s; reflexivity | intros _].
  apply keeps_bind; [apply keeps_gets | intros c].
  apply with_attribute_keeps_calls.
Qed.

(** [decode] calls [getColorConverter] once, with the settings of the
    renderable and the colour domain. *)
Lemma decode_calls (pc : PointCloud2) (rs : Readers) (s : Ctx) :
  calls (decode pc rs s).2.2 =
    calls s.2
    ++ [Call_getColorConverter (settings (userData s.1))
          (colorDomain (settings (userData s.1)) (activeColorReader rs) pc).1
          (colorDomain (settings (userData s.1)) (activeColorReader rs) pc).2].
Proof.
  unfold decode, bind at 1. unfold gets at 1. cbn [fst snd].
  unfold bind at 1. rewrite geometry_resize_run.
  unfold bind at 1. unfold on_world at 1, modify at 1. cbn [fst snd].
  match goal with
  | |- calls (?m ?s0).2.2 = _ =>
      assert (Hkeep : keeps (fun s => calls s.2) m);
      [| rewrite (Hkeep s0); reflexivity]
  end.
  apply keeps_bind; [apply keeps_for_each; intros i; apply decodePoint_keeps_calls | intros _].
  apply keeps_bind; [apply with_attribute_keeps_calls | intros _].
  apply with_attribute_keeps_calls.
Qed.

(** C6. When a message is decoded, [getColorConverter] is called once, with
    the renderable's settings and a colour domain that is, bound by bound,
    the pinned value if [minValue] (or [maxValue]) is set, and otherwise the
    value scanned over every point: +Infinity (or -Infinity) for a cloud
    without points, and the exact minimum (or maximum) of the decoded values
    of the colour field when no decoded value is NaN. *)
Theorem color_domain_is_scanned_min_max
    (r : PointCloudRenderable) (w : World) (pc : PointCloud2) (rs : Readers) :
  validate (settings (userData r)) pc = inl rs ->
  let settings_ := settings (userData r) in
  let values := colorValues (activeColorReader rs) pc in
  let domain := colorDomain settings_ (activeColorReader rs) pc in
  calls (_updatePointCloudRenderable pc (r, w)).2.2 =
    calls w ++ [Call_getColorConverter settings_ domain.1 domain.2]
  /\ length values = N.to_nat (pointCount pc)
  /\ (forall a, minValue settings_ = Some a -> domain.1 = a)
  /\ (forall b, maxValue settings_ = Some b -> domain.2 = b)
  /\ (minValue settings_ = None ->
        (values = [] -> domain.1 = PosInfinity)
        /\ (values <> [] -> Forall (fun v => is_nan v = false) values ->
            minimumOf values domain.1))
  /\ (maxValue settings_ = None ->
        (values = [] -> domain.2 = NegInfinity)
        /\ (values <> [] -> Forall (fun v => is_nan v = false) values ->
            maximumOf values domain.2)).
Proof.
  intros Hv settings_ values domain.
  split.
  { rewrite (update_accepted r w pc rs Hv), decode_calls. reflexivity. }
  split.
  { subst values. unfold colorValues, pointIndices.
    rewrite !length_fmap, length_seq. reflexivity. }
  subst domain. rewrite colorDomain_eq. fold values. cbn [fst snd].
  split; [intros a ->; reflexivity|]. split; [intros b ->; reflexivity|]. split.
  - intros ->. cbn [nullish]. split; [intros ->; reflexivity | apply scan_minimum].
  - intros ->. cbn [nullish]. split; [intros ->; reflexivity | apply scan_maximum].
Qed.

End ColorDomain.

(** The cloud with intensities 0, 5 and 10 and no pinned bound: the domain
    handed to the colour converter is [0, 10]. *)
Lemma color_domain_is_scanned_min_max_witness :
  validate (settings (userData (createRenderable "/points" cloudXY world0).1)) cloudXY
    = inl readersXY
  /\ minValue (autoSelectColorField defaultSettings cloudXY) = None
  /\ maxValue (autoSelectColorField defaultSettings cloudXY) = None
  /\ colorValues (activeColorReader readersXY) cloudXY = [num 0; num 5; num 10]
  /\ calls world1 =
       [Call_getColorConverter (autoSelectColorField defaultSettings cloudXY) (num 0) (num 10)]
  /\ minimumOf [num 0; num 5; num 10] (num 0)
  /\ maximumOf [num 0; num 5; num 10] (num 10).
Proof.
  assert (Hv : validate (settings (userData (createRenderable "/points" cloudXY world0).1))
                 cloudXY = inl readersXY) by (vm_compute; reflexivity).
  pose proof (color_domain_is_scanned_min_max
                (createRenderable "/points" cloudXY world0).1
                (createRenderable "/points" cloudXY world0).2 cloudXY readersXY Hv)
    as (_ & _ & _ & _ & Hmin & Hmax).
  assert (Hvalues : colorValues (activeColorReader readersXY) cloudXY = [num 0; num 5; num 10])
    by (vm_compute; reflexivity).
  assert (Hdomain :
    colorDomain (autoSelectColorField defaultSettings cloudXY)
      (activeColorReader readersXY) cloudXY = (num 0, num 10)) by (vm_compute; reflexivity).
  split; [exact Hv|]. split; [reflexivity|]. split; [reflexivity|].
  split; [exact Hvalues|]. split; [vm_compute; reflexivity|].
  cbn [createRenderable fst userData settings] in Hmin, Hmax.
  rewrite Hvalues, Hdomain in Hmin, Hmax. cbn [fst snd] in Hmin, Hmax.
  split.
  - apply (Hmin eq_refl); [discriminate|]. repeat constructor.
  - apply (Hmax eq_refl); [discriminate|]. repeat constructor.
Defined.

(** *** One renderable per topic *)

Section Reuse.
Context `{Imports}.

Lemma setXYZ_summary (i : N) (vx vy vz : number) (at_ : BufferAttribute) :
  buffer (setXYZ i vx vy vz at_) = buffer at_
  /\ itemSize (setXYZ i vx vy vz at_) = itemSize at_
  /\ length (array (setXYZ i vx vy vz at_)) = length (array at_).
Proof. unfold setXYZ. cbn. rewrite !length_insert. repeat split. Qed.

Lemma setXYZW_summary (i : N) (vx vy vz vw : number) (at_ : BufferAttribute) :
  buffer (setXYZW i vx vy vz vw at_) = buffer at_
  /\ itemSize (setXYZW i vx vy vz vw at_) = itemSize at_
  /\ length (array (setXYZW i vx vy vz vw at_)) = length (array at_).
Proof. unfold setXYZW. cbn. rewrite !length_insert. repeat split. Qed.

Lemma with_attribute_keeps_shape (attr : string) (f : BufferAttribute -> BufferAttribute) :
  (forall at_, buffer (f at_) = buffer at_ /\ itemSize (f at_) = itemSize at_
               /\ length (array (f at_)) = length (array at_)) ->
  keeps shape (with_attribute attr f).
Proof.
  intros Hf. apply keeps_with_attribute. intros s at_ Hget.
  unfold shape. cbn [fst snd userData set_userData geometry set_geometry
                     attributes set_attributes itemCount].
  f_equal. unfold getAttribute in Hget.
  apply (map_set_same_summary
           (fun a => (buffer a, itemSize a, length (array a))) attr at_ (f at_)); [exact Hget|].
  destruct (Hf at_) as (-> & -> & ->). reflexivity.
Qed.

Lemma decodePoint_keeps_shape (pc : PointCloud2) (rdx rdy rdz rdc : FieldReader)
    (conv : ColorRGBA -> number -> ColorRGBA) (i : N) :
  keeps shape (decodePoint pc rdx rdy rdz rdc conv i).
Proof.
  unfold decodePoint.
  apply keeps_bind;
    [apply with_attribute_keeps_shape; intros at_; apply setXYZ_summary | intros _].
  apply keeps_bind; [apply keeps_modify; intros s; reflexivity | intros _].
  apply keeps_bind; [apply keeps_gets | intros c].
  apply with_attribute_keeps_shape. intros at_. apply setXYZW_summary.
Qed.

(** After [decode] the geometry has the shape [resize] gave it. *)
Lemma decode_shape (pc : PointCloud2) (rs : Readers) (s : Ctx) :
  shape (decode pc rs s).2 =
    shape (set_userData
             (set_geometry
                (fun _ => (resize (pointCount pc) (next_id s.2) (geometry (userData s.1))).1))
             s.1, s.2).
Proof.
  unfold decode, bind at 1. unfold gets at 1. cbn [fst snd].
  unfold bind at 1. rewrite geometry_resize_run.
  unfold bind at 1. unfold on_world at 1, modify at 1. cbn [fst snd].
  match goal with
  | |- shape (?m ?s0).2 = _ =>
      assert (Hkeep : keeps shape m); [| rewrite (Hkeep s0); reflexivity]
  end.
  apply keeps_bind; [apply keeps_for_each; intros i; apply decodePoint_keeps_shape | intros _].
  apply keeps_bind; [apply with_attribute_keeps_shape; intros at_; repeat split | intros _].
  apply with_attribute_keeps_shape. intros at_. repeat split.
Qed.

Lemma shape_buffers (s : Ctx) :
  buffers (geometry (userData s.1)) = (fun e => (e.1, e.2.1.1)) <$> (shape s).2.
Proof.
  unfold buffers, shape. cbn [snd]. rewrite <- list_fmap_compose.
  apply list_fmap_ext. intros i [k a] _. reflexivity.
Qed.

Lemma resize_buffers_fresh (n : N) (fresh : nat) (g : DynamicBufferGeometry) :
  n <> itemCount g ->
  buffers (resize n fresh g).1 = imap (fun k e => (e.1, fresh + k)) (attributes g).
Proof.
  intros Hne. unfold resize. apply N.eqb_neq in Hne. rewrite Hne. unfold buffers. cbn.
  rewrite fmap_imap. apply imap_ext. intros k [a b] _. reflexivity.
Qed.

(** A message that passed the checks has a whole number of points. *)
Lemma validated_length (settings_ : PointCloudSettings) (pc : PointCloud2) (rs : Readers) :
  validate settings_ pc = inl rs ->
  data_length pc = (pointCount pc * point_step pc)%N /\ point_step pc <> 0%N.
Proof.
  unfold validate. destruct (structuralError pc) as [m|] eqn:Hs; [discriminate|]. intros _.
  assert (Hnot : ~ is_Some (structuralError pc)) by (rewrite Hs; intros [? [=]]).
  rewrite structuralError_is_Some in Hnot. unfold pointCount.
  assert (Hstep : point_step pc <> 0%N) by tauto.
  assert (Hmod : (data_length pc mod point_step pc = 0)%N).
  { destruct (N.eq_dec (data_length pc mod point_step pc)%N 0%N); [assumption | tauto]. }
  split; [|assumption].
  pose proof (N.div_mod (data_length pc) (point_step pc) Hstep). lia.
Qed.

(** What a decoded message does to the geometry of the renderable. *)
Lemma update_accepted_geometry (r : PointCloudRenderable) (w : World) (pc : PointCloud2)
    (rs : Readers) :
  validate (settings (userData r)) pc = inl rs ->
  itemCount (geometry (userData (_updatePointCloudRenderable pc (r, w)).2.1)) = pointCount pc
  /\ (pointCount pc = itemCount (geometry (userData r)) ->
      buffers (geometry (userData (_updatePointCloudRenderable pc (r, w)).2.1))
        = buffers (geometry (userData r)))
  /\ (pointCount pc <> itemCount (geometry (userData r)) ->
      buffers (geometry (userData (_updatePointCloudRenderable pc (r, w)).2.1))
        = imap (fun k e => (e.1, next_id w + k)) (attributes (geometry (userData r)))).
Proof.
  intros Hv. rewrite (update_accepted r w pc rs Hv).
  pose proof (decode_shape pc rs (stamped pc r, w)) as Hshape.
  cbn [fst snd stamped userData set_userData geometry set_srcTime set_pointCloud next_id]
    in Hshape.
  split.
  { apply (f_equal fst) in Hshape. cbn [shape fst] in Hshape. rewrite Hshape.
    cbn. apply resize_itemCount. }
  split.
  - intros Hsame. rewrite shape_buffers, Hshape, <- shape_buffers. cbn.
    rewrite Hsame, resize_same_count. reflexivity.
  - intros Hdiff. rewrite shape_buffers, Hshape, <- shape_buffers. cbn.
    apply resize_buffers_fresh. assumption.
Qed.

Lemma add_known_store (topic_ : string) (pc : PointCloud2) (w : World) (r : PointCloudRenderable) :
  map_get topic_ (pointCloudsByTopic w) = Some r ->
  let r' := (_updatePointCloudRenderable pc (r, w)).2.1 in
  let w' := (addPointCloud2Message topic_ pc w).2 in
  pointCloudsByTopic w' = map_set topic_ r' (pointCloudsByTopic w)
  /\ scene_children w' = scene_children w
  /\ materialCache w' = materialCache w
  /\ object3d r' = object3d r
  /\ geometry_id (geometry (userData r')) = geometry_id (geometry (userData r))
  /\ points (userData r') = points (userData r).
Proof.
  intros Hget r' w'. subst r' w'. rewrite (add_known topic_ pc w r Hget).
  pose proof (update_frame pc r w) as Hframe.
  cbn [snd pointCloudsByTopic scene_children materialCache set_pointCloudsByTopic].
  split; [rewrite update_keeps_map; reflexivity|].
  split; [exact (f_equal frame_scene_children Hframe)|].
  split; [exact (f_equal frame_materialCache Hframe)|].
  split; [exact (f_equal frame_object3d Hframe)|].
  split; [exact (f_equal frame_geometry_id Hframe) | exact (f_equal frame_points Hframe)].
Qed.

Lemma add_new_store (topic_ : string) (pc : PointCloud2) (w : World) :
  map_get topic_ (pointCloudsByTopic w) = None ->
  let r0 := (createRenderable topic_ pc w).1 in
  let r' := (_updatePointCloudRenderable pc (createRenderable topic_ pc w)).2.1 in
  let w' := (addPointCloud2Message topic_ pc w).2 in
  pointCloudsByTopic w' = pointCloudsByTopic w ++ [(topic_, r')]
  /\ scene_children w' = scene_children w ++ [next_id w]
  /\ materialCache w' =
       (pointsMaterial (autoSelectColorField defaultSettings pc) (materialCache w)).2
  /\ object3d r' = object3d r0
  /\ geometry_id (geometry (userData r')) = next_id w + 1
  /\ points (userData r') = points (userData r0).
Proof.
  intros Hget r0 r' w'. subst r0 r' w'. rewrite (add_new topic_ pc w Hget).
  destruct (createRenderable topic_ pc w) as [r0 w0] eqn:Hcreate.
  pose proof (update_frame pc r0 w0) as Hframe.
  assert (Hr0 : r0 = (createRenderable topic_ pc w).1) by (rewrite Hcreate; reflexivity).
  assert (Hw0 : w0 = (createRenderable topic_ pc w).2) by (rewrite Hcreate; reflexivity).
  cbn [fst snd pointCloudsByTopic scene_children materialCache set_pointCloudsByTopic].
  split.
  { assert (Hmap0 : pointCloudsByTopic w0 = pointCloudsByTopic w ++ [(topic_, r0)]).
    { rewrite Hw0, Hr0. cbn [createRenderable fst snd pointCloudsByTopic
        set_pointCloudsByTopic set_scene_children set_materialCache set_next_id].
      apply map_set_absent. exact Hget. }
    rewrite update_keeps_map, Hmap0.
    generalize (_updatePointCloudRenderable pc (r0, w0)).2.1. intros r'.
    clear - Hget. induction (pointCloudsByTopic w) as [|[k v] m IH]; cbn in *.
    - rewrite decide_True by reflexivity. reflexivity.
    - destruct (decide (topic_ = k)); [discriminate|]. rewrite IH by assumption. reflexivity. }
  split.
  { etrans; [exact (f_equal frame_scene_children Hframe)|]. rewrite Hw0. reflexivity. }
  split.
  { etrans; [exact (f_equal frame_materialCache Hframe)|]. rewrite Hw0. reflexivity. }
  split; [exact (f_equal frame_object3d Hframe)|].
  split.
  { etrans; [exact (f_equal frame_geometry_id Hframe)|]. rewrite Hr0. reflexivity. }
  exact (f_equal frame_points Hframe).
Qed.


End Reuse.



(** *** Binding the position readers *)

Section Axes.
Context `{Imports}.

Lemma bindPosition_sound (field : PointField) (step : N) (rs0 rs1 : Readers) :
  bindPosition field step rs0 = inl rs1 ->
  (is_Some (xReader rs1) ->
     is_Some (xReader rs0) \/ (field_name field = "x" /\ is_Some (getReader field step)))
  /\ (is_Some (yReader rs1) ->
      is_Some (yReader rs0) \/ (field_name field = "y" /\ is_Some (getReader field step)))
  /\ (is_Some (zReader rs1) ->
      is_Some (zReader rs0) \/ (field_name field = "z" /\ is_Some (getReader field step))).
Proof.
  unfold bindPosition.
  repeat case_decide; try destruct (getReader field step) as [rd|] eqn:Hrd;
    intros [= <-]; cbn; repeat split; intros Hsome; eauto.
Qed.

Lemma bindColor_keeps (settings_ : PointCloudSettings) (field : PointField) (step : N)
    (rs1 rs2 : Readers) :
  bindColor settings_ field step rs1 = inl rs2 ->
  xReader rs2 = xReader rs1 /\ yReader rs2 = yReader rs1 /\ zReader rs2 = zReader rs1.
Proof.
  unfold bindColor. case_decide; [destruct (getReader field step)|];
    intros [= <-]; repeat split.
Qed.

(** A position reader that is bound after the scan was bound before it or
    comes from a field of that name with a valid reader. *)
Lemma resolveReaders_sound (settings_ : PointCloudSettings) (step : N) (fs : list PointField) :
  forall rs0 rs,
    resolveReaders settings_ step fs rs0 = inl rs ->
    (is_Some (xReader rs) ->
       is_Some (xReader rs0)
       \/ exists f, f ∈ fs /\ field_name f = "x" /\ is_Some (getReader f step))
    /\ (is_Some (yReader rs) ->
        is_Some (yReader rs0)
        \/ exists f, f ∈ fs /\ field_name f = "y" /\ is_Some (getReader f step))
    /\ (is_Some (zReader rs) ->
        is_Some (zReader rs0)
        \/ exists f, f ∈ fs /\ field_name f = "z" /\ is_Some (getReader f step)).
Proof.
  induction fs as [|field rest IH]; intros rs0 rs; cbn [resolveReaders].
  - intros [= <-]. repeat split; intros Hsome; left; exact Hsome.
  - destruct (bindPosition field step rs0) as [rs1|m] eqn:Hpos; [|discriminate].
    destruct (bindColor settings_ field step rs1) as [rs2|m] eqn:Hcol; [|discriminate].
    destruct (bindPosition_sound field step rs0 rs1 Hpos) as (Hx1 & Hy1 & Hz1).
    destruct (bindColor_keeps settings_ field step rs1 rs2 Hcol) as (Hx2 & Hy2 & Hz2).
    assert (Hstep :
      (is_Some (xReader rs2) ->
         is_Some (xReader rs0)
         \/ exists f, f ∈ field :: rest /\ field_name f = "x" /\ is_Some (getReader f step))
      /\ (is_Some (yReader rs2) ->
          is_Some (yReader rs0)
          \/ exists f, f ∈ field :: rest /\ field_name f = "y" /\ is_Some (getReader f step))
      /\ (is_Some (zReader rs2) ->
          is_Some (zReader rs0)
          \/ exists f, f ∈ field :: rest /\ field_name f = "z" /\ is_Some (getReader f step))).
    { rewrite Hx2, Hy2, Hz2. repeat split; intros Hsome.
      - destruct (Hx1 Hsome) as [|[? ?]]; [left; assumption|].
        right. exists field. split; [apply elem_of_cons; left; reflexivity | split; assumption].
      - destruct (Hy1 Hsome) as [|[? ?]]; [left; assumption|].
        right. exists field. split; [apply elem_of_cons; left; reflexivity | split; assumption].
      - destruct (Hz1 Hsome) as [|[? ?]]; [left; assumption|].
        right. exists field. split; [apply elem_of_cons; left; reflexivity | split; assumption]. }
    destruct (allBound rs2); [intros [= <-]; exact Hstep|].
    intros Hrest. destruct (IH rs2 rs Hrest) as (Hx & Hy & Hz).
    destruct Hstep as (Hx' & Hy' & Hz').
    repeat split; intros Hsome.
    + destruct (Hx Hsome) as [Hprev|(f & Hin & Hname & Hrd)]; [exact (Hx' Hprev)|].
      right. exists f. split; [apply elem_of_cons; right; assumption | split; assumption].
    + destruct (Hy Hsome) as [Hprev|(f & Hin & Hname & Hrd)]; [exact (Hy' Hprev)|].
      right. exists f. split; [apply elem_of_cons; right; assumption | split; assumption].
    + destruct (Hz Hsome) as [Hprev|(f & Hin & Hname & Hrd)]; [exact (Hz' Hprev)|].
      right. exists f. split; [apply elem_of_cons; right; assumption | split; assumption].
Qed.

Lemma resolves_true (pc : PointCloud2) (axis : string) :
  (exists f, f ∈ fields pc /\ field_name f = axis /\ is_Some (getReader f (point_step pc))) ->
  resolves pc axis = true.
Proof.
  intros (f & Hin & Hname & Hrd). unfold resolves. apply existsb_exists.
  exists f. split; [apply list_elem_of_In; assumption|].
  rewrite andb_true_iff, !bool_decide_eq_true. split; assumption.
Qed.

(** The readers the scan binds belong to axes that resolve, and an axis
    that no field is named after gets no reader. *)
Lemma bindReaders_axes (settings_ : PointCloudSettings) (pc : PointCloud2) (rs : Readers) :
  bindReaders settings_ pc = inl rs ->
  (2 <= positionReaderCount rs)%N
  /\ (is_Some (xReader rs) -> resolves pc "x" = true)
  /\ (is_Some (yReader rs) -> resolves pc "y" = true)
  /\ (is_Some (zReader rs) -> resolves pc "z" = true)
  /\ (absent pc "x" -> xReader rs = None)
  /\ (absent pc "y" -> yReader rs = None)
  /\ (absent pc "z" -> zReader rs = None).
Proof.
  unfold bindReaders.
  destruct (resolveReaders settings_ (point_step pc) (fields pc) noReaders) as [rs'|m] eqn:Hscan;
    [|discriminate].
  destruct (N.ltb_spec (positionReaderCount rs') 2); [discriminate|]. intros [= <-].
  destruct (resolveReaders_sound settings_ (point_step pc) (fields pc) noReaders rs' Hscan)
    as (Hx & Hy & Hz).
  assert (Hnone : forall P : Prop, is_Some (@None FieldReader) \/ P -> P).
  { intros P [[? [=]]|HP]; exact HP. }
  split; [assumption|].
  split; [intros Hs; apply resolves_true, (Hnone _ (Hx Hs))|].
  split; [intros Hs; apply resolves_true, (Hnone _ (Hy Hs))|].
  split; [intros Hs; apply resolves_true, (Hnone _ (Hz Hs))|].
  unfold absent. rewrite !Forall_forall.
  split; [|split]; intros Habs.
  - destruct (xReader rs') as [rd|] eqn:E; [|reflexivity].
    destruct (Hnone _ (Hx ltac:(eauto))) as (f & Hin & Hname & _).
    destruct (Habs f Hin Hname).
  - destruct (yReader rs') as [rd|] eqn:E; [|reflexivity].
    destruct (Hnone _ (Hy ltac:(eauto))) as (f & Hin & Hname & _).
    destruct (Habs f Hin Hname).
  - destruct (zReader rs') as [rd|] eqn:E; [|reflexivity].
    destruct (Hnone _ (Hz ltac:(eauto))) as (f & Hin & Hname & _).
    destruct (Habs f Hin Hname).
Qed.

(** Fewer than two resolving axes: the message is rejected. *)
Lemma too_few_axes_rejected (settings_ : PointCloudSettings) (pc : PointCloud2) :
  resolvedAxes pc < 2 -> exists message, validate settings_ pc = inr message.
Proof.
  intros Hfew. destruct (validate settings_ pc) as [rs|message] eqn:Hv; [|eauto].
  exfalso. unfold validate in Hv.
  destruct (structuralError pc); [discriminate|].
  destruct (bindReaders_axes settings_ pc rs Hv) as (Hcount & Hx & Hy & Hz & _).
  unfold resolvedAxes in Hfew. unfold positionReaderCount, bound in Hcount.
  destruct (xReader rs); [rewrite Hx in Hfew by eauto|];
    (destruct (yReader rs); [rewrite Hy in Hfew by eauto|]);
    (destruct (zReader rs); [rewrite Hz in Hfew by eauto|]);
    cbn in Hfew; lia.
Qed.

(** *** The position attribute after decoding *)

Lemma with_attribute_run (attr : string) (f : BufferAttribute -> BufferAttribute)
    (s : Ctx) (a : BufferAttribute) :
  getAttribute attr (geometry (userData s.1)) = Some a ->
  with_attribute attr f s = (Return tt, put_attribute attr (f a) s).
Proof.
  intros Hget. unfold with_attribute, bind, gets, on_renderable, modify. cbn [fst snd].
  rewrite Hget. reflexivity.
Qed.

Lemma getAttribute_put_eq (attr : string) (a : BufferAttribute) (s : Ctx) :
  getAttribute attr (geometry (userData (put_attribute attr a s).1)) = Some a.
Proof. unfold getAttribute, put_attribute. cbn. apply map_get_set_eq. Qed.

Lemma getAttribute_put_ne (attr attr' : string) (a : BufferAttribute) (s : Ctx) :
  attr <> attr' ->
  getAttribute attr' (geometry (userData (put_attribute attr a s).1))
    = getAttribute attr' (geometry (userData s.1)).
Proof. intros Hne. unfold getAttribute, put_attribute. cbn. apply map_get_set_ne. exact Hne. Qed.

Lemma decodePoint_run (pc : PointCloud2) (rdx rdy rdz rdc : FieldReader)
    (conv : ColorRGBA -> number -> ColorRGBA) (i : N) (s : Ctx) (p c : BufferAttribute) :
  getAttribute "position" (geometry (userData s.1)) = Some p ->
  getAttribute "color" (geometry (userData s.1)) = Some c ->
  exists s' c',
    decodePoint pc rdx rdy rdz rdc conv i s = (Return tt, s')
    /\ getAttribute "position" (geometry (userData s'.1)) = Some (writePosition pc rdx rdy rdz p i)
    /\ getAttribute "color" (geometry (userData s'.1)) = Some c'.
Proof.
  intros Hp Hc. unfold decodePoint.
  unfold bind at 1. rewrite (with_attribute_run "position" _ s p Hp).
  unfold bind at 1. unfold on_world at 1, modify at 1.
  unfold bind at 1. unfold gets at 1.
  set (s1 := ((put_attribute "position" _ s).1, _)).
  assert (Hc1 : getAttribute "color" (geometry (userData s1.1)) = Some c).
  { subst s1. cbn [fst]. rewrite getAttribute_put_ne by discriminate. exact Hc. }
  rewrite (with_attribute_run "color" _ s1 c Hc1).
  eexists _, _. split; [reflexivity|]. split.
  - rewrite getAttribute_put_ne by discriminate. subst s1. cbn [fst].
    apply getAttribute_put_eq.
  - apply getAttribute_put_eq.
Qed.

Lemma decode_loop (pc : PointCloud2) (rdx rdy rdz rdc : FieldReader)
    (conv : ColorRGBA -> number -> ColorRGBA) (indices : list N) :
  forall (s : Ctx) (p c : BufferAttribute),
    getAttribute "position" (geometry (userData s.1)) = Some p ->
    getAttribute "color" (geometry (userData s.1)) = Some c ->
    exists s' c',
      for_each indices (decodePoint pc rdx rdy rdz rdc conv) s = (Return tt, s')
      /\ getAttribute "position" (geometry (userData s'.1))
           = Some (fold_left (writePosition pc rdx rdy rdz) indices p)
      /\ getAttribute "color" (geometry (userData s'.1)) = Some c'.
Proof.
  induction indices as [|i indices IH]; intros s p c Hp Hc; cbn [for_each fold_left].
  - exists s, c. repeat split; assumption.
  - destruct (decodePoint_run pc rdx rdy rdz rdc conv i s p c Hp Hc)
      as (s1 & c1 & Hrun & Hp1 & Hc1).
    destruct (IH s1 _ c1 Hp1 Hc1) as (s' & c' & Hloop & Hp' & Hc').
    exists s', c'. split; [|split; assumption].
    unfold bind. rewrite Hrun. exact Hloop.
Qed.

(** With both attributes in place, [decode] returns, and the position
    attribute is the resized one with every point written in turn. *)
Lemma decode_position (pc : PointCloud2) (rs : Readers) (s : Ctx) (p c : BufferAttribute) :
  let g := (resize (pointCount pc) (next_id s.2) (geometry (userData s.1))).1 in
  getAttribute "position" g = Some p ->
  getAttribute "color" g = Some c ->
  exists s',
    decode pc rs s = (Return tt, s')
    /\ getAttribute "position" (geometry (userData s'.1))
         = Some (set_needsUpdate true
                   (fold_left
                      (writePosition pc (nullish (xReader rs) zeroReader)
                         (nullish (yReader rs) zeroReader) (nullish (zReader rs) zeroReader))
                      (pointIndices pc) p)).
Proof.
  intros g Hp Hc. unfold decode.
  unfold bind at 1. unfold gets at 1.
  unfold bind at 1. rewrite geometry_resize_run.
  unfold bind at 1. unfold on_world at 1, modify at 1.
  set (s1 := (_, log_call _ _)).
  assert (Hp1 : getAttribute "position" (geometry (userData s1.1)) = Some p) by exact Hp.
  assert (Hc1 : getAttribute "color" (geometry (userData s1.1)) = Some c) by exact Hc.
  destruct (decode_loop pc (nullish (xReader rs) zeroReader) (nullish (yReader rs) zeroReader)
              (nullish (zReader rs) zeroReader)
              (nullish (colorReader rs)
                 (nullish (xReader rs) (nullish (yReader rs) (nullish (zReader rs) zeroReader))))
              (getColorConverter (settings (userData s.1))
                 (colorDomain (settings (userData s.1))
                    (nullish (colorReader rs)
                       (nullish (xReader rs)
                          (nullish (yReader rs) (nullish (zReader rs) zeroReader)))) pc).1
                 (colorDomain (settings (userData s.1))
                    (nullish (colorReader rs)
                       (nullish (xReader rs)
                          (nullish (yReader rs) (nullish (zReader rs) zeroReader)))) pc).2)
              (pointIndices pc) s1 p c Hp1 Hc1)
    as (s2 & c2 & Hloop & Hp2 & Hc2).
  unfold bind at 1. rewrite Hloop.
  unfold bind at 1. rewrite (with_attribute_run "position" _ s2 _ Hp2).
  assert (Hc3 : getAttribute "color"
                  (geometry (userData (put_attribute "position"
                     (set_needsUpdate true
                        (fold_left
                           (writePosition pc (nullish (xReader rs) zeroReader)
                              (nullish (yReader rs) zeroReader)
                              (nullish (zReader rs) zeroReader))
                           (pointIndices pc) p)) s2).1)) = Some c2).
  { rewrite getAttribute_put_ne by discriminate. exact Hc2. }
  rewrite (with_attribute_run "color" _ _ c2 Hc3).
  eexists. split; [reflexivity|].
  rewrite getAttribute_put_ne by discriminate. apply getAttribute_put_eq.
Qed.

Lemma map_get_imap (F : nat -> string * BufferAttribute -> string * BufferAttribute)
    (l : list (string * BufferAttribute)) (k : string) (v : BufferAttribute) :
  (forall j e, (F j e).1 = e.1) ->
  map_get k l = Some v ->
  exists j, map_get k (imap F l) = Some (F j (k, v)).2.
Proof.
  revert F. induction l as [|[k' v'] l IH]; intros F Hfst; cbn; [discriminate|].
  pose proof (Hfst 0 (k', v')) as Hhead. destruct (F 0 (k', v')) as [k'' v''] eqn:HF.
  cbn in Hhead. subst k''. destruct (decide (k = k')) as [->|Hne].
  - intros [= <-]. exists 0. rewrite HF. reflexivity.
  - intros Hget. destruct (IH (F ∘ S) (fun j e => Hfst (S j) e) Hget) as [j Hj].
    exists (S j). exact Hj.
Qed.

Lemma resize_attribute_ok (n : N) (fresh : nat) (g : DynamicBufferGeometry)
    (attr : string) (size : N) :
  attribute_ok g attr size -> attribute_ok (resize n fresh g).1 attr size.
Proof.
  intros (a & Hget & Hsize & Hlen). unfold resize.
  destruct (N.eqb_spec n (itemCount g)) as [->|Hne]; [exists a; repeat split; assumption|].
  unfold attribute_ok, getAttribute in *. cbn [fst attributes itemCount].
  destruct (map_get_imap (reallocate n fresh) (attributes g) attr a
              (fun j e => eq_refl) Hget) as [j Hj].
  eexists. split; [exact Hj|]. cbn. split; [exact Hsize|].
  unfold zeros. rewrite length_replicate, Hsize. reflexivity.
Qed.

(** The geometry [createRenderable] builds has both attributes, empty. *)
Lemma created_geometry_ok (topic_ : string) (pc : PointCloud2) (w : World) :
  geometry_ok (geometry (userData (createRenderable topic_ pc w).1)).
Proof.
  split.
  - eexists. split; [reflexivity|]. split; reflexivity.
  - eexists. split; [reflexivity|]. split; reflexivity.
Qed.

(** After the points [0 .. m-1] are written, each of them holds the three
    values its readers gave. *)
Lemma written_positions (pc : PointCloud2) (rdx rdy rdz : FieldReader)
    (p : BufferAttribute) (n : nat) :
  itemSize p = 3%N -> length (array p) = 3 * n ->
  forall m, m <= n ->
    let p' := fold_left (writePosition pc rdx rdy rdz) (N.of_nat <$> seq 0 m) p in
    itemSize p' = 3%N
    /\ length (array p') = 3 * n
    /\ forall i, i < m ->
         array p' !! (3 * i) = Some (rdx (data pc) (N.of_nat i * point_step pc)%N)
         /\ array p' !! (3 * i + 1) = Some (rdy (data pc) (N.of_nat i * point_step pc)%N)
         /\ array p' !! (3 * i + 2) = Some (rdz (data pc) (N.of_nat i * point_step pc)%N).
Proof.
  intros Hsize Hlen m. induction m as [|m IH]; intros Hm; cbn zeta.
  - cbn. repeat split; [assumption | assumption | lia | lia | lia].
  - rewrite seq_S, fmap_app, fold_left_app. cbn [fmap list_fmap fold_left Nat.add].
    specialize (IH ltac:(lia)). cbn zeta in IH.
    set (q := fold_left (writePosition pc rdx rdy rdz) (N.of_nat <$> seq 0 m) p) in *.
    destruct IH as (Hqsize & Hqlen & Hq).
    unfold writePosition, setXYZ. cbn [array itemSize set_array]. rewrite Hqsize.
    replace (N.to_nat (N.of_nat m * 3)) with (3 * m) by lia.
    split; [reflexivity|]. split; [rewrite !length_insert; exact Hqlen|].
    intros i Hi. destruct (decide (i = m)) as [->|Hne].
    + split; [|split].
      * rewrite list_lookup_insert_ne by lia. rewrite list_lookup_insert_ne by lia.
        apply list_lookup_insert_eq. lia.
      * rewrite list_lookup_insert_ne by lia.
        apply list_lookup_insert_eq. rewrite length_insert. lia.
      * apply list_lookup_insert_eq. rewrite !length_insert. lia.
    + destruct (Hq i ltac:(lia)) as (Hx & Hy & Hz).
      rewrite !list_lookup_insert_ne by lia. repeat split; assumption.
Qed.

(** C4. A message of which fewer than two of x, y and z resolve to a reader
    is rejected, with the diagnostic recorded. A message that passes
    validation is decoded without throwing (the geometry having the two
    attributes [addPointCloud2Message] creates), every point of the position
    attribute holds the values its readers gave, and an axis that no field
    is named after is 0 at every point: with fields x and y only, z is 0 at
    every point index. *)
Theorem missing_axis_decodes_as_zero
    (r : PointCloudRenderable) (w : World) (pc : PointCloud2) :
  (resolvedAxes pc < 2 ->
     exists message,
       validate (settings (userData r)) pc = inr message
       /\ diagnostic (topic (userData r)) INVALID_POINT_CLOUD
            (layerErrors (_updatePointCloudRenderable pc (r, w)).2.2) = Some message)
  /\ (forall rs,
        validate (settings (userData r)) pc = inl rs ->
        geometry_ok (geometry (userData r)) ->
        2 <= resolvedAxes pc
        /\ (_updatePointCloudRenderable pc (r, w)).1 = Return tt
        /\ exists p,
             getAttribute "position"
               (geometry (userData (_updatePointCloudRenderable pc (r, w)).2.1)) = Some p
             /\ length (array p) = 3 * N.to_nat (pointCount pc)
             /\ forall i,
                  i < N.to_nat (pointCount pc) ->
                  let pointOffset := (N.of_nat i * point_step pc)%N in
                  array p !! (3 * i)
                    = Some (nullish (xReader rs) zeroReader (data pc) pointOffset)
                  /\ array p !! (3 * i + 1)
                       = Some (nullish (yReader rs) zeroReader (data pc) pointOffset)
                  /\ array p !! (3 * i + 2)
                       = Some (nullish (zReader rs) zeroReader (data pc) pointOffset)
                  /\ (absent pc "x" -> array p !! (3 * i) = Some (num 0))
                  /\ (absent pc "y" -> array p !! (3 * i + 1) = Some (num 0))
                  /\ (absent pc "z" -> array p !! (3 * i + 2) = Some (num 0))).
Proof.
  split.
  - intros Hfew. destruct (too_few_axes_rejected (settings (userData r)) pc Hfew) as [m Hv].
    exists m. split; [exact Hv|].
    exact (proj1 (proj2 (invalid_message_is_recorded_and_stamped_aux r w pc m Hv))).
  - intros rs Hv [Hpos Hcol].
    assert (Hbind : bindReaders (settings (userData r)) pc = inl rs).
    { unfold validate in Hv. destruct (structuralError pc); [discriminate | exact Hv]. }
    destruct (bindReaders_axes _ pc rs Hbind) as (Hcount & Hx & Hy & Hz & Hax & Hay & Haz).
    split.
    { unfold resolvedAxes. unfold positionReaderCount, bound in Hcount.
      destruct (xReader rs); [rewrite Hx by eauto|];
        (destruct (yReader rs); [rewrite Hy by eauto|]);
        (destruct (zReader rs); [rewrite Hz by eauto|]); cbn; lia. }
    rewrite (update_accepted r w pc rs Hv).
    apply (resize_attribute_ok (pointCount pc) (next_id w)) in Hpos, Hcol.
    destruct Hpos as (p0 & Hp0 & Hp0size & Hp0len).
    destruct Hcol as (c0 & Hc0 & _ & _).
    rewrite resize_itemCount in Hp0len.
    destruct (decode_position pc rs (stamped pc r, w) p0 c0 Hp0 Hc0) as (s' & Hrun & Hp').
    rewrite Hrun. cbn [fst snd]. split; [reflexivity|].
    eexists. split; [exact Hp'|].
    destruct (written_positions pc (nullish (xReader rs) zeroReader)
                (nullish (yReader rs) zeroReader) (nullish (zReader rs) zeroReader)
                p0 (N.to_nat (pointCount pc)) Hp0size ltac:(lia)
                (N.to_nat (pointCount pc)) ltac:(lia))
      as (_ & Hlen & Hpoints).
    cbn [array set_needsUpdate]. split; [exact Hlen|].
    intros i Hi. cbn zeta. destruct (Hpoints i Hi) as (Hpx & Hpy & Hpz).
    split; [exact Hpx|]. split; [exact Hpy|]. split; [exact Hpz|].
    split; [|split]; intros Habs.
    + etrans; [exact Hpx|]. rewrite (Hax Habs). reflexivity.
    + etrans; [exact Hpy|]. rewrite (Hay Habs). reflexivity.
    + etrans; [exact Hpz|]. rewrite (Haz Habs). reflexivity.
Qed.

End Axes.

(** A cloud with the single field x is rejected. The cloud with fields x, y
    and intensity is decoded into the points (1,2,0), (3,4,0), (5,6,0). *)
Lemma missing_axis_decodes_as_zero_witness :
  resolvedAxes cloudX = 1
  /\ validate (settings (userData (createRenderable "/scan" cloudX world0).1)) cloudX
       = inr "PointCloud2 must contain at least two of x/y/z fields"
  /\ validate (settings (userData (createRenderable "/points" cloudXY world0).1)) cloudXY
       = inl readersXY
  /\ absent cloudXY "z"
  /\ exists p,
       getAttribute "position" (geometry (userData renderable1)) = Some p
       /\ array p = num <$> [1; 2; 0; 3; 4; 0; 5; 6; 0]%Z
       /\ forall i, i < 3 -> array p !! (3 * i + 2) = Some (num 0).
Proof.
  assert (Hv : validate (settings (userData (createRenderable "/points" cloudXY world0).1))
                 cloudXY = inl readersXY) by (vm_compute; reflexivity).
  assert (Habsent : absent cloudXY "z") by (repeat constructor; discriminate).
  split; [vm_compute; reflexivity|].
  split.
  { destruct (missing_axis_decodes_as_zero
                (createRenderable "/scan" cloudX world0).1
                (createRenderable "/scan" cloudX world0).2 cloudX) as [Hfew _].
    destruct (Hfew ltac:(vm_compute; lia)) as (m & Hm & _).
    rewrite Hm. vm_compute in Hm. injection Hm as <-. reflexivity. }
  split; [exact Hv|]. split; [exact Habsent|].
  destruct (missing_axis_decodes_as_zero
              (createRenderable "/points" cloudXY world0).1
              (createRenderable "/points" cloudXY world0).2 cloudXY) as [_ Hvalid].
  destruct (Hvalid readersXY Hv (created_geometry_ok "/points" cloudXY world0))
    as (_ & _ & p & Hp & _ & Hpoints).
  assert (Hp1 : getAttribute "position" (geometry (userData renderable1)) = Some p)
    by exact Hp.
  exists p. split; [exact Hp1|]. split.
  - assert (Harray :
      array <$> getAttribute "position" (geometry (userData renderable1))
        = Some (num <$> [1; 2; 0; 3; 4; 0; 5; 6; 0]%Z)) by (vm_compute; reflexivity).
    rewrite Hp1 in Harray. injection Harray as ->. reflexivity.
  - intros i Hi.
    assert (Hi' : i < N.to_nat (pointCount cloudXY)) by (vm_compute; lia).
    destruct (Hpoints i Hi') as (_ & _ & _ & _ & _ & Hz). exact (Hz Habsent).
Defined.

(** *** The exception on a rejected message *)

(** X1. A message that fails validation makes [addPointCloud2Message] throw: the
    diagnostic is recorded, and then [invalidPointCloudError] calls [resize]
    on a member of [userData] that is not defined. The exception leaves the
    method with the renderable registered. *)
Theorem rejected_message_throws
    `{Imports} (w : World) (topic_ : string) (pc : PointCloud2) (r : PointCloudRenderable)
    (message : string) :
  map_get topic_ (pointCloudsByTopic w) = Some r ->
  validate (settings (userData r)) pc = inr message ->
  (addPointCloud2Message topic_ pc w).1 =
    Throw (TypeError "Cannot read properties of undefined (reading 'resize')")
  /\ diagnostic (topic (userData r)) INVALID_POINT_CLOUD
       (layerErrors (addPointCloud2Message topic_ pc w).2) = Some message
  /\ map_get topic_ (pointCloudsByTopic (addPointCloud2Message topic_ pc w).2)
       = Some (stamped pc r).
Proof.
  intros Hget Hv. unfold addPointCloud2Message, bind, get, ret, on_entry, zoom.
  rewrite Hget, (update_rejected r w pc message Hv).
  cbn [fst snd layerErrors set_layerErrors set_pointCloudsByTopic pointCloudsByTopic].
  split; [reflexivity|]. split.
  - apply diagnostic_addToTopic_same.
  - apply map_get_set_eq.
Qed.

Lemma rejected_message_throws_witness :
  map_get "/points" (pointCloudsByTopic world1) = Some renderable1
  /\ validate (settings (userData renderable1)) cloudBigEndian
       = inr "PointCloud2 is_bigendian=true is not supported"
  /\ (addPointCloud2Message "/points" cloudBigEndian world1).1 =
       Throw (TypeError "Cannot read properties of undefined (reading 'resize')")
  /\ diagnostic "/points" INVALID_POINT_CLOUD
       (layerErrors (addPointCloud2Message "/points" cloudBigEndian world1).2)
     = Some "PointCloud2 is_bigendian=true is not supported".
Proof.
  assert (Hget : map_get "/points" (pointCloudsByTopic world1) = Some renderable1)
    by (vm_compute; reflexivity).
  assert (Hv : validate (settings (userData renderable1)) cloudBigEndian
               = inr "PointCloud2 is_bigendian=true is not supported")
    by (vm_compute; reflexivity).
  destruct (rejected_message_throws world1 "/points" cloudBigEndian renderable1 _ Hget Hv)
    as (Hthrow & Hdiag & _).
  split; [exact Hget|]. split; [exact Hv|]. split; [exact Hthrow | exact Hdiag].
Defined.

End PointCloudsFacts.

(* ===================================================================== *)
(** ** The life of a renderer *)
(* ===================================================================== *)

Module RendererLife.
Import Js Renderer RendererFacts.

Lemma emitted_app (name : EventName) (t1 t2 : list (Effect + Teardown)) :
  emitted name (t1 ++ t2) = emitted name t1 ++ emitted name t2.
Proof. unfold emitted. apply omap_app. Qed.

Lemma rendered_app (t1 t2 : list (Effect + Teardown)) :
  rendered (t1 ++ t2) = rendered t1 + rendered t2.
Proof. unfold rendered. rewrite filter_app, length_app. reflexivity. Qed.

Lemma queued_app (t1 t2 : list (Effect + Teardown)) :
  queued (t1 ++ t2) = queued t1 + queued t2.
Proof. unfold queued. rewrite filter_app, length_app. reflexivity. Qed.

(** One step of the life of a renderer whose callback is queued. *)
Lemma lifeStep_pending (step : LifeStep) (l : Loop) :
  pending l = true ->
  let time := currentTime (renderer l) in
  let res := lifeStep step l in
  pending res.1 = true
  /\ currentTime (renderer res.1)
       = match step with host (setCurrentTime t) => Some t | _ => time end
  /\ queued res.2 = (if decide (step = host refresh) then 1 else 0)
  /\ emitted startFrame res.2 = frameTimes [step] time
  /\ emitted endFrame res.2 = frameTimes [step] time
  /\ rendered res.2 = length (frameTimes [step] time)
  /\ (fixedFrameId (renderer res.1), renderFrameId (renderer res.1))
     = match frameTimes [step] time with
       | [] => (fixedFrameId (renderer l), renderFrameId (renderer l))
       | _ => (Some "base_link", Some "base_link")
       end.
Proof.
  intros Hpending. destruct l as [this p]. cbn in Hpending. subst p. cbn zeta.
  destruct step as [[|t]|]; cbn [lifeStep hostStep pending renderer frameTimes].
  - unfold animationFrame. destruct (currentTime this) as [t|] eqn:Ht.
    + cbn. rewrite Ht. repeat split.
    + cbn. rewrite Ht. repeat split.
  - cbn. repeat split.
  - cbn. repeat split.
Qed.

Lemma frameTimes_cons (step : LifeStep) (steps : list LifeStep) (time : option Z) :
  frameTimes (step :: steps) time =
    frameTimes [step] time
    ++ frameTimes steps (match step with host (setCurrentTime t) => Some t | _ => time end).
Proof. destruct step as [[|t]|]; cbn; [destruct time|..]; reflexivity. Qed.

Lemma refreshes_cons (step : LifeStep) (steps : list LifeStep) :
  refreshes (step :: steps) = (if decide (step = host refresh) then 1 else 0) + refreshes steps.
Proof. unfold refreshes. rewrite filter_cons. case_decide; reflexivity. Qed.

(** X24. Once the callback is queued it stays queued, whatever happens to the
    renderer, [dispose] included: every display refresh queues the callback
    again, and every refresh at which [currentTime] is set runs one frame,
    with the time last assigned: one [startFrame] event, one rendered scene
    and one [endFrame] event. After the first frame both frame names of the
    renderer are base_link. *)
Theorem queued_callback_runs_at_every_refresh (steps : list LifeStep) (l : Loop) :
  pending l = true ->
  let time := currentTime (renderer l) in
  let res := lifeRun steps l in
  pending res.1 = true
  /\ queued res.2 = refreshes steps
  /\ emitted startFrame res.2 = frameTimes steps time
  /\ emitted endFrame res.2 = frameTimes steps time
  /\ rendered res.2 = length (frameTimes steps time)
  /\ (fixedFrameId (renderer res.1), renderFrameId (renderer res.1))
     = match frameTimes steps time with
       | [] => (fixedFrameId (renderer l), renderFrameId (renderer l))
       | _ => (Some "base_link", Some "base_link")
       end.
Proof.
  revert l. induction steps as [|step steps IH]; intros l Hpending; cbn zeta.
  - cbn. repeat split. exact Hpending.
  - cbn [lifeRun].
    destruct (lifeStep_pending step l Hpending) as (Hp & Ht & Hq & Hs & He & Hr & Hf).
    destruct (lifeStep step l) as [l1 trace1]. cbn [fst snd] in *.
    specialize (IH l1 Hp). cbn zeta in IH. destruct IH as (Hp' & Hq' & Hs' & He' & Hr' & Hf').
    destruct (lifeRun steps l1) as [l2 trace2]. cbn [fst snd] in *.
    rewrite queued_app, !emitted_app, rendered_app, refreshes_cons, frameTimes_cons, <- Ht.
    rewrite Hq, Hq', Hs, Hs', He, He', Hr, Hr', length_app.
    split; [exact Hp'|]. split; [reflexivity|]. split; [reflexivity|].
    split; [reflexivity|]. split; [reflexivity|].
    rewrite Hf', Hf.
    destruct (frameTimes [step] (currentTime (renderer l)));
      destruct (frameTimes steps (currentTime (renderer l1))); reflexivity.
Qed.

Section WorldPosition.
Import Ros.
Context {Matrix4 : Type} (applyMatrix4 : Vector3 -> Matrix4 -> Vector3).

(** X25. [markerWorldPosition] gives [undefined] for a name that is not
    registered, and leaves [tempVec] alone then. For a registered name it
    gives the module-level [tempVec], holding the image of the origin under
    the object's world matrix; a result read after a later call shows the
    position of the later call. *)
Theorem markerWorldPosition_returns_the_shared_vector
    (s : @Positions Matrix4) (markerId : string) :
  (map_get markerId (renderables s) = None ->
     markerWorldPosition applyMatrix4 markerId s = (None, s))
  /\ (forall matrixWorld,
        map_get markerId (renderables s) = Some matrixWorld ->
        let res := markerWorldPosition applyMatrix4 markerId s in
        res.1 = Some ref_tempVec
        /\ deref ref_tempVec res.2
             = applyMatrix4 {| x := num 0; y := num 0; z := num 0 |} matrixWorld
        /\ renderables res.2 = renderables s
        /\ forall other matrixWorld',
             map_get other (renderables s) = Some matrixWorld' ->
             forall r, res.1 = Some r ->
               deref r (markerWorldPosition applyMatrix4 other res.2).2
                 = applyMatrix4 {| x := num 0; y := num 0; z := num 0 |} matrixWorld').
Proof.
  split.
  - intros Hget. unfold markerWorldPosition. rewrite Hget. reflexivity.
  - intros matrixWorld Hget. cbn zeta.
    assert (Hres : markerWorldPosition applyMatrix4 markerId s
                   = (Some ref_tempVec,
                      {| renderables := renderables s;
                         tempVec := applyMatrix4 {| x := num 0; y := num 0; z := num 0 |}
                                      matrixWorld |}))
      by (unfold markerWorldPosition; rewrite Hget; reflexivity).
    rewrite Hres. cbn [fst snd deref tempVec renderables]. repeat split.
    intros other matrixWorld' Hother r _. unfold markerWorldPosition.
    cbn [renderables]. rewrite Hother. destruct r. reflexivity.
Qed.

End WorldPosition.

(** Two refreshes, [dispose], and two more refreshes of a renderer whose
    time is 7: four frames are run, two of them after [dispose]. *)
Lemma queued_callback_runs_at_every_refresh_witness :
  pending running = true
  /\ let res := lifeRun [host refresh; host refresh; disposeRenderer;
                         host refresh; host (setCurrentTime 8); host refresh] running in
     pending res.1 = true
     /\ queued res.2 = 4
     /\ emitted startFrame res.2 = [7; 7; 7; 8]%Z
     /\ rendered res.2 = 4
     /\ fixedFrameId (renderer res.1) = Some "base_link".
Proof.
  destruct (queued_callback_runs_at_every_refresh
              [host refresh; host refresh; disposeRenderer;
               host refresh; host (setCurrentTime 8); host refresh] running eq_refl)
    as (Hp & Hq & Hs & _ & Hr & Hf).
  split; [reflexivity|]. cbn zeta.
  split; [exact Hp|]. split; [exact Hq|]. split; [exact Hs|]. split; [exact Hr|].
  exact (f_equal fst Hf).
Defined.

Lemma plus_zero (z : Z) : plus (num 0) (num z) = num z.
Proof.
  unfold plus, num. f_equal. apply Qc_is_canon. unfold Qcplus, Q2Qc. cbn [this].
  rewrite Qred_correct. unfold Qc_of_Z. cbn [this]. ring.
Qed.

Lemma applyTranslation_origin (a b c : Z) :
  applyTranslation {| Ros.x := num 0; Ros.y := num 0; Ros.z := num 0 |}
    {| Ros.x := num a; Ros.y := num b; Ros.z := num c |}
  = {| Ros.x := num a; Ros.y := num b; Ros.z := num c |}.
Proof. unfold applyTranslation. cbn [Ros.x Ros.y Ros.z]. rewrite !plus_zero. reflexivity. Qed.

(** The marker 7 is at (1, 2, 3) and the marker 8 at (4, 5, 6); no marker 9
    is registered. The vector returned for 7 reads (4, 5, 6) after the call
    for 8. *)
Lemma markerWorldPosition_returns_the_shared_vector_witness :
  (markerWorldPosition applyTranslation "/markers:demo:9" positions0).1 = None
  /\ let res := markerWorldPosition applyTranslation "/markers:demo:7" positions0 in
     res.1 = Some ref_tempVec
     /\ deref ref_tempVec res.2 = {| Ros.x := num 1; Ros.y := num 2; Ros.z := num 3 |}
     /\ deref ref_tempVec (markerWorldPosition applyTranslation "/markers:demo:8" res.2).2
          = {| Ros.x := num 4; Ros.y := num 5; Ros.z := num 6 |}.
Proof.
  destruct (markerWorldPosition_returns_the_shared_vector applyTranslation positions0
              "/markers:demo:9") as [Hnone _].
  destruct (markerWorldPosition_returns_the_shared_vector applyTranslation positions0
              "/markers:demo:7") as [_ Hsome].
  destruct (Hsome {| Ros.x := num 1; Ros.y := num 2; Ros.z := num 3 |} eq_refl)
    as (Hres & Hvalue & _ & Hlater).
  split; [rewrite (Hnone eq_refl); reflexivity|]. cbn zeta.
  split; [exact Hres|]. split; [rewrite Hvalue; apply applyTranslation_origin|].
  rewrite (Hlater "/markers:demo:8" {| Ros.x := num 4; Ros.y := num 5; Ros.z := num 6 |}
             eq_refl ref_tempVec Hres).
  apply applyTranslation_origin.
Defined.

End RendererLife.

(* ===================================================================== *)
(** ** The life of a sphere marker *)
(* ===================================================================== *)

Module MarkersLifecycle.
Import Js Ros Markers MarkersFacts.

Section Lifecycle.
Context `{Imports}.

(** *** The static geometry cache *)

Lemma geometry_keeps_renderer (l : DetailLevel) (s : Shared) :
  materialCache (geometry l s).2 = materialCache s
  /\ lod (geometry l s).2 = lod s
  /\ renderables (geometry l s).2 = renderables s.
Proof.
  unfold geometry. destruct (static_geometry s); [case_decide|]; repeat split.
Qed.

Lemma geometry_cached (l : DetailLevel) (s : Shared) :
  geometryCached s ->
  widthSegments (geometry l s).1 = sphereSubdivisions l
  /\ heightSegments (geometry l s).1 = sphereSubdivisions l
  /\ static_geometry (geometry l s).2 = Some (geometry l s).1
  /\ static_lod (geometry l s).2 = Some l
  /\ geometryCached (geometry l s).2.
Proof.
  unfold geometryCached, geometry. intros Hc.
  destruct (static_geometry s) as [g|] eqn:Hg.
  - destruct Hc as (l' & Hl' & Hw & Hh). case_decide as Hl.
    + cbn [fst snd]. rewrite Hg. rewrite Hl' in Hl. injection Hl as ->.
      split; [exact Hw|]. split; [exact Hh|]. split; [reflexivity|]. split; [exact Hl'|].
      exists l'. auto.
    + cbn. repeat split. exists l. auto.
  - cbn. repeat split. exists l. auto.
Qed.

(** X18. [RenderableSphere.geometry(lod)] returns a sphere of the subdivisions
    of the detail level asked for and keeps it as the one cached geometry;
    asked again for the same level it returns the cached geometry and
    leaves the cache as it is. *)
Theorem sphere_geometry_is_cached_by_detail_level (l : DetailLevel) (s : Shared) :
  geometryCached s ->
  widthSegments (geometry l s).1 = sphereSubdivisions l
  /\ heightSegments (geometry l s).1 = sphereSubdivisions l
  /\ geometryCached (geometry l s).2
  /\ static_lod (geometry l s).2 = Some l
  /\ geometry l (geometry l s).2 = geometry l s
  /\ (materialCache (geometry l s).2, lod (geometry l s).2, renderables (geometry l s).2)
     = (materialCache s, lod s, renderables s).
Proof.
  intros Hc. destruct (geometry_cached l s Hc) as (Hw & Hh & Hg & Hl & Hc').
  destruct (geometry_keeps_renderer l s) as (Hm & Hlod & Hr).
  split; [exact Hw|]. split; [exact Hh|]. split; [exact Hc'|]. split; [exact Hl|].
  split; [|rewrite Hm, Hlod, Hr; reflexivity].
  destruct (geometry l s) as [g s'] eqn:Hgeo. cbn [fst snd] in *.
  unfold geometry at 1. rewrite Hg, Hl. rewrite decide_True by reflexivity. reflexivity.
Qed.

(** *** Construction, update and disposal of a sphere *)

Lemma update_keeps_registration (m : Marker) (st : RenderableSphere * Shared) :
  name (update m st).1 = name st.1
  /\ topic (update m st).1 = topic st.1
  /\ renderables (update m st).2 = renderables st.2
  /\ static_geometry (update m st).2 = static_geometry st.2
  /\ static_lod (update m st).2 = static_lod st.2
  /\ lod (update m st).2 = lod st.2.
Proof.
  destruct st as [this shared]. rewrite update_unfold.
  destruct (rgbaEqual (color m) (color m)); repeat split.
Qed.

Lemma update_with_equal_color (m : Marker) (this : RenderableSphere) (shared : Shared) :
  rgbaEqual (color m) (color m) = true ->
  update m (this, shared) = (set_scale (scale m) (RenderableMarker_update m this), shared).
Proof. intros Hrefl. rewrite update_unfold, Hrefl. reflexivity. Qed.

Lemma new_sphere_unfold (topic_ : string) (m : Marker) (shared : Shared) :
  rgbaEqual (color m) (color m) = true ->
  let name_ := getMarkerId topic_ (ns m) (id m) in
  let registered_ :=
    {| materialCache := (standardMaterial m (materialCache shared)).2;
       lod := lod shared;
       renderables :=
         if bool_decide (name_ ∈ renderables shared) then renderables shared
         else renderables shared ++ [name_];
       static_lod := static_lod shared; static_geometry := static_geometry shared |} in
  new_RenderableSphere topic_ m shared =
    ({| name := name_; topic := topic_; marker := m;
        userData := {| userData_pose := pose m;
                       userData_srcTime := rosTimeToNanoSec (stamp (header m)) |};
        mesh := {| mesh_geometry := (geometry (lod shared) registered_).1;
                   material := (standardMaterial m (materialCache shared)).1;
                   castShadow := true; receiveShadow := true |};
        object_scale := scale m |},
     (geometry (lod shared) registered_).2).
Proof.
  intros Hrefl. cbn zeta. unfold new_RenderableSphere.
  cbn [materialCache lod renderables static_lod static_geometry set_materialCache].
  destruct (standardMaterial m (materialCache shared)) as [mat cache]. cbn [fst snd].
  destruct (geometry (lod shared) _) as [g shared'].
  rewrite (update_with_equal_color m _ shared' Hrefl). reflexivity.
Qed.

(** X19. A sphere as its constructor leaves it: named by [getMarkerId],
    registered under that name with the names registered before kept in
    their order, holding the marker, its pose, timestamp and scale, with one
    material acquired for the marker and a geometry of the renderer's detail
    level. *)
Theorem new_sphere_is_registered (topic_ : string) (m : Marker) (shared : Shared) :
  rgbaEqual (color m) (color m) = true ->
  geometryCached shared ->
  let st := new_RenderableSphere topic_ m shared in
  let name_ := getMarkerId topic_ (ns m) (id m) in
  name st.1 = name_
  /\ renderables st.2 =
       (if bool_decide (name_ ∈ renderables shared) then renderables shared
        else renderables shared ++ [name_])
  /\ name_ ∈ renderables st.2
  /\ (marker st.1, userData_pose (userData st.1), userData_srcTime (userData st.1),
      object_scale st.1)
     = (m, pose m, rosTimeToNanoSec (stamp (header m)), scale m)
  /\ material (mesh st.1) = (standardMaterial m (materialCache shared)).1
  /\ materialCache st.2 = (standardMaterial m (materialCache shared)).2
  /\ (castShadow (mesh st.1), receiveShadow (mesh st.1)) = (true, true)
  /\ widthSegments (mesh_geometry (mesh st.1)) = sphereSubdivisions (lod shared)
  /\ heightSegments (mesh_geometry (mesh st.1)) = sphereSubdivisions (lod shared)
  /\ geometryCached st.2.
Proof.
  intros Hrefl Hc. cbn zeta. rewrite (new_sphere_unfold topic_ m shared Hrefl).
  cbn zeta. cbn [fst snd name marker userData userData_pose userData_srcTime object_scale
                 mesh material castShadow receiveShadow mesh_geometry].
  set (s1 := {| materialCache := _ |}).
  assert (Hc1 : geometryCached s1) by exact Hc.
  destruct (geometry_cached (lod shared) s1 Hc1) as (Hw & Hh & _ & _ & Hc').
  destruct (geometry_keeps_renderer (lod shared) s1) as (Hm & _ & Hr).
  split; [reflexivity|]. split; [exact Hr|]. split.
  { rewrite Hr. subst s1. cbn [renderables]. case_bool_decide as Hin; [exact Hin|].
    apply elem_of_app. right. apply list_elem_of_singleton. reflexivity. }
  split; [reflexivity|]. split; [reflexivity|]. split; [exact Hm|].
  split; [reflexivity|]. split; [exact Hw|]. split; [exact Hh | exact Hc'].
Qed.

Lemma new_sphere_name (topic_ : string) (m : Marker) (shared : Shared) :
  name (new_RenderableSphere topic_ m shared).1 = getMarkerId topic_ (ns m) (id m)
  /\ getMarkerId topic_ (ns m) (id m) ∈ renderables (new_RenderableSphere topic_ m shared).2.
Proof.
  unfold new_RenderableSphere.
  destruct (standardMaterial m _) as [mat cache].
  match goal with
  | |- context [geometry ?l ?s] =>
      pose proof (geometry_keeps_renderer l s) as (_ & _ & Hr');
      destruct (geometry l s) as [g shared'] eqn:Hgeo
  end.
  cbn [snd renderables set_materialCache] in Hr'.
  match goal with
  | |- context [update m ?st] =>
      destruct (update_keeps_registration m st) as (Hname & _ & Hr & _)
  end.
  rewrite Hname, Hr. cbn [fst snd name]. split; [reflexivity|].
  rewrite Hr'. case_bool_decide as Hin; [exact Hin|].
  apply elem_of_app. right. apply list_elem_of_singleton. reflexivity.
Qed.

(** X20. [RenderableSphere.dispose] leaves the sphere in [renderer.renderables]:
    the name its constructor registered is still there after the sphere was
    disposed. [RenderableMarker.dispose], which the override does not call,
    would have deleted it. *)
Theorem disposed_sphere_stays_registered (topic_ : string) (m : Marker) (shared : Shared) :
  let st := new_RenderableSphere topic_ m shared in
  name st.1 ∈ renderables st.2
  /\ renderables (dispose st) = renderables st.2
  /\ name st.1 ∈ renderables (dispose st)
  /\ name st.1 ∉ renderables (RenderableMarker_dispose st.1 (dispose st)).
Proof.
  cbn zeta. destruct (new_sphere_name topic_ m shared) as [Hname Hin].
  rewrite Hname. split; [exact Hin|]. split; [reflexivity|]. split; [exact Hin|].
  unfold RenderableMarker_dispose. cbn [renderables]. rewrite Hname.
  intros Hfilter. apply list_elem_of_filter in Hfilter as [Hne _]. contradiction.
Qed.

(** X21. A sphere that was updated with another marker is disposed with a
    release for that marker, while the material it holds, the only one it
    acquired, is the one of the marker it was constructed with. *)
Theorem dispose_releases_for_the_last_marker
    (topic_ : string) (m0 m1 : Marker) (shared : Shared) :
  rgbaEqual (color m0) (color m0) = true ->
  rgbaEqual (color m1) (color m1) = true ->
  let st := update m1 (new_RenderableSphere topic_ m0 shared) in
  material (mesh st.1) = (standardMaterial m0 (materialCache shared)).1
  /\ materialCache st.2 = (standardMaterial m0 (materialCache shared)).2
  /\ materialCache (dispose st)
       = releaseStandardMaterial m1 (standardMaterial m0 (materialCache shared)).2.
Proof.
  intros H0 H1. cbn zeta. rewrite (new_sphere_unfold topic_ m0 shared H0). cbn zeta.
  rewrite (update_with_equal_color m1 _ _ H1).
  unfold dispose. cbn [fst snd marker set_scale RenderableMarker_update mesh material
                       materialCache set_materialCache].
  destruct (geometry_keeps_renderer (lod shared)
              {| materialCache := (standardMaterial m0 (materialCache shared)).2;
                 lod := lod shared;
                 renderables :=
                   if bool_decide (getMarkerId topic_ (ns m0) (id m0) ∈ renderables shared)
                   then renderables shared
                   else renderables shared ++ [getMarkerId topic_ (ns m0) (id m0)];
                 static_lod := static_lod shared;
                 static_geometry := static_geometry shared |}) as (Hm & _).
  cbn [materialCache] in Hm. rewrite Hm. repeat split.
Qed.

(** X22. Of two updates in a row the second one decides: nothing of the first
    marker is left in the sphere. *)
Theorem last_update_wins (m1 m2 : Marker) (st : RenderableSphere * Shared) :
  rgbaEqual (color m1) (color m1) = true ->
  rgbaEqual (color m2) (color m2) = true ->
  update m2 (update m1 st) = update m2 st.
Proof.
  intros H1 H2. destruct st as [this shared].
  rewrite (update_with_equal_color m1 this shared H1).
  rewrite !(update_with_equal_color m2 _ shared H2). reflexivity.
Qed.

End Lifecycle.

(** *** [_markerColorsToLinear] *)

Section Colors.
Context (convert : number * number * number -> number * number * number).

Lemma fold_left_snoc {A B} (f : A -> B) (l : list A) (acc : list B) :
  fold_left (fun received a => received ++ [f a]) l acc = acc ++ (f <$> l).
Proof.
  revert acc. induction l as [|a l IH]; intros acc; cbn.
  - rewrite app_nil_r. reflexivity.
  - rewrite IH, <- app_assoc. reflexivity.
Qed.

Lemma fold_left_through {A B S} (f : A -> B) (g : S -> B -> S) (l : list A) (s : S) :
  fold_left (fun s a => g s (f a)) l s = fold_left g (f <$> l) s.
Proof. revert s. induction l as [|a l IH]; intros s; cbn; [reflexivity | apply IH]. Qed.

(** X23. The callback of [_markerColorsToLinear] is called once for every point
    of the marker, in order, with the index of the point; the colour is the
    one at that index of [marker.colors], or [marker.color] when
    [marker.colors] is too short; its alpha is handed on as it is, the
    other three channels converted. What a callback makes of the calls is
    the same as running it over this list of calls. *)
Theorem marker_colors_fall_back_to_marker_color (m : Marker) :
  length (linearColors convert m) = length (points m)
  /\ (forall i,
        i < length (points m) ->
        exists srgb,
          (colors m !! i = Some srgb \/ (length (colors m) <= i /\ srgb = color m))
          /\ linearColors convert m !! i =
               Some (((convert (color_r srgb, color_g srgb, color_b srgb)).1.1,
                      (convert (color_r srgb, color_g srgb, color_b srgb)).1.2,
                      (convert (color_r srgb, color_g srgb, color_b srgb)).2,
                      color_a srgb), i))
  /\ (forall (S : Type) (callback : Vector4Tuple -> nat -> S -> S) (s : S),
        _markerColorsToLinear convert m callback s
        = fold_left (fun s call => callback call.1 call.2 s) (linearColors convert m) s).
Proof.
  set (call := fun i : nat =>
    let srgb := nullish (colors m !! i) (color m) in
    (((convert (color_r srgb, color_g srgb, color_b srgb)).1.1,
      (convert (color_r srgb, color_g srgb, color_b srgb)).1.2,
      (convert (color_r srgb, color_g srgb, color_b srgb)).2,
      color_a srgb), i)).
  assert (Hcalls : linearColors convert m = call <$> seq 0 (length (points m))).
  { unfold linearColors, _markerColorsToLinear.
    exact (fold_left_snoc call (seq 0 (length (points m))) []). }
  split; [rewrite Hcalls, length_fmap, length_seq; reflexivity|]. split.
  - intros i Hi. exists (nullish (colors m !! i) (color m)). split.
    + destruct (colors m !! i) as [c|] eqn:Hc; [left; reflexivity|].
      right. split; [apply lookup_ge_None; exact Hc | reflexivity].
    + rewrite Hcalls, list_lookup_fmap, lookup_seq_lt by exact Hi. reflexivity.
  - intros S callback s. rewrite Hcalls. unfold _markerColorsToLinear.
    exact (fold_left_through call (fun s c => callback c.1 c.2 s) _ s).
Qed.

End Colors.

(** With an empty cache, a sphere of high detail has 32 subdivisions and
    is cached; a sphere of low detail then takes its place. *)
Lemma sphere_geometry_is_cached_by_detail_level_witness :
  geometryCached shared0
  /\ widthSegments (geometry High shared0).1 = 32%N
  /\ static_lod (geometry High shared0).2 = Some High
  /\ geometry High (geometry High shared0).2 = geometry High shared0
  /\ widthSegments (geometry Low (geometry High shared0).2).1 = 10%N
  /\ static_lod (geometry Low (geometry High shared0).2).2 = Some Low.
Proof.
  assert (Hc0 : geometryCached shared0) by exact I.
  destruct (sphere_geometry_is_cached_by_detail_level High shared0 Hc0)
    as (Hw & _ & Hc1 & Hl & Hagain & _).
  destruct (sphere_geometry_is_cached_by_detail_level Low (geometry High shared0).2 Hc1)
    as (Hw' & _ & _ & Hl' & _).
  split; [exact Hc0|]. split; [exact Hw|]. split; [exact Hl|]. split; [exact Hagain|].
  split; [exact Hw' | exact Hl'].
Defined.

(** The red sphere: registered under its marker id, with the red material
    acquired once. *)
Lemma new_sphere_is_registered_witness :
  name redSphere.1 = "/markers:demo:7"
  /\ renderables redSphere.2 = ["/markers:demo:7"]
  /\ material (mesh redSphere.1) = rgba 1 0 0 1
  /\ materialCache redSphere.2 = [(rgba 1 0 0 1, 1)]
  /\ widthSegments (mesh_geometry (mesh redSphere.1)) = 32%N.
Proof.
  destruct (new_sphere_is_registered "/markers" (sphereMarker 1 (rgba 1 0 0 1)) shared0
              eq_refl I)
    as (Hname & Hr & _ & _ & Hm & Hcache & _ & Hw & _).
  split; [exact Hname|]. split; [exact Hr|]. split; [exact Hm|].
  split; [exact Hcache | exact Hw].
Defined.

(** The red sphere after its disposal: still registered. *)
Lemma disposed_sphere_stays_registered_witness :
  renderables (dispose redSphere) = ["/markers:demo:7"]
  /\ name redSphere.1 ∈ renderables (dispose redSphere)
  /\ renderables (RenderableMarker_dispose redSphere.1 (dispose redSphere)) = [].
Proof.
  destruct (disposed_sphere_stays_registered "/markers" (sphereMarker 1 (rgba 1 0 0 1)) shared0)
    as (_ & _ & Hin & _).
  split; [reflexivity|]. split; [exact Hin | reflexivity].
Defined.

(** The red sphere, updated with a blue marker and disposed: the release is
    made for blue, which the cache does not hold, and the red material keeps
    its reference. *)
Lemma dispose_releases_for_the_last_marker_witness :
  material (mesh (update (sphereMarker 2 (rgba 0 0 1 1)) redSphere).1) = rgba 1 0 0 1
  /\ materialCache (dispose (update (sphereMarker 2 (rgba 0 0 1 1)) redSphere))
       = releaseColor (rgba 0 0 1 1) [(rgba 1 0 0 1, 1)]
  /\ releaseColor (rgba 0 0 1 1) [(rgba 1 0 0 1, 1)] = [(rgba 1 0 0 1, 1)].
Proof.
  destruct (dispose_releases_for_the_last_marker "/markers"
              (sphereMarker 1 (rgba 1 0 0 1)) (sphereMarker 2 (rgba 0 0 1 1)) shared0
              eq_refl eq_refl) as (Hm & _ & Hcache).
  split; [exact Hm|]. split; [exact Hcache | reflexivity].
Defined.

(** The red sphere updated with a blue and then a green marker is the red
    sphere updated with the green marker. *)
Lemma last_update_wins_witness :
  update (sphereMarker 3 (rgba 0 1 0 1)) (update (sphereMarker 2 (rgba 0 0 1 1)) redSphere)
    = update (sphereMarker 3 (rgba 0 1 0 1)) redSphere
  /\ color (marker (update (sphereMarker 3 (rgba 0 1 0 1)) redSphere).1) = rgba 0 1 0 1.
Proof.
  split; [|reflexivity].
  exact (last_update_wins (sphereMarker 2 (rgba 0 0 1 1)) (sphereMarker 3 (rgba 0 1 0 1))
           redSphere eq_refl eq_refl).
Defined.

(** Three points and one colour: the first call has the colour of the
    point, the other two the colour of the marker, with its alpha 0. *)
Lemma marker_colors_fall_back_to_marker_color_witness :
  length (linearColors linearEnds stripMarker) = 3
  /\ linearColors linearEnds stripMarker =
       [ ((num 1, num 0, num 0, num 1), 0);
         ((num 0, num 0, num 1, num 0), 1);
         ((num 0, num 0, num 1, num 0), 2) ].
Proof.
  destruct (marker_colors_fall_back_to_marker_color linearEnds stripMarker) as (Hlen & _).
  split; [exact Hlen | reflexivity].
Defined.

End MarkersLifecycle.

(* ===================================================================== *)
(** ** The life of the point-cloud collection *)
(* ===================================================================== *)

Module PointCloudsLifecycle.
Import Js Eff Ros Three PointClouds PointCloudsFacts.
Local Open Scope eff_scope.

Section Registered.
Context `{Imports}.

Lemma map_get_summary {V W} (h : V -> W) (k : string) (m : list (string * V)) :
  map_get k ((fun entry => (entry.1, h entry.2)) <$> m) = h <$> map_get k m.
Proof.
  induction m as [|[k' v] m IH]; cbn; [reflexivity|].
  destruct (decide (k = k')); [reflexivity | exact IH].
Qed.

(** Whether an attribute is in order can be read off the shape of the
    geometry. *)
Lemma attribute_ok_shape (s s' : Ctx) (attr : string) (size : N) :
  shape s' = shape s ->
  attribute_ok (geometry (userData s.1)) attr size ->
  attribute_ok (geometry (userData s'.1)) attr size.
Proof.
  unfold shape, attribute_ok, getAttribute. intros [= Hcount Hattrs] (a & Hget & Hsize & Hlen).
  pose proof (map_get_summary (fun a => (buffer a, itemSize a, length (array a))) attr
                (attributes (geometry (userData s'.1)))) as Hs'.
  pose proof (map_get_summary (fun a => (buffer a, itemSize a, length (array a))) attr
                (attributes (geometry (userData s.1)))) as Hs.
  cbn beta in Hs, Hs'. rewrite Hattrs, Hs, Hget in Hs'. cbn in Hs'.
  destruct (map_get attr (attributes (geometry (userData s'.1)))) as [a'|]; [|discriminate].
  injection Hs' as _ Hsize' Hlen'.
  exists a'. split; [reflexivity|]. split; [congruence|]. rewrite Hcount. congruence.
Qed.

Lemma update_geometry_ok (pc : PointCloud2) (r : PointCloudRenderable) (w : World) :
  geometry_ok (geometry (userData r)) ->
  geometry_ok (geometry (userData (_updatePointCloudRenderable pc (r, w)).2.1)).
Proof.
  intros [Hpos Hcol].
  destruct (validate (settings (userData r)) pc) as [rs|message] eqn:Hv.
  - rewrite (update_accepted r w pc rs Hv).
    pose proof (decode_shape pc rs (stamped pc r, w)) as Hshape.
    split; (eapply attribute_ok_shape; [exact Hshape|]); cbn;
      apply resize_attribute_ok; assumption.
  - rewrite (update_rejected r w pc message Hv). split; assumption.
Qed.

Lemma entry_ok_update (k : string) (pc : PointCloud2) (r : PointCloudRenderable) (w : World) :
  entry_ok (k, r) -> entry_ok (k, (_updatePointCloudRenderable pc (r, w)).2.1).
Proof.
  unfold entry_ok. cbn [fst snd]. intros (Htopic & Hgeometry & Hpoints & Hmaterial & Hpicking & Hdefaults).
  pose proof (update_frame pc r w) as Hframe.
  pose proof (f_equal frame_topic Hframe) as Ht.
  pose proof (f_equal frame_settings Hframe) as Hs.
  pose proof (f_equal frame_points Hframe) as Hp.
  pose proof (f_equal frame_geometry_id Hframe) as Hg.
  unfold frame, stamped in Ht, Hs, Hp, Hg.
  cbn [fst snd frame_topic frame_settings frame_points frame_geometry_id userData set_userData
       set_srcTime set_pointCloud topic settings points geometry] in Ht, Hs, Hp, Hg.
  rewrite Ht, Hs, Hp, Hg.
  split; [assumption|]. split; [apply update_geometry_ok; assumption|].
  repeat split; assumption.
Qed.

Lemma autoSelect_set_color (output : PointCloudSettings) (pc : PointCloud2) :
  exists field mode order,
    autoSelectColorField output pc = set_color field mode order output.
Proof.
  unfold autoSelectColorField.
  destruct (find _ (fields pc)) as [f|].
  - repeat case_decide; eauto.
  - destruct (find _ (fields pc)) as [f|]; [eauto|].
    destruct (fields pc) as [|f rest]; [|eauto].
    exists (colorField output), (colorMode output), (rgbByteOrder output).
    destruct output; reflexivity.
Qed.

Lemma autoSelect_defaultsKept (pc : PointCloud2) :
  defaultsKept (autoSelectColorField defaultSettings pc).
Proof.
  destruct (autoSelect_set_color defaultSettings pc) as (field & mode & order & ->).
  reflexivity.
Qed.

Lemma entry_ok_created (topic_ : string) (pc : PointCloud2) (w : World) :
  entry_ok (topic_, (createRenderable topic_ pc w).1).
Proof.
  unfold entry_ok. cbn [fst snd createRenderable userData topic geometry points settings
                        points_geometry points_material pickingMaterial].
  split; [reflexivity|]. split; [apply (created_geometry_ok topic_ pc w)|].
  split; [reflexivity|]. split; [reflexivity|]. split; [reflexivity|].
  apply autoSelect_defaultsKept.
Qed.

Lemma Forall_map_set {V} (P : string * V -> Prop) (k : string) (v : V) (m : list (string * V)) :
  Forall P m -> P (k, v) -> Forall P (map_set k v m).
Proof.
  intros Hall Hv. induction m as [|[k' v'] m IH]; cbn.
  - constructor; [assumption | constructor].
  - apply Forall_cons in Hall as [Hhead Hall].
    destruct (decide (k = k')); constructor; auto.
Qed.

Lemma registered_empty (tree : TransformTree) : registered (emptyWorld tree).
Proof. split; [apply NoDup_nil_2 | constructor]. Qed.

Lemma registered_message (topic_ : string) (pc : PointCloud2) (w : World) :
  registered w -> registered (addPointCloud2Message topic_ pc w).2.
Proof.
  intros [Hnodup Hall].
  destruct (map_get topic_ (pointCloudsByTopic w)) as [r|] eqn:Hget.
  - destruct (add_known_store topic_ pc w r Hget) as (Hmap & _).
    unfold registered. rewrite Hmap.
    split; [rewrite (map_set_present_keys topic_ r _ _ Hget); exact Hnodup|].
    apply Forall_map_set; [exact Hall|]. apply entry_ok_update.
    assert (Hin : (topic_, r) ∈ pointCloudsByTopic w).
    { clear - Hget. induction (pointCloudsByTopic w) as [|[k v] m IH]; cbn in *; [discriminate|].
      destruct (decide (topic_ = k)) as [->|Hne].
      - injection Hget as ->. apply elem_of_cons. left. reflexivity.
      - apply elem_of_cons. right. apply IH. exact Hget. }
    rewrite Forall_forall in Hall. exact (Hall _ Hin).
  - destruct (add_new_store topic_ pc w Hget) as (Hmap & _).
    unfold registered. rewrite Hmap. split.
    + unfold map_keys in *. rewrite fmap_app. cbn.
      apply NoDup_app. split; [exact Hnodup|]. split; [|apply NoDup_singleton].
      intros k Hk Hk'. apply list_elem_of_singleton in Hk'. subst k.
      apply map_get_None_keys in Hget. contradiction.
    + apply Forall_app. split; [exact Hall|]. constructor; [|constructor].
      destruct (createRenderable topic_ pc w) as [r0 w0] eqn:Hcreate.
      apply entry_ok_update.
      replace r0 with (createRenderable topic_ pc w).1 by (rewrite Hcreate; reflexivity).
      apply entry_ok_created.
Qed.

(** The pose pass writes the object of each renderable and nothing else of
    the map; besides the map it writes the call log and, for a renderable
    that could not be placed, the diagnostics. *)
Lemma for_values_map (rf ff : string) (t : Z) (todo : list (string * PointCloudRenderable)) :
  forall (visited : list (string * PointCloudRenderable)) (w : World),
    pointCloudsByTopic w = visited ++ todo ->
    let res := (for_values (poseRenderable rf ff t) visited todo w).2 in
    pointCloudsByTopic res = visited ++ (posedEntry rf ff t (transformTree w) <$> todo)
    /\ (materialCache res, scene_children res, tempColor res, next_id res,
        renderFrameId res, fixedFrameId res, transformTree res)
       = (materialCache w, scene_children w, tempColor w, next_id w,
          renderFrameId w, fixedFrameId w, transformTree w)
    /\ (Forall (fun r => (poseResult rf ff t (transformTree w) r).2 = true) (map_values todo) ->
        layerErrors res = layerErrors w).
Proof.
  induction todo as [|[k r] rest IH]; intros visited w Hmap; cbn zeta.
  - cbn. rewrite Hmap. repeat split.
  - cbn [for_values]. rewrite poseRenderable_run.
    set (w1 := set_pointCloudsByTopic _ _).
    assert (Hmap1 : pointCloudsByTopic w1
                    = (visited ++ [(k, set_object3d (poseResult rf ff t (transformTree w) r).1 r)])
                      ++ rest).
    { subst w1. cbn. rewrite <- app_assoc. reflexivity. }
    assert (Hrest1 :
      (materialCache w1, scene_children w1, tempColor w1, next_id w1,
       renderFrameId w1, fixedFrameId w1, transformTree w1)
      = (materialCache w, scene_children w, tempColor w, next_id w,
         renderFrameId w, fixedFrameId w, transformTree w))
      by (subst w1; destruct (poseResult rf ff t (transformTree w) r).2; reflexivity).
    assert (Htree1 : transformTree w1 = transformTree w) by congruence.
    specialize (IH _ w1 Hmap1). cbn zeta in IH. destruct IH as (Hm & Hr & Hl).
    split; [|split].
    + rewrite Hm, Htree1, <- app_assoc. reflexivity.
    + rewrite Hr. exact Hrest1.
    + unfold map_values. cbn [fmap list_fmap snd]. intros Hall.
      apply Forall_cons in Hall as [Hhead Hall].
      rewrite Hl by (rewrite Htree1; exact Hall).
      subst w1. rewrite Hhead. reflexivity.
Qed.

Lemma startFrame_map (w : World) (t : Z) (rf ff : string) :
  renderFrameId w = Some rf -> fixedFrameId w = Some ff -> rf <> "" -> ff <> "" ->
  let w' := (startFrame t w).2 in
  pointCloudsByTopic w' = posedEntry rf ff t (transformTree w) <$> pointCloudsByTopic w
  /\ (materialCache w', scene_children w', tempColor w', next_id w',
      renderFrameId w', fixedFrameId w', transformTree w')
     = (materialCache w, scene_children w, tempColor w, next_id w,
        renderFrameId w, fixedFrameId w, transformTree w)
  /\ (Forall (fun r => (poseResult rf ff t (transformTree w) r).2 = true)
        (map_values (pointCloudsByTopic w)) ->
      layerErrors w' = layerErrors w).
Proof.
  intros Hrf Hff Hrf_ne Hff_ne. cbn zeta.
  assert (Hstart : startFrame t w
                   = for_values (poseRenderable rf ff t) [] (pointCloudsByTopic w) w).
  { unfold startFrame, bind, get. rewrite Hrf, Hff.
    destruct rf as [|c rf]; [contradiction|]. destruct ff as [|c' ff]; [contradiction|].
    reflexivity. }
  rewrite Hstart.
  exact (for_values_map rf ff t (pointCloudsByTopic w) [] w eq_refl).
Qed.

Lemma startFrame_idle (w : World) (t : Z) :
  truthy (renderFrameId w) = false \/ truthy (fixedFrameId w) = false ->
  startFrame t w = (Return tt, w).
Proof.
  intros Hfalsy. unfold startFrame, bind, get, ret.
  destruct Hfalsy as [-> | ->]; [reflexivity|].
  rewrite orb_true_r. reflexivity.
Qed.

Lemma entry_ok_posed (rf ff : string) (t : Z) (tree : TransformTree)
    (e : string * PointCloudRenderable) :
  entry_ok e -> entry_ok (posedEntry rf ff t tree e).
Proof. intros He. exact He. Qed.

Lemma registered_tick (t : Z) (w : World) : registered w -> registered (startFrame t w).2.
Proof.
  intros [Hnodup Hall].
  destruct (truthy (renderFrameId w)) eqn:Hrf;
    [|rewrite startFrame_idle by (left; exact Hrf); split; assumption].
  destruct (truthy (fixedFrameId w)) eqn:Hff;
    [|rewrite startFrame_idle by (right; exact Hff); split; assumption].
  destruct (renderFrameId w) as [[|c rf]|] eqn:Erf; try discriminate.
  destruct (fixedFrameId w) as [[|c' ff]|] eqn:Eff; try discriminate.
  destruct (startFrame_map w t (String c rf) (String c' ff) Erf Eff
              ltac:(discriminate) ltac:(discriminate)) as (Hmap & _).
  unfold registered. rewrite Hmap. split.
  - unfold map_keys in *. rewrite <- list_fmap_compose.
    erewrite list_fmap_ext; [exact Hnodup|]. intros i e _. reflexivity.
  - apply Forall_fmap. eapply Forall_impl; [exact Hall|].
    intros e He. apply entry_ok_posed. exact He.
Qed.

Lemma registered_step (w : World) (op : Op) : registered w -> registered (apply_op w op).
Proof.
  intros Hw. destruct op as [topic_ pc|t|rf ff|]; cbn [apply_op].
  - apply registered_message. exact Hw.
  - apply registered_tick. exact Hw.
  - exact Hw.
  - split; [apply NoDup_nil_2 | constructor].
Qed.

Lemma registered_run (ops : list Op) (w : World) : registered w -> registered (run_ops ops w).
Proof.
  revert w. induction ops as [|op ops IH]; intros w Hw; [exact Hw|].
  cbn. apply IH, registered_step, Hw.
Qed.

Lemma registered_entry (w : World) (topic_ : string) (r : PointCloudRenderable) :
  registered w -> map_get topic_ (pointCloudsByTopic w) = Some r -> entry_ok (topic_, r).
Proof.
  intros [_ Hall] Hget. rewrite Forall_forall in Hall. apply Hall.
  clear - Hget. induction (pointCloudsByTopic w) as [|[k v] m IH]; cbn in *; [discriminate|].
  destruct (decide (topic_ = k)) as [->|Hne].
  - injection Hget as ->. apply elem_of_cons. left. reflexivity.
  - apply elem_of_cons. right. apply IH. exact Hget.
Qed.

(** X3. Every store that a collection reaches from its construction is in
    order. *)
Theorem reachable_stores_are_registered (tree : TransformTree) (ops : list Op) :
  let w := run_ops ops (emptyWorld tree) in
  NoDup (map_keys (pointCloudsByTopic w))
  /\ forall topic_ r,
       map_get topic_ (pointCloudsByTopic w) = Some r ->
       topic (userData r) = topic_
       /\ geometry_ok (geometry (userData r))
       /\ points_geometry (points (userData r)) = geometry_id (geometry (userData r))
       /\ points_material (points (userData r)) = materialId (settings (userData r))
       /\ pickingMaterial (points (userData r)) = createPickingMaterial (settings (userData r)).
Proof.
  cbn zeta. pose proof (registered_run ops _ (registered_empty tree)) as Hreg.
  split; [exact (proj1 Hreg)|]. intros topic_ r Hget.
  destruct (registered_entry _ topic_ r Hreg Hget) as (Ht & Hg & Hp & Hm & Hk & _).
  split; [exact Ht|]. split; [exact Hg|]. split; [exact Hp|]. split; [exact Hm | exact Hk].
Qed.

Lemma defaultsKept_consequences (s : PointCloudSettings) :
  defaultsKept s ->
  pointSize s = DEFAULT_POINT_SIZE
  /\ minValue s = None
  /\ maxValue s = None
  /\ materialId s =
       {| material_scale := (DEFAULT_POINT_SIZE, DEFAULT_POINT_SIZE);
          material_transparent := bool_decide (colorMode s = Rgba) |}
  /\ createPickingMaterial s = {| uniform_pointSize := MIN_PICKING_POINT_SIZE |}.
Proof.
  unfold defaultsKept. intros Hs.
  remember (colorField s) as f eqn:Hf. remember (colorMode s) as m eqn:Hm.
  remember (rgbByteOrder s) as o eqn:Ho. clear Hf Hm Ho.
  subst s.
  split; [reflexivity|]. split; [reflexivity|]. split; [reflexivity|]. split.
  - unfold materialId, pointCloudHasTransparency.
    cbn [set_color pointSize colorMode flatColor minColor maxColor defaultSettings].
    destruct m; reflexivity.
  - reflexivity.
Qed.

(** X4. Every renderable the collection holds has the settings it was created
    with: the defaults, but for the colour field, mode and byte order. So
    its point size is 1.5, no bound of the colour domain is pinned, its
    material is the opaque or the transparent one of scale 1.5, and its
    picking material has point size 8. *)
Theorem renderables_keep_default_settings
    (tree : TransformTree) (ops : list Op) (topic_ : string) (r : PointCloudRenderable) :
  map_get topic_ (pointCloudsByTopic (run_ops ops (emptyWorld tree))) = Some r ->
  defaultsKept (settings (userData r))
  /\ pointSize (settings (userData r)) = DEFAULT_POINT_SIZE
  /\ minValue (settings (userData r)) = None
  /\ maxValue (settings (userData r)) = None
  /\ points_material (points (userData r)) =
       {| material_scale := (DEFAULT_POINT_SIZE, DEFAULT_POINT_SIZE);
          material_transparent := bool_decide (colorMode (settings (userData r)) = Rgba) |}
  /\ uniform_pointSize (pickingMaterial (points (userData r))) = MIN_PICKING_POINT_SIZE.
Proof.
  intros Hget. pose proof (registered_run ops _ (registered_empty tree)) as Hreg.
  pose proof (registered_entry _ topic_ r Hreg Hget) as He.
  unfold entry_ok in He. cbn [fst snd] in He. destruct He as (_ & _ & _ & Hm & Hk & Hd).
  destruct (defaultsKept_consequences _ Hd) as (Hsize & Hmin & Hmax & Hid & Hpick).
  split; [exact Hd|]. split; [exact Hsize|]. split; [exact Hmin|]. split; [exact Hmax|].
  split; [rewrite Hm; exact Hid | rewrite Hk, Hpick; reflexivity].
Qed.

(** *** Accepted and rejected messages *)

Lemma decode_keeps_layerErrors (pc : PointCloud2) (rs : Readers) :
  keeps (fun s => layerErrors s.2) (decode pc rs).
Proof.
  unfold decode.
  apply keeps_bind; [apply keeps_gets | intros settings_].
  apply keeps_bind.
  { intros s. rewrite geometry_resize_run. reflexivity. }
  intros _.
  apply keeps_bind; [apply keeps_modify; intros s; reflexivity | intros _].
  apply keeps_bind.
  { apply keeps_for_each. intros i. unfold decodePoint.
    apply keeps_bind; [apply keeps_with_attribute; intros s a _; reflexivity | intros _].
    apply keeps_bind; [apply keeps_modify; intros s; reflexivity | intros _].
    apply keeps_bind; [apply keeps_gets | intros c].
    apply keeps_with_attribute. intros s a _. reflexivity. }
  intros _.
  apply keeps_bind; [|intros _]; apply keeps_with_attribute; intros s a _; reflexivity.
Qed.

Lemma update_accepted_returns (r : PointCloudRenderable) (w : World) (pc : PointCloud2)
    (rs : Readers) :
  validate (settings (userData r)) pc = inl rs ->
  geometry_ok (geometry (userData r)) ->
  (_updatePointCloudRenderable pc (r, w)).1 = Return tt
  /\ layerErrors (_updatePointCloudRenderable pc (r, w)).2.2 = layerErrors w
  /\ pointCloud (userData (_updatePointCloudRenderable pc (r, w)).2.1) = pc.
Proof.
  intros Hv [Hpos Hcol]. split; [|split].
  - rewrite (update_accepted r w pc rs Hv).
    apply (resize_attribute_ok (pointCount pc) (next_id w)) in Hpos, Hcol.
    destruct Hpos as (p0 & Hp0 & _). destruct Hcol as (c0 & Hc0 & _).
    destruct (decode_position pc rs (stamped pc r, w) p0 c0 Hp0 Hc0) as (s' & Hrun & _).
    rewrite Hrun. reflexivity.
  - rewrite (update_accepted r w pc rs Hv).
    exact (decode_keeps_layerErrors pc rs (stamped pc r, w)).
  - exact (f_equal frame_pointCloud (update_frame pc r w)).
Qed.

(** X6. A message that passes validation is decoded without an exception and
    leaves the diagnostics as they are: a diagnostic recorded for an earlier
    message of the topic is not withdrawn. *)
Theorem accepted_message_keeps_diagnostics
    (w : World) (topic_ : string) (pc : PointCloud2) (rs : Readers) :
  (forall r, map_get topic_ (pointCloudsByTopic w) = Some r ->
             geometry_ok (geometry (userData r))) ->
  validate (settingsFor topic_ pc w) pc = inl rs ->
  (addPointCloud2Message topic_ pc w).1 = Return tt
  /\ layerErrors (addPointCloud2Message topic_ pc w).2 = layerErrors w
  /\ (pointCloud ∘ userData) <$>
       map_get topic_ (pointCloudsByTopic (addPointCloud2Message topic_ pc w).2) = Some pc.
Proof.
  intros Hok Hv. unfold settingsFor in Hv. rewrite add_entry.
  destruct (map_get topic_ (pointCloudsByTopic w)) as [r|] eqn:Hget.
  - rewrite (add_known topic_ pc w r Hget).
    destruct (update_accepted_returns r w pc rs Hv (Hok r eq_refl)) as (Hret & Herr & Hpc).
    cbn [fst snd layerErrors set_pointCloudsByTopic fmap option_fmap option_map compose].
    rewrite Hpc. repeat split; assumption.
  - rewrite (add_new topic_ pc w Hget).
    destruct (createRenderable topic_ pc w) as [r0 w0] eqn:Hcreate.
    assert (Hr0 : r0 = (createRenderable topic_ pc w).1) by (rewrite Hcreate; reflexivity).
    assert (Hw0 : layerErrors w0 = layerErrors w)
      by (replace w0 with (createRenderable topic_ pc w).2 by (rewrite Hcreate; reflexivity);
          reflexivity).
    assert (Hv0 : validate (settings (userData r0)) pc = inl rs) by (rewrite Hr0; exact Hv).
    assert (Hg0 : geometry_ok (geometry (userData r0)))
      by (rewrite Hr0; apply created_geometry_ok).
    destruct (update_accepted_returns r0 w0 pc rs Hv0 Hg0) as (Hret & Herr & Hpc).
    cbn [fst snd layerErrors set_pointCloudsByTopic fmap option_fmap option_map compose].
    rewrite Hpc. split; [exact Hret|]. split; [congruence | reflexivity].
Qed.

(** X7. The first message of a topic, when it fails validation, still leaves
    the renderable it created: registered, attached, with an empty geometry
    and with the settings selected from the rejected message. *)
Theorem rejected_first_message_still_registers
    (w : World) (topic_ : string) (pc : PointCloud2) (message : string) :
  map_get topic_ (pointCloudsByTopic w) = None ->
  validate (autoSelectColorField defaultSettings pc) pc = inr message ->
  let w' := (addPointCloud2Message topic_ pc w).2 in
  (addPointCloud2Message topic_ pc w).1 =
    Throw (TypeError "Cannot read properties of undefined (reading 'resize')")
  /\ map_get topic_ (pointCloudsByTopic w') = Some (createRenderable topic_ pc w).1
  /\ itemCount (geometry (userData (createRenderable topic_ pc w).1)) = 0%N
  /\ settings (userData (createRenderable topic_ pc w).1)
       = autoSelectColorField defaultSettings pc
  /\ map_keys (pointCloudsByTopic w') = map_keys (pointCloudsByTopic w) ++ [topic_]
  /\ scene_children w' = scene_children w ++ [next_id w]
  /\ next_id w' = next_id w + 5
  /\ diagnostic topic_ INVALID_POINT_CLOUD (layerErrors w') = Some message.
Proof.
  intros Hget Hv. cbn zeta.
  destruct (add_new_store topic_ pc w Hget) as (Hmap & Hchildren & _).
  rewrite add_entry, Hget. rewrite Hmap, Hchildren. rewrite (add_new topic_ pc w Hget).
  destruct (createRenderable topic_ pc w) as [r0 w0] eqn:Hcreate.
  assert (Hr0 : r0 = (createRenderable topic_ pc w).1) by (rewrite Hcreate; reflexivity).
  assert (Hw0 : w0 = (createRenderable topic_ pc w).2) by (rewrite Hcreate; reflexivity).
  assert (Hv0 : validate (settings (userData r0)) pc = inr message) by (rewrite Hr0; exact Hv).
  rewrite (update_rejected r0 w0 pc message Hv0).
  cbn [fst snd layerErrors set_layerErrors set_pointCloudsByTopic next_id].
  split; [reflexivity|].
  split; [rewrite Hr0; reflexivity|].
  split; [rewrite Hr0; reflexivity|].
  split; [rewrite Hr0; reflexivity|].
  split; [unfold map_keys; rewrite fmap_app; reflexivity|].
  split; [reflexivity|].
  split; [rewrite Hw0; reflexivity|].
  rewrite Hr0. cbn [createRenderable fst userData topic].
  apply diagnostic_addToTopic_same.
Qed.

(** X8. A message that passes validation is decoded record by record over the
    whole of [data]: the point count is [data.length / point_step] with no
    remainder, it covers [height] rows of [row_step] bytes, and it is at
    least [height * width]. *)
Theorem accepted_message_decodes_every_record
    (settings_ : PointCloudSettings) (pc : PointCloud2) (rs : Readers) :
  validate settings_ pc = inl rs ->
  (data_length pc = pointCount pc * point_step pc)%N
  /\ (0 < point_step pc)%N
  /\ (height pc * row_step pc <= pointCount pc * point_step pc)%N
  /\ (height pc * width pc <= pointCount pc)%N
  /\ length (pointIndices pc) = N.to_nat (pointCount pc).
Proof.
  intros Hv. destruct (validated_length settings_ pc rs Hv) as [Hlen Hstep].
  unfold validate in Hv. destruct (structuralError pc) as [m|] eqn:Hs; [discriminate|].
  assert (Hnot : ~ is_Some (structuralError pc)) by (rewrite Hs; intros [? [=]]).
  rewrite structuralError_is_Some in Hnot.
  assert (Hrows : (height pc * row_step pc <= data_length pc)%N) by lia.
  assert (Hwidth : (width pc * point_step pc <= row_step pc)%N) by lia.
  split; [exact Hlen|]. split; [lia|]. split; [lia|]. split.
  - assert (Hle : (height pc * width pc * point_step pc <= pointCount pc * point_step pc)%N) by nia.
    apply N.mul_le_mono_pos_r in Hle; [exact Hle | lia].
  - unfold pointIndices. rewrite length_fmap, length_seq. reflexivity.
Qed.

(** *** Disposal *)

Lemma dispose_fold (rs : list PointCloudRenderable) :
  forall (acc : MaterialCache * list Disposal),
    Forall (fun r => entry_ok (topic (userData r), r)) rs ->
    fold_left disposeRenderable rs acc =
      (fold_left (fun c r => release (points_material (points (userData r))) c) rs acc.1,
       acc.2 ++ flat_map disposalOf rs).
Proof.
  induction rs as [|r rs IH]; intros [cache trace] Hall; cbn [fold_left flat_map fst snd].
  - rewrite app_nil_r. reflexivity.
  - apply Forall_cons in Hall as [He Hall].
    unfold entry_ok in He. cbn [fst snd] in He. destruct He as (_ & _ & Hp & Hm & _).
    rewrite IH by exact Hall. cbn [fst snd disposeRenderable].
    unfold releasePointsMaterial, disposalOf. cbn zeta. rewrite Hm, Hp. unfold materialId.
    rewrite <- app_assoc. reflexivity.
Qed.

(** X9. [dispose] gives back, for every renderable and in the order of the
    map, the material the renderable holds, its geometry and its picking
    material; it empties the map and the children of the collection, and
    keeps the diagnostics and the allocation counter. After it a message on
    any topic is the first of its topic again. *)
Theorem dispose_gives_back_every_renderable (w : World) :
  registered w ->
  (dispose w).2 = flat_map disposalOf (map_values (pointCloudsByTopic w))
  /\ materialCache (dispose w).1 =
       fold_left (fun c r => release (points_material (points (userData r))) c)
         (map_values (pointCloudsByTopic w)) (materialCache w)
  /\ pointCloudsByTopic (dispose w).1 = []
  /\ scene_children (dispose w).1 = []
  /\ layerErrors (dispose w).1 = layerErrors w
  /\ next_id (dispose w).1 = next_id w
  /\ (forall topic_ pc,
        settingsFor topic_ pc (dispose w).1 = autoSelectColorField defaultSettings pc).
Proof.
  intros [_ Hall]. unfold dispose.
  rewrite dispose_fold.
  - cbn. repeat split.
  - unfold map_values. apply Forall_fmap. eapply Forall_impl; [exact Hall|].
    intros [k r] He. cbn. destruct He as (Ht & He). cbn in Ht. rewrite Ht.
    split; [exact Ht | exact He].
Qed.

(** X10. With both frames set, [startFrame] writes the object of every
    renderable, with what [updatePose] returned for it, and nothing else of
    the map: keys, order and [userData] stay. It writes no other part of the
    store but the call log and the diagnostics, and when every renderable
    could be placed it leaves the diagnostics as they are. *)
Theorem startFrame_writes_only_objects (w : World) (t : Z) (rf ff : string) :
  renderFrameId w = Some rf -> fixedFrameId w = Some ff -> rf <> "" -> ff <> "" ->
  let w' := (startFrame t w).2 in
  pointCloudsByTopic w' = posedEntry rf ff t (transformTree w) <$> pointCloudsByTopic w
  /\ (materialCache w', scene_children w', tempColor w', next_id w',
      renderFrameId w', fixedFrameId w', transformTree w')
     = (materialCache w, scene_children w, tempColor w, next_id w,
        renderFrameId w, fixedFrameId w, transformTree w)
  /\ (Forall (fun r => (poseResult rf ff t (transformTree w) r).2 = true)
        (map_values (pointCloudsByTopic w)) ->
      layerErrors w' = layerErrors w).
Proof. apply startFrame_map. Qed.

(** X5. The renderable of a new topic gets the transparent material exactly
    when the colour field selected from its first message is one with an
    alpha channel: the first field among rgb, rgba, bgr, bgra, abgr and
    color is named rgba, bgra, abgr or color. *)
Theorem new_topic_is_transparent_iff_alpha_field
    (topic_ : string) (pc : PointCloud2) (w : World) :
  material_transparent (points_material (points (userData (createRenderable topic_ pc w).1)))
    = true
  <-> exists f, firstFieldIn COLOR_FIELDS pc f
                /\ field_name f ∈ ["rgba"; "bgra"; "abgr"; "color"].
Proof.
  change (points_material (points (userData (createRenderable topic_ pc w).1)))
    with (materialId (autoSelectColorField defaultSettings pc)).
  destruct (defaultsKept_consequences _ (autoSelect_defaultsKept pc)) as (_ & _ & _ & -> & _).
  cbn [material_transparent]. rewrite bool_decide_eq_true.
  unfold autoSelectColorField.
  destruct (find (fun field => bool_decide (field_name field ∈ COLOR_FIELDS)) (fields pc))
    as [f|] eqn:Hcolor.
  - pose proof (proj2 (find_firstFieldIn COLOR_FIELDS pc f) Hcolor) as Hfirst.
    pose proof Hfirst as (_ & _ & _ & Hin & _).
    assert (Hunique : forall g, firstFieldIn COLOR_FIELDS pc g -> g = f).
    { intros g Hg. apply find_firstFieldIn in Hg. congruence. }
    split.
    + intros Hmode. exists f. split; [exact Hfirst|].
      unfold COLOR_FIELDS in Hin.
      repeat (apply elem_of_cons in Hin as [Hn|Hin]); try (apply elem_of_nil in Hin; contradiction);
        rewrite Hn in Hmode |- *; try discriminate Hmode;
        repeat first [apply elem_of_cons; left; reflexivity | apply elem_of_cons; right].
    + intros (g & Hg & Hname). rewrite (Hunique g Hg) in Hname.
      repeat (apply elem_of_cons in Hname as [Hn|Hname]);
        try (apply elem_of_nil in Hname; contradiction); rewrite Hn; reflexivity.
  - split.
    + destruct (find (fun field => bool_decide (field_name field ∈ INTENSITY_FIELDS)) (fields pc));
        [discriminate|]. destruct (fields pc); discriminate.
    + intros (g & Hg & _). apply find_firstFieldIn in Hg. congruence.
Qed.

End Registered.

(** After the messages on /points and /lidar and a frame, both renderables
    are registered under their topics with their geometries in order. *)
Lemma reachable_stores_are_registered_witness :
  let w := run_ops [ Message "/points" cloudXY; Message "/lidar" cloudLidar;
                     Frames (Some "base_link") (Some "base_link"); Tick 5;
                     Message "/points" cloudBigEndian ] world0 in
  map_keys (pointCloudsByTopic w) = ["/points"; "/lidar"]
  /\ NoDup (map_keys (pointCloudsByTopic w))
  /\ exists r,
       map_get "/lidar" (pointCloudsByTopic w) = Some r
       /\ topic (userData r) = "/lidar"
       /\ geometry_ok (geometry (userData r)).
Proof.
  cbn zeta.
  destruct (@reachable_stores_are_registered testImports ["base_link"]
              [ Message "/points" cloudXY; Message "/lidar" cloudLidar;
                Frames (Some "base_link") (Some "base_link"); Tick 5;
                Message "/points" cloudBigEndian ]) as [Hnodup Hentries].
  split; [vm_compute; reflexivity|]. split; [exact Hnodup|].
  eexists. split; [vm_compute; reflexivity|].
  match goal with
  | |- topic (userData ?r) = _ /\ _ =>
      destruct (Hentries "/lidar" r ltac:(vm_compute; reflexivity)) as (Ht & Hg & _)
  end.
  split; [exact Ht | exact Hg].
Defined.

(** The renderable of /points: the intensity field was selected, the
    material is the opaque one of scale 1.5 and the picking size is 8. *)
Lemma renderables_keep_default_settings_witness :
  map_get "/points" (pointCloudsByTopic (run_ops [Message "/points" cloudXY] world0))
    = Some renderable1
  /\ colorField (settings (userData renderable1)) = Some "intensity"
  /\ colorMode (settings (userData renderable1)) = Turbo
  /\ points_material (points (userData renderable1)) =
       {| material_scale := (DEFAULT_POINT_SIZE, DEFAULT_POINT_SIZE);
          material_transparent := false |}
  /\ uniform_pointSize (pickingMaterial (points (userData renderable1))) = num 8.
Proof.
  assert (Hget :
    map_get "/points" (pointCloudsByTopic (run_ops [Message "/points" cloudXY] world0))
      = Some renderable1) by (vm_compute; reflexivity).
  destruct (@renderables_keep_default_settings testImports ["base_link"]
              [Message "/points" cloudXY] "/points" renderable1 Hget)
    as (_ & _ & _ & _ & Hmaterial & Hpicking).
  split; [exact Hget|]. split; [vm_compute; reflexivity|]. split; [vm_compute; reflexivity|].
  split; [exact Hmaterial | exact Hpicking].
Defined.

(** /points carries the diagnostic of the rejected big-endian message. The
    next message is accepted, and the diagnostic is still there. *)
Lemma accepted_message_keeps_diagnostics_witness :
  diagnostic "/points" INVALID_POINT_CLOUD (layerErrors world3)
    = Some "PointCloud2 is_bigendian=true is not supported"
  /\ validate (settingsFor "/points" cloudXY world3) cloudXY = inl readersXY
  /\ (addPointCloud2Message "/points" cloudXY world3).1 = Return tt
  /\ diagnostic "/points" INVALID_POINT_CLOUD
       (layerErrors (addPointCloud2Message "/points" cloudXY world3).2)
     = Some "PointCloud2 is_bigendian=true is not supported".
Proof.
  assert (Hv : validate (settingsFor "/points" cloudXY world3) cloudXY = inl readersXY)
    by (vm_compute; reflexivity).
  assert (Hok : forall r, map_get "/points" (pointCloudsByTopic world3) = Some r ->
                          geometry_ok (geometry (userData r))).
  { intros r Hget. vm_compute in Hget. injection Hget as <-.
    split; (eexists; split; [vm_compute; reflexivity|]; split; vm_compute; reflexivity). }
  destruct (accepted_message_keeps_diagnostics world3 "/points" cloudXY readersXY Hok Hv)
    as (Hret & Herr & _).
  split; [vm_compute; reflexivity|]. split; [exact Hv|]. split; [exact Hret|].
  rewrite Herr. vm_compute. reflexivity.
Defined.

(** The cloud with the single field x, as the first message of /scan: it is
    rejected, and /scan has a renderable without points. *)
Lemma rejected_first_message_still_registers_witness :
  map_get "/scan" (pointCloudsByTopic world1) = None
  /\ (addPointCloud2Message "/scan" cloudX world1).1 =
       Throw (TypeError "Cannot read properties of undefined (reading 'resize')")
  /\ map_keys (pointCloudsByTopic (addPointCloud2Message "/scan" cloudX world1).2)
       = ["/points"; "/scan"]
  /\ scene_children (addPointCloud2Message "/scan" cloudX world1).2 = [0; 7]
  /\ diagnostic "/scan" INVALID_POINT_CLOUD
       (layerErrors (addPointCloud2Message "/scan" cloudX world1).2)
     = Some "PointCloud2 must contain at least two of x/y/z fields".
Proof.
  assert (Hget : map_get "/scan" (pointCloudsByTopic world1) = None)
    by (vm_compute; reflexivity).
  assert (Hv : validate (autoSelectColorField defaultSettings cloudX) cloudX
               = inr "PointCloud2 must contain at least two of x/y/z fields")
    by (vm_compute; reflexivity).
  destruct (rejected_first_message_still_registers world1 "/scan" cloudX _ Hget Hv)
    as (Hthrow & _ & _ & _ & Hkeys & Hchildren & _ & Hdiag).
  split; [exact Hget|]. split; [exact Hthrow|].
  split; [rewrite Hkeys; vm_compute; reflexivity|].
  split; [rewrite Hchildren; vm_compute; reflexivity | exact Hdiag].
Defined.

(** One row of six bytes that declares one point of three bytes: two
    points are decoded. *)
Lemma accepted_message_decodes_every_record_witness :
  validate (autoSelectColorField defaultSettings cloudPadded) cloudPadded = inl readersPadded
  /\ (height cloudPadded * width cloudPadded = 1)%N
  /\ pointCount cloudPadded = 2%N
  /\ (height cloudPadded * width cloudPadded <= pointCount cloudPadded)%N.
Proof.
  assert (Hv : validate (autoSelectColorField defaultSettings cloudPadded) cloudPadded
               = inl readersPadded) by (vm_compute; reflexivity).
  destruct (accepted_message_decodes_every_record _ cloudPadded readersPadded Hv)
    as (_ & _ & _ & Hle & _).
  split; [exact Hv|]. split; [reflexivity|]. split; [reflexivity | exact Hle].
Defined.

(** Disposing the collection of /points and /lidar. *)
Lemma dispose_gives_back_every_renderable_witness :
  registered world2
  /\ (dispose world2).2 =
       [ materialCache_release
           {| material_scale := (DEFAULT_POINT_SIZE, DEFAULT_POINT_SIZE);
              material_transparent := false |};
         geometry_dispose 1;
         pickingMaterial_dispose {| uniform_pointSize := num 8 |};
         materialCache_release
           {| material_scale := (DEFAULT_POINT_SIZE, DEFAULT_POINT_SIZE);
              material_transparent := false |};
         geometry_dispose 8;
         pickingMaterial_dispose {| uniform_pointSize := num 8 |} ]
  /\ pointCloudsByTopic (dispose world2).1 = []
  /\ scene_children (dispose world2).1 = [].
Proof.
  assert (Hreg : registered world2).
  { exact (registered_run
             [ Message "/points" cloudXY; Message "/lidar" cloudLidar;
               Frames (Some "base_link") (Some "base_link") ] world0
             (@registered_empty testImports ["base_link"])). }
  destruct (dispose_gives_back_every_renderable world2 Hreg) as (Htrace & _ & Hmap & Hchildren & _).
  split; [exact Hreg|]. split; [rewrite Htrace; vm_compute; reflexivity|].
  split; [exact Hmap | exact Hchildren].
Defined.

(** At time 5 the renderable of /lidar cannot be placed: it is hidden, it
    keeps its [userData], and /points stays in front of it. *)
Lemma startFrame_writes_only_objects_witness :
  renderFrameId world2 = Some "base_link"
  /\ fixedFrameId world2 = Some "base_link"
  /\ pointCloudsByTopic (startFrame 5 world2).2
       = posedEntry "base_link" "base_link" 5 (transformTree world2) <$> pointCloudsByTopic world2
  /\ map_keys (pointCloudsByTopic (startFrame 5 world2).2) = ["/points"; "/lidar"]
  /\ (visible ∘ object3d ∘ snd) <$> pointCloudsByTopic (startFrame 5 world2).2
       = [true; false]
  /\ next_id (startFrame 5 world2).2 = next_id world2.
Proof.
  destruct (startFrame_writes_only_objects world2 5 "base_link" "base_link"
              eq_refl eq_refl ltac:(discriminate) ltac:(discriminate))
    as (Hmap & Hrest & _).
  split; [reflexivity|]. split; [reflexivity|]. split; [exact Hmap|].
  split; [vm_compute; reflexivity|]. split; [vm_compute; reflexivity|].
  exact (f_equal (fun p => p.1.1.1.2) Hrest).
Defined.

(** A cloud with an rgba field gets the transparent material, one with a
    bgr field the opaque one. *)
Lemma new_topic_is_transparent_iff_alpha_field_witness :
  material_transparent
    (points_material (points (userData (createRenderable "/camera" cloudRgba world0).1))) = true
  /\ material_transparent
       (points_material (points (userData (createRenderable "/camera" cloudBgr world0).1)))
     = false.
Proof.
  split; [|reflexivity].
  apply (new_topic_is_transparent_iff_alpha_field "/camera" cloudRgba world0).
  exists (uint8Field "rgba" 2). split.
  - exists [uint8Field "x" 0; uint8Field "y" 1], []. split; [reflexivity|]. split.
    + apply elem_of_cons. right. apply elem_of_cons. left. reflexivity.
    + repeat constructor; vm_compute; intros Hin;
        repeat (apply elem_of_cons in Hin as [Hn|Hin]; [discriminate Hn|]);
        apply elem_of_nil in Hin; exact Hin.
  - apply elem_of_cons. left. reflexivity.
Defined.

End PointCloudsLifecycle.

(* ===================================================================== *)
(** ** The field scan *)
(* ===================================================================== *)

Module PointCloudsScan.
Import Js Eff Ros Three PointClouds PointCloudsFacts.
Local Open Scope eff_scope.

Section Scan.
Context `{Imports}.

(** One turn of the loop: the two [if] chains on one field. *)
Lemma bind_field (settings_ : PointCloudSettings) (field : PointField) (step : N)
    (rs0 rs1 rs2 : Readers) :
  bindPosition field step rs0 = inl rs1 ->
  bindColor settings_ field step rs1 = inl rs2 ->
  forall slot,
    (slotNamed settings_ slot field = true ->
       is_Some (getReader field step) /\ slotReader slot rs2 = getReader field step)
    /\ (slotNamed settings_ slot field = false -> slotReader slot rs2 = slotReader slot rs0).
Proof.
  unfold bindPosition, bindColor. intros Hpos Hcol slot.
  destruct (getReader field step) as [rd|] eqn:Hrd.
  - repeat case_decide; simplify_eq; destruct slot; cbn;
      rewrite ?bool_decide_eq_true, ?bool_decide_eq_false;
      (split; [intros Hn; try congruence; split; eauto | intros Hn; try congruence; reflexivity]).
  - repeat case_decide; simplify_eq; destruct slot; cbn;
      rewrite ?bool_decide_eq_true, ?bool_decide_eq_false;
      (split; [intros Hn; congruence | intros Hn; reflexivity]).
Qed.

Lemma scanned_slot (settings_ : PointCloudSettings) (field : PointField) :
  scanned settings_ field = true <-> exists slot, slotNamed settings_ slot field = true.
Proof.
  unfold scanned. rewrite orb_true_iff, !bool_decide_eq_true. split.
  - intros [Hin | Hc]; [|exists slot_color; cbn; apply bool_decide_eq_true; exact Hc].
    repeat (apply elem_of_cons in Hin as [Hn|Hin]);
      [exists slot_x | exists slot_y | exists slot_z | apply elem_of_nil in Hin; contradiction];
      cbn; apply bool_decide_eq_true; exact Hn.
  - intros [[| | |] Hn]; cbn in Hn; apply bool_decide_eq_true in Hn;
      [left; rewrite Hn .. | right; exact Hn].
    + apply elem_of_cons; left; reflexivity.
    + apply elem_of_cons; right; apply elem_of_cons; left; reflexivity.
    + do 2 (apply elem_of_cons; right). apply elem_of_cons; left; reflexivity.
Qed.

(** A field the scan has no use for leaves the readers as they are; a
    field it asks about and that has a reader is bound; one that has no
    reader ends the scan with its message. *)
Lemma bind_field_cases (settings_ : PointCloudSettings) (field : PointField) (step : N)
    (rs0 : Readers) :
  (scanned settings_ field = true -> getReader field step = None ->
     bindPosition field step rs0 = inr (invalidFieldMessage (field_name field) field step)
     \/ exists rs1,
          bindPosition field step rs0 = inl rs1
          /\ bindColor settings_ field step rs1
               = inr (invalidFieldMessage (field_name field) field step))
  /\ ((scanned settings_ field = true -> is_Some (getReader field step)) ->
      exists rs1 rs2,
        bindPosition field step rs0 = inl rs1 /\ bindColor settings_ field step rs1 = inl rs2).
Proof.
  split.
  - intros Hs Hrd. unfold bindPosition, bindColor. rewrite Hrd.
    destruct (decide (field_name field = "x")) as [Hx|Hx]; [left; rewrite Hx; reflexivity|].
    destruct (decide (field_name field = "y")) as [Hy|Hy]; [left; rewrite Hy; reflexivity|].
    destruct (decide (field_name field = "z")) as [Hz|Hz]; [left; rewrite Hz; reflexivity|].
    right. exists rs0. split; [reflexivity|].
    unfold scanned in Hs. rewrite orb_true_iff, !bool_decide_eq_true in Hs.
    destruct Hs as [Hin | Hc].
    { apply elem_of_cons in Hin as [Hn|Hin]; [contradiction|].
      apply elem_of_cons in Hin as [Hn|Hin]; [contradiction|].
      apply elem_of_cons in Hin as [Hn|Hin]; [contradiction|].
      apply elem_of_nil in Hin. contradiction. }
    rewrite decide_True by exact Hc. reflexivity.
  - intros Hok. unfold bindPosition, bindColor.
    destruct (getReader field step) as [rd|] eqn:Hrd.
    + repeat case_decide; eauto.
    + assert (Hno : scanned settings_ field = false).
      { destruct (scanned settings_ field); [|reflexivity].
        destruct (Hok eq_refl) as [? [=]]. }
      unfold scanned in Hno. rewrite orb_false_iff, !bool_decide_eq_false in Hno.
      destruct Hno as [Hin Hc].
      assert (Hx : field_name field <> "x")
        by (intros Hn; apply Hin; rewrite Hn; apply elem_of_cons; left; reflexivity).
      assert (Hy : field_name field <> "y")
        by (intros Hn; apply Hin; rewrite Hn; apply elem_of_cons; right;
            apply elem_of_cons; left; reflexivity).
      assert (Hz : field_name field <> "z")
        by (intros Hn; apply Hin; rewrite Hn; do 2 (apply elem_of_cons; right);
            apply elem_of_cons; left; reflexivity).
      rewrite !decide_False by assumption.
      exists rs0, rs0. rewrite decide_False by exact Hc. split; reflexivity.
Qed.

Lemma allBound_slots (rs : Readers) :
  allBound rs = true <-> forall slot, is_Some (slotReader slot rs).
Proof.
  unfold allBound. rewrite !andb_true_iff, !bool_decide_eq_true. split.
  - intros [[[Hx Hy] Hz] Hc] [| | |]; assumption.
  - intros Hall. repeat split; [apply (Hall slot_x) | apply (Hall slot_y)
                               | apply (Hall slot_z) | apply (Hall slot_color)].
Qed.

(** What the scan leaves in each reader variable. *)
Lemma resolveReaders_slots (settings_ : PointCloudSettings) (step : N) (fs : list PointField) :
  forall rs0 rs,
    resolveReaders settings_ step fs rs0 = inl rs ->
    forall slot,
      (is_Some (slotReader slot rs0) -> is_Some (slotReader slot rs))
      /\ ((exists f, f ∈ fs /\ slotNamed settings_ slot f = true) ->
          is_Some (slotReader slot rs))
      /\ (slotReader slot rs = slotReader slot rs0
          \/ exists f, f ∈ fs /\ slotNamed settings_ slot f = true
                       /\ is_Some (getReader f step)
                       /\ slotReader slot rs = getReader f step).
Proof.
  induction fs as [|field rest IH]; intros rs0 rs; cbn [resolveReaders].
  - intros [= <-] slot. split; [auto|]. split; [|left; reflexivity].
    intros (f & Hin & _). apply elem_of_nil in Hin. contradiction.
  - destruct (bindPosition field step rs0) as [rs1|m] eqn:Hpos; [|discriminate].
    destruct (bindColor settings_ field step rs1) as [rs2|m] eqn:Hcol; [|discriminate].
    pose proof (bind_field settings_ field step rs0 rs1 rs2 Hpos Hcol) as Hfield.
    assert (Hturn : forall slot,
      (is_Some (slotReader slot rs0) -> is_Some (slotReader slot rs2))
      /\ (slotNamed settings_ slot field = true -> is_Some (slotReader slot rs2))
      /\ (slotReader slot rs2 = slotReader slot rs0
          \/ (slotNamed settings_ slot field = true /\ is_Some (getReader field step)
              /\ slotReader slot rs2 = getReader field step))).
    { intros slot. destruct (Hfield slot) as [Hyes Hno].
      destruct (slotNamed settings_ slot field) eqn:Hn.
      - destruct (Hyes eq_refl) as [Hsome Heq]. rewrite Heq.
        split; [intros _; exact Hsome|]. split; [intros _; exact Hsome|].
        right. split; [reflexivity|]. split; [exact Hsome | reflexivity].
      - rewrite (Hno eq_refl). split; [auto|]. split; [discriminate | left; reflexivity]. }
    destruct (allBound rs2) eqn:Hall.
    + intros [= <-] slot. destruct (Hturn slot) as (Hmono & Hnamed & Hfrom).
      split; [exact Hmono|]. split.
      * intros _. apply allBound_slots. exact Hall.
      * destruct Hfrom as [Heq | (Hn & Hsome & Heq)]; [left; exact Heq|].
        right. exists field. split; [apply elem_of_cons; left; reflexivity|]. auto.
    + intros Hrest slot. destruct (IH rs2 rs Hrest slot) as (Hmono' & Hcomplete' & Hfrom').
      destruct (Hturn slot) as (Hmono & Hnamed & Hfrom).
      split; [auto|]. split.
      * intros (f & Hin & Hn). apply elem_of_cons in Hin as [->|Hin]; [auto|].
        apply Hcomplete'. eauto.
      * destruct Hfrom' as [Heq' | (f & Hin & Hn & Hsome & Heq')].
        -- rewrite Heq'. destruct Hfrom as [Heq | (Hn & Hsome & Heq)]; [left; exact Heq|].
           right. exists field. split; [apply elem_of_cons; left; reflexivity|]. auto.
        -- right. exists f. split; [apply elem_of_cons; right; exact Hin|]. auto.
Qed.

Lemma validate_resolve (settings_ : PointCloudSettings) (pc : PointCloud2) (rs : Readers) :
  validate settings_ pc = inl rs ->
  resolveReaders settings_ (point_step pc) (fields pc) noReaders = inl rs
  /\ (2 <= positionReaderCount rs)%N.
Proof.
  unfold validate, bindReaders. destruct (structuralError pc); [discriminate|].
  destruct (resolveReaders settings_ (point_step pc) (fields pc) noReaders) as [rs'|m];
    [|discriminate].
  destruct (N.ltb_spec (positionReaderCount rs') 2); [discriminate|].
  intros [= <-]. split; [reflexivity | assumption].
Qed.

Lemma existsb_elem_of {A} (p : A -> bool) (l : list A) :
  existsb p l = true <-> exists a, a ∈ l /\ p a = true.
Proof.
  rewrite existsb_exists. split; intros (a & Hin & Hp); exists a; split; try assumption;
    apply list_elem_of_In; assumption.
Qed.

Lemma slot_bound_iff (settings_ : PointCloudSettings) (pc : PointCloud2) (rs : Readers)
    (slot : Slot) :
  validate settings_ pc = inl rs ->
  is_Some (slotReader slot rs) <-> exists f, f ∈ fields pc /\ slotNamed settings_ slot f = true.
Proof.
  intros Hv. destruct (validate_resolve settings_ pc rs Hv) as [Hscan _].
  destruct (resolveReaders_slots settings_ _ _ _ _ Hscan slot) as (_ & Hcomplete & Hfrom).
  split; [|exact Hcomplete].
  intros Hsome. destruct Hfrom as [Heq | (f & Hin & Hn & _)]; [|eauto].
  rewrite Heq in Hsome. destruct slot; destruct Hsome as [? [=]].
Qed.

(** X11. In an accepted message a reader is bound for x, y, z and the colour
    field exactly when a field of that name is declared. *)
Theorem reader_bound_iff_field_named
    (settings_ : PointCloudSettings) (pc : PointCloud2) (rs : Readers) :
  validate settings_ pc = inl rs ->
  (is_Some (xReader rs) <-> named "x" (fields pc) = true)
  /\ (is_Some (yReader rs) <-> named "y" (fields pc) = true)
  /\ (is_Some (zReader rs) <-> named "z" (fields pc) = true)
  /\ (is_Some (colorReader rs) <-> colorNamed settings_ (fields pc) = true).
Proof.
  intros Hv. unfold named, colorNamed. rewrite !existsb_elem_of.
  split; [exact (slot_bound_iff settings_ pc rs slot_x Hv)|].
  split; [exact (slot_bound_iff settings_ pc rs slot_y Hv)|].
  split; [exact (slot_bound_iff settings_ pc rs slot_z Hv)|].
  exact (slot_bound_iff settings_ pc rs slot_color Hv).
Qed.

Lemma autoSelect_names_a_field (output : PointCloudSettings) (pc : PointCloud2) :
  fields pc <> [] ->
  exists f, f ∈ fields pc /\ colorField (autoSelectColorField output pc) = Some (field_name f).
Proof.
  intros Hne. unfold autoSelectColorField.
  destruct (find (fun field => bool_decide (field_name field ∈ COLOR_FIELDS)) (fields pc))
    as [f|] eqn:Hcolor.
  - exists f. split; [apply list_elem_of_In; eapply find_some; exact Hcolor|].
    repeat case_decide; reflexivity.
  - destruct (find (fun field => bool_decide (field_name field ∈ INTENSITY_FIELDS)) (fields pc))
      as [f|] eqn:Hintensity.
    + exists f. split; [apply list_elem_of_In; eapply find_some; exact Hintensity|]. reflexivity.
    + destruct (fields pc) as [|f rest]; [contradiction|].
      exists f. split; [apply elem_of_cons; left; reflexivity | reflexivity].
Qed.

(** X12. The first message of a topic, when it is accepted, has its colour
    values read from the field that was selected from it, by the reader
    [getReader] gave for a field of that name. *)
Theorem first_message_reads_selected_field (pc : PointCloud2) (rs : Readers) :
  validate (autoSelectColorField defaultSettings pc) pc = inl rs ->
  exists f rd,
    f ∈ fields pc
    /\ colorField (autoSelectColorField defaultSettings pc) = Some (field_name f)
    /\ getReader f (point_step pc) = Some rd
    /\ colorReader rs = Some rd
    /\ activeColorReader rs = rd.
Proof.
  intros Hv. set (settings_ := autoSelectColorField defaultSettings pc) in *.
  assert (Hfields : fields pc <> []).
  { intros Hnil. unfold validate, structuralError in Hv.
    rewrite Hnil in Hv. cbn in Hv.
    destruct (is_bigendian pc); [discriminate|].
    destruct (rem_nonzero _ _); discriminate. }
  destruct (autoSelect_names_a_field defaultSettings pc Hfields) as (f0 & Hin0 & Hname0).
  fold settings_ in Hname0.
  destruct (validate_resolve settings_ pc rs Hv) as [Hscan _].
  destruct (resolveReaders_slots settings_ _ _ _ _ Hscan slot_color) as (_ & Hcomplete & Hfrom).
  assert (Hsome : is_Some (colorReader rs)).
  { apply Hcomplete. exists f0. split; [exact Hin0|]. cbn. apply bool_decide_eq_true.
    symmetry. exact Hname0. }
  destruct Hfrom as [Heq | (f & Hin & Hn & [rd Hrd] & Heq)].
  - cbn in Heq. rewrite Heq in Hsome. destruct Hsome as [? [=]].
  - cbn in Hn, Heq. apply bool_decide_eq_true in Hn.
    exists f, rd. split; [exact Hin|]. split; [symmetry; exact Hn|]. split; [exact Hrd|].
    split; [congruence|]. unfold activeColorReader. rewrite Heq, Hrd. reflexivity.
Qed.

(** X13. The colour values of an accepted message are read by a reader that
    [getReader] gave: the one of the colour field; without a field of that
    name the one of x; without an x field the one of y. The fallback on
    [zeroReader] (line 222) is never taken. *)
Theorem color_reader_is_a_bound_reader
    (settings_ : PointCloudSettings) (pc : PointCloud2) (rs : Readers) :
  validate settings_ pc = inl rs ->
  (forall rd, colorReader rs = Some rd -> activeColorReader rs = rd)
  /\ (colorNamed settings_ (fields pc) = false ->
      colorReader rs = None
      /\ (forall rd, xReader rs = Some rd -> activeColorReader rs = rd)
      /\ (named "x" (fields pc) = false ->
          xReader rs = None /\ exists rd, yReader rs = Some rd /\ activeColorReader rs = rd))
  /\ exists rd f,
       f ∈ fields pc /\ getReader f (point_step pc) = Some rd /\ activeColorReader rs = rd.
Proof.
  intros Hv.
  destruct (validate_resolve settings_ pc rs Hv) as [Hscan Hcount].
  pose proof (resolveReaders_slots settings_ _ _ _ _ Hscan) as Hslots.
  assert (Hnone : forall slot,
            (forall f, f ∈ fields pc -> slotNamed settings_ slot f = false) ->
            slotReader slot rs = None).
  { intros slot Hno. destruct (Hslots slot) as (_ & _ & [Heq | (f & Hin & Hn & _)]).
    - rewrite Heq. destruct slot; reflexivity.
    - rewrite (Hno f Hin) in Hn. discriminate. }
  assert (Hfalse : forall p, existsb p (fields pc) = false ->
                             forall f, f ∈ fields pc -> p f = false).
  { intros p Hp f Hin. destruct (p f) eqn:Hpf; [|reflexivity].
    assert (existsb p (fields pc) = true) by (apply existsb_elem_of; eauto). congruence. }
  assert (Hfrom : forall slot rd, slotReader slot rs = Some rd ->
            exists f, f ∈ fields pc /\ getReader f (point_step pc) = Some rd).
  { intros slot rd Hrd. destruct (Hslots slot) as (_ & _ & [Heq | (f & Hin & _ & _ & Heq)]).
    - rewrite Hrd in Heq. destruct slot; discriminate.
    - exists f. split; [exact Hin | congruence]. }
  split; [intros rd Hrd; unfold activeColorReader; rewrite Hrd; reflexivity|]. split.
  - intros Hc. assert (Hcolor : colorReader rs = None)
      by exact (Hnone slot_color (Hfalse _ Hc)).
    split; [exact Hcolor|]. split.
    + intros rd Hrd. unfold activeColorReader. rewrite Hcolor, Hrd. reflexivity.
    + intros Hx. assert (Hxr : xReader rs = None) by exact (Hnone slot_x (Hfalse _ Hx)).
      split; [exact Hxr|]. unfold positionReaderCount, bound in Hcount. rewrite Hxr in Hcount.
      destruct (yReader rs) as [rd|] eqn:Hy.
      * exists rd. split; [reflexivity|]. unfold activeColorReader.
        rewrite Hcolor, Hxr, Hy. reflexivity.
      * destruct (zReader rs); cbn in Hcount; lia.
  - unfold activeColorReader.
    destruct (colorReader rs) as [rd|] eqn:Hc.
    { destruct (Hfrom slot_color rd Hc) as (f & Hin & Hrd). exists rd, f. auto. }
    destruct (xReader rs) as [rd|] eqn:Hx.
    { destruct (Hfrom slot_x rd Hx) as (f & Hin & Hrd). exists rd, f. auto. }
    destruct (yReader rs) as [rd|] eqn:Hy.
    { destruct (Hfrom slot_y rd Hy) as (f & Hin & Hrd). exists rd, f. auto. }
    unfold positionReaderCount, bound in Hcount. rewrite Hx, Hy in Hcount.
    destruct (zReader rs); cbn in Hcount; lia.
Qed.

(** The scan up to a field that has no reader. *)
Lemma resolveReaders_invalid (settings_ : PointCloudSettings) (step : N) (f : PointField)
    (after : list PointField) (slot : Slot) (before : list PointField) :
  forall rs0,
    scanned settings_ f = true ->
    getReader f step = None ->
    Forall (fun g => scanned settings_ g = true -> is_Some (getReader g step)) before ->
    slotReader slot rs0 = None ->
    Forall (fun g => slotNamed settings_ slot g = false) before ->
    resolveReaders settings_ step (before ++ f :: after) rs0
      = inr (invalidFieldMessage (field_name f) f step).
Proof.
  induction before as [|g before IH]; intros rs0 Hs Hrd Hok Hslot Hnot;
    cbn [app resolveReaders].
  - destruct (proj1 (bind_field_cases settings_ f step rs0) Hs Hrd) as [-> | (rs1 & -> & ->)];
      reflexivity.
  - apply Forall_cons in Hok as [Hg Hok]. apply Forall_cons in Hnot as [Hng Hnot].
    destruct (proj2 (bind_field_cases settings_ g step rs0) Hg) as (rs1 & rs2 & Hpos & Hcol).
    rewrite Hpos, Hcol.
    destruct (bind_field settings_ g step rs0 rs1 rs2 Hpos Hcol slot) as [_ Hkeep].
    assert (Hslot2 : slotReader slot rs2 = None) by (rewrite (Hkeep Hng); exact Hslot).
    assert (Hall : allBound rs2 = false).
    { destruct (allBound rs2) eqn:Hall; [|reflexivity].
      rewrite allBound_slots in Hall. specialize (Hall slot).
      rewrite Hslot2 in Hall. destruct Hall as [? [=]]. }
    rewrite Hall. apply IH; assumption.
Qed.

(** X14. A field named x, y or z, or named as the colour field, for which
    [getReader] has no reader, makes the message invalid, with the message
    that names the field, its type, its offset and [point_step]: provided
    the structural checks pass, the fields before it that the scan asks
    about have readers, and they do not already carry all four names (after
    which the scan is over). *)
Theorem invalid_field_is_reported
    (settings_ : PointCloudSettings) (pc : PointCloud2)
    (before : list PointField) (f : PointField) (after : list PointField) :
  structuralError pc = None ->
  fields pc = before ++ f :: after ->
  scanned settings_ f = true ->
  getReader f (point_step pc) = None ->
  Forall (fun g => scanned settings_ g = true -> is_Some (getReader g (point_step pc))) before ->
  bindsAll settings_ before = false ->
  validate settings_ pc = inr (invalidFieldMessage (field_name f) f (point_step pc)).
Proof.
  intros Hstruct Hfields Hs Hrd Hok Hall.
  assert (Hslot : exists slot, Forall (fun g => slotNamed settings_ slot g = false) before).
  { assert (Hno : forall p, existsb p before = false -> Forall (fun g => p g = false) before).
    { intros p Hp. apply Forall_forall. intros g Hin. destruct (p g) eqn:Hpg; [|reflexivity].
      assert (existsb p before = true) by (apply existsb_elem_of; eauto). congruence. }
    unfold bindsAll, named, colorNamed in Hall. rewrite !andb_false_iff in Hall.
    destruct Hall as [[[Hx | Hy] | Hz] | Hc];
      [exists slot_x | exists slot_y | exists slot_z | exists slot_color];
      apply Hno; assumption. }
  destruct Hslot as [slot Hnot].
  unfold validate, bindReaders. rewrite Hstruct, Hfields.
  rewrite (resolveReaders_invalid settings_ (point_step pc) f after slot before noReaders
             Hs Hrd Hok ltac:(destruct slot; reflexivity) Hnot).
  reflexivity.
Qed.

End Scan.

(** The cloud with fields x, y and intensity, validated with intensity as
    the colour field: readers for x, y and the colour, none for z. *)
Lemma reader_bound_iff_field_named_witness :
  validate (settings (userData renderable1)) cloudXY = inl readersXY
  /\ named "x" (fields cloudXY) = true
  /\ named "z" (fields cloudXY) = false
  /\ is_Some (xReader readersXY)
  /\ ~ is_Some (zReader readersXY)
  /\ is_Some (colorReader readersXY).
Proof.
  assert (Hv : validate (settings (userData renderable1)) cloudXY = inl readersXY)
    by (vm_compute; reflexivity).
  destruct (reader_bound_iff_field_named _ cloudXY readersXY Hv) as (Hx & _ & Hz & Hc).
  split; [exact Hv|]. split; [reflexivity|]. split; [reflexivity|].
  split; [apply Hx; reflexivity|]. split; [rewrite Hz; discriminate|].
  apply Hc. vm_compute. reflexivity.
Defined.

(** The first message of /points: intensity is selected and its values are
    read at offset 2. *)
Lemma first_message_reads_selected_field_witness :
  validate (autoSelectColorField defaultSettings cloudXY) cloudXY = inl readersXY
  /\ colorField (autoSelectColorField defaultSettings cloudXY) = Some "intensity"
  /\ exists f,
       f ∈ fields cloudXY /\ field_name f = "intensity"
       /\ getReader f (point_step cloudXY) = Some (activeColorReader readersXY).
Proof.
  assert (Hv : validate (autoSelectColorField defaultSettings cloudXY) cloudXY = inl readersXY)
    by (vm_compute; reflexivity).
  destruct (first_message_reads_selected_field cloudXY readersXY Hv)
    as (f & rd & Hin & Hname & Hrd & _ & Hactive).
  split; [exact Hv|]. split; [vm_compute; reflexivity|].
  exists f. split; [exact Hin|]. split.
  - assert (Hsel : colorField (autoSelectColorField defaultSettings cloudXY) = Some "intensity")
      by (vm_compute; reflexivity).
    rewrite Hsel in Hname. injection Hname as <-. reflexivity.
  - rewrite Hactive. exact Hrd.
Defined.

(** A message without an intensity field on /points, whose colour field is
    intensity: the colour values are the x values. *)
Lemma color_reader_is_a_bound_reader_witness :
  validate (settings (userData renderable1)) cloudLidar = inl readersXYZ
  /\ colorField (settings (userData renderable1)) = Some "intensity"
  /\ colorNamed (settings (userData renderable1)) (fields cloudLidar) = false
  /\ activeColorReader readersXYZ = readUint8 0
  /\ colorValues (activeColorReader readersXYZ) cloudLidar = [num 7].
Proof.
  assert (Hv : validate (settings (userData renderable1)) cloudLidar = inl readersXYZ)
    by (vm_compute; reflexivity).
  destruct (color_reader_is_a_bound_reader _ cloudLidar readersXYZ Hv) as (_ & Hfall & _).
  destruct (Hfall ltac:(vm_compute; reflexivity)) as (_ & Hx & _).
  split; [exact Hv|]. split; [vm_compute; reflexivity|]. split; [vm_compute; reflexivity|].
  split; [apply Hx; reflexivity|]. vm_compute. reflexivity.
Defined.

(** A y field of a type without a reader, after a valid x field. *)
Lemma invalid_field_is_reported_witness :
  structuralError cloudFloatY = None
  /\ validate (autoSelectColorField defaultSettings cloudFloatY) cloudFloatY
     = inr ("PointCloud2 field " +:+ dquote +:+ "y" +:+ dquote
            +:+ " is invalid. type=7, offset=1, point_step=3").
Proof.
  split; [vm_compute; reflexivity|].
  rewrite (invalid_field_is_reported (autoSelectColorField defaultSettings cloudFloatY)
             cloudFloatY [uint8Field "x" 0]
             {| field_name := "y"; field_offset := 1; field_datatype := 7; field_count := 1 |}
             [uint8Field "z" 2]).
  - vm_compute. reflexivity.
  - vm_compute. reflexivity.
  - reflexivity.
  - vm_compute. reflexivity.
  - vm_compute. reflexivity.
  - constructor; [|constructor]. intros _. vm_compute. eauto.
  - vm_compute. reflexivity.
Defined.

End PointCloudsScan.

(* ===================================================================== *)
(** ** The decoded colours *)
(* ===================================================================== *)

Module PointCloudsColors.
Import Js Eff Ros Three PointClouds PointCloudsFacts.
Local Open Scope eff_scope.

Section Colors.
Context `{Imports}.

Lemma decodePoint_run_both (pc : PointCloud2) (rdx rdy rdz rdc : FieldReader)
    (conv : ColorRGBA -> number -> ColorRGBA) (i : N) (s : Ctx) (p c : BufferAttribute) :
  getAttribute "position" (geometry (userData s.1)) = Some p ->
  getAttribute "color" (geometry (userData s.1)) = Some c ->
  exists s',
    decodePoint pc rdx rdy rdz rdc conv i s = (Return tt, s')
    /\ getAttribute "position" (geometry (userData s'.1)) = Some (writePosition pc rdx rdy rdz p i)
    /\ getAttribute "color" (geometry (userData s'.1))
         = Some (writeColor pc rdc conv (c, tempColor s.2) i).1
    /\ tempColor s'.2 = (writeColor pc rdc conv (c, tempColor s.2) i).2.
Proof.
  intros Hp Hc. unfold decodePoint.
  unfold bind at 1. rewrite (with_attribute_run "position" _ s p Hp).
  unfold bind at 1. unfold on_world at 1, modify at 1.
  unfold bind at 1. unfold gets at 1.
  set (s1 := ((put_attribute "position" _ s).1, _)).
  assert (Hc1 : getAttribute "color" (geometry (userData s1.1)) = Some c).
  { subst s1. cbn [fst]. rewrite getAttribute_put_ne by discriminate. exact Hc. }
  rewrite (with_attribute_run "color" _ s1 c Hc1).
  eexists. split; [reflexivity|]. split; [|split].
  - rewrite getAttribute_put_ne by discriminate. subst s1. cbn [fst].
    apply getAttribute_put_eq.
  - rewrite getAttribute_put_eq. reflexivity.
  - reflexivity.
Qed.

Lemma decode_loop_both (pc : PointCloud2) (rdx rdy rdz rdc : FieldReader)
    (conv : ColorRGBA -> number -> ColorRGBA) (indices : list N) :
  forall (s : Ctx) (p c : BufferAttribute),
    getAttribute "position" (geometry (userData s.1)) = Some p ->
    getAttribute "color" (geometry (userData s.1)) = Some c ->
    exists s',
      for_each indices (decodePoint pc rdx rdy rdz rdc conv) s = (Return tt, s')
      /\ getAttribute "position" (geometry (userData s'.1))
           = Some (fold_left (writePosition pc rdx rdy rdz) indices p)
      /\ getAttribute "color" (geometry (userData s'.1))
           = Some (fold_left (writeColor pc rdc conv) indices (c, tempColor s.2)).1
      /\ tempColor s'.2 = (fold_left (writeColor pc rdc conv) indices (c, tempColor s.2)).2.
Proof.
  induction indices as [|i indices IH]; intros s p c Hp Hc; cbn [for_each fold_left].
  - exists s. repeat split; assumption.
  - destruct (decodePoint_run_both pc rdx rdy rdz rdc conv i s p c Hp Hc)
      as (s1 & Hrun & Hp1 & Hc1 & Ht1).
    destruct (IH s1 _ _ Hp1 Hc1) as (s' & Hloop & Hp' & Hc' & Ht').
    exists s'. split; [unfold bind; rewrite Hrun; exact Hloop|].
    split; [exact Hp'|].
    rewrite Ht1 in Hc', Ht'. rewrite <- surjective_pairing in Hc', Ht'.
    split; assumption.
Qed.

(** With both attributes in place, [decode] returns; both attributes are
    the resized ones with every point written in turn and [needsUpdate]
    set, and the scratch colour is the last colour converted. *)
Lemma decode_both (pc : PointCloud2) (rs : Readers) (s : Ctx) (p c : BufferAttribute) :
  let g := (resize (pointCount pc) (next_id s.2) (geometry (userData s.1))).1 in
  let domain := colorDomain (settings (userData s.1)) (activeColorReader rs) pc in
  let written :=
    fold_left
      (writeColor pc (activeColorReader rs)
         (getColorConverter (settings (userData s.1)) domain.1 domain.2))
      (pointIndices pc) (c, tempColor s.2) in
  getAttribute "position" g = Some p ->
  getAttribute "color" g = Some c ->
  exists s',
    decode pc rs s = (Return tt, s')
    /\ getAttribute "position" (geometry (userData s'.1))
         = Some (set_needsUpdate true
                   (fold_left
                      (writePosition pc (nullish (xReader rs) zeroReader)
                         (nullish (yReader rs) zeroReader) (nullish (zReader rs) zeroReader))
                      (pointIndices pc) p))
    /\ getAttribute "color" (geometry (userData s'.1)) = Some (set_needsUpdate true written.1)
    /\ tempColor s'.2 = written.2.
Proof.
  intros g domain written Hp Hc. subst written domain. unfold decode, activeColorReader.
  unfold bind at 1. unfold gets at 1.
  unfold bind at 1. rewrite geometry_resize_run.
  unfold bind at 1. unfold on_world at 1, modify at 1.
  set (s1 := (_, log_call _ _)).
  assert (Hp1 : getAttribute "position" (geometry (userData s1.1)) = Some p) by exact Hp.
  assert (Hc1 : getAttribute "color" (geometry (userData s1.1)) = Some c) by exact Hc.
  assert (Ht1 : tempColor s1.2 = tempColor s.2) by reflexivity.
  set (rdc := nullish (colorReader rs)
                (nullish (xReader rs) (nullish (yReader rs) (nullish (zReader rs) zeroReader)))).
  set (conv := getColorConverter (settings (userData s.1)) _ _).
  destruct (decode_loop_both pc (nullish (xReader rs) zeroReader)
              (nullish (yReader rs) zeroReader) (nullish (zReader rs) zeroReader)
              rdc conv (pointIndices pc) s1 p c Hp1 Hc1)
    as (s2 & Hloop & Hp2 & Hc2 & Ht2).
  rewrite Ht1 in Hc2, Ht2.
  cbn [fst snd]. unfold bind at 1. fold rdc. fold conv.
  change (for_each (pointIndices pc)
            (decodePoint pc (nullish (xReader rs) zeroReader) (nullish (yReader rs) zeroReader)
               (nullish (zReader rs) zeroReader) rdc conv) s1)
    with (for_each (pointIndices pc)
            (decodePoint pc (nullish (xReader rs) zeroReader) (nullish (yReader rs) zeroReader)
               (nullish (zReader rs) zeroReader) rdc conv) s1).
  rewrite Hloop.
  unfold bind at 1. rewrite (with_attribute_run "position" _ s2 _ Hp2).
  set (s3 := put_attribute "position" _ s2).
  assert (Hc3 : getAttribute "color" (geometry (userData s3.1))
                = Some (fold_left (writeColor pc rdc conv) (pointIndices pc) (c, tempColor s.2)).1).
  { subst s3. rewrite getAttribute_put_ne by discriminate. exact Hc2. }
  rewrite (with_attribute_run "color" _ s3 _ Hc3).
  eexists. split; [reflexivity|]. split; [|split].
  - rewrite getAttribute_put_ne by discriminate. subst s3. apply getAttribute_put_eq.
  - apply getAttribute_put_eq.
  - exact Ht2.
Qed.

(** After the points [0 .. m-1] are written, each holds the four channels
    of the colour the converter made of the values up to it. *)
Lemma written_colors (pc : PointCloud2) (rdc : FieldReader)
    (conv : ColorRGBA -> number -> ColorRGBA) (c : BufferAttribute) (c0 : ColorRGBA) (n : nat) :
  itemSize c = 4%N -> length (array c) = 4 * n ->
  forall m, m <= n ->
    let value := fun i : nat => rdc (data pc) (N.of_nat i * point_step pc)%N in
    let acc := fold_left (writeColor pc rdc conv) (N.of_nat <$> seq 0 m) (c, c0) in
    itemSize acc.1 = 4%N
    /\ length (array acc.1) = 4 * n
    /\ acc.2 = fold_left conv (value <$> seq 0 m) c0
    /\ forall i, i < m ->
         let color := fold_left conv (value <$> seq 0 (S i)) c0 in
         array acc.1 !! (4 * i) = Some (color_r color)
         /\ array acc.1 !! (4 * i + 1) = Some (color_g color)
         /\ array acc.1 !! (4 * i + 2) = Some (color_b color)
         /\ array acc.1 !! (4 * i + 3) = Some (color_a color).
Proof.
  intros Hsize Hlen m. induction m as [|m IH]; intros Hm; cbn zeta.
  - cbn. repeat split; [assumption | assumption | lia | lia | lia | lia].
  - rewrite !seq_S, !fmap_app, !fold_left_app. cbn [fmap list_fmap fold_left Nat.add].
    specialize (IH ltac:(lia)). cbn zeta in IH.
    set (q := fold_left (writeColor pc rdc conv) (N.of_nat <$> seq 0 m) (c, c0)) in *.
    destruct IH as (Hqsize & Hqlen & Hqcol & Hq).
    unfold writeColor. cbn [fst snd]. rewrite Hqcol.
    unfold setXYZW. cbn [array itemSize set_array]. rewrite Hqsize.
    replace (N.to_nat (N.of_nat m * 4)) with (4 * m) by lia.
    split; [reflexivity|]. split; [rewrite !length_insert; exact Hqlen|].
    split; [reflexivity|].
    intros i Hi. destruct (decide (i = m)) as [->|Hne].
    + rewrite seq_S, fmap_app, fold_left_app. cbn [fmap list_fmap fold_left Nat.add].
      split; [|split; [|split]].
      * rewrite !list_lookup_insert_ne by lia. apply list_lookup_insert_eq. lia.
      * rewrite !list_lookup_insert_ne by lia.
        apply list_lookup_insert_eq. rewrite length_insert. lia.
      * rewrite list_lookup_insert_ne by lia.
        apply list_lookup_insert_eq. rewrite !length_insert. lia.
      * apply list_lookup_insert_eq. rewrite !length_insert. lia.
    + destruct (Hq i ltac:(lia)) as (Hr & Hg & Hb & Ha).
      rewrite !list_lookup_insert_ne by lia. repeat split; assumption.
Qed.



Lemma fold_min_NaN (values : list number) : fold_left Math_min values NaN = NaN.
Proof. induction values as [|v values IH]; [reflexivity | exact IH]. Qed.

Lemma fold_max_NaN (values : list number) : fold_left Math_max values NaN = NaN.
Proof. induction values as [|v values IH]; [reflexivity | exact IH]. Qed.

Lemma fold_min_poisoned (values : list number) :
  forall acc, Exists (fun v => is_nan v = true) values -> fold_left Math_min values acc = NaN.
Proof.
  induction values as [|v values IH]; intros acc Hex; [inversion Hex|].
  cbn [fold_left]. apply Exists_cons in Hex as [Hv | Hex]; [|apply IH; exact Hex].
  destruct v; try discriminate. replace (Math_min acc NaN) with NaN by (destruct acc; reflexivity).
  apply fold_min_NaN.
Qed.

Lemma fold_max_poisoned (values : list number) :
  forall acc, Exists (fun v => is_nan v = true) values -> fold_left Math_max values acc = NaN.
Proof.
  induction values as [|v values IH]; intros acc Hex; [inversion Hex|].
  cbn [fold_left]. apply Exists_cons in Hex as [Hv | Hex]; [|apply IH; exact Hex].
  destruct v; try discriminate. replace (Math_max acc NaN) with NaN by (destruct acc; reflexivity).
  apply fold_max_NaN.
Qed.

(** X16. One colour value that is not a number makes every scanned bound of the
    colour domain NaN: with no bound pinned, the colour converter is built
    for the domain from NaN to NaN. *)
Theorem nan_value_poisons_the_color_domain
    (r : PointCloudRenderable) (w : World) (pc : PointCloud2) (rs : Readers) :
  validate (settings (userData r)) pc = inl rs ->
  Exists (fun v => is_nan v = true) (colorValues (activeColorReader rs) pc) ->
  let domain := colorDomain (settings (userData r)) (activeColorReader rs) pc in
  (minValue (settings (userData r)) = None -> domain.1 = NaN)
  /\ (maxValue (settings (userData r)) = None -> domain.2 = NaN)
  /\ calls (_updatePointCloudRenderable pc (r, w)).2.2
       = calls w ++ [Call_getColorConverter (settings (userData r)) domain.1 domain.2].
Proof.
  intros Hv Hex. cbn zeta. rewrite colorDomain_eq. cbn [fst snd].
  split; [intros ->; cbn [nullish]; apply fold_min_poisoned; exact Hex|].
  split; [intros ->; cbn [nullish]; apply fold_max_poisoned; exact Hex|].
  rewrite (update_accepted r w pc rs Hv), decode_calls, colorDomain_eq. reflexivity.
Qed.

End Colors.


(** Two points with the intensities 5 and not-a-number: the converter is
    built for the domain from NaN to NaN. *)
Lemma nan_value_poisons_the_color_domain_witness :
  let created :=
    @createRenderable markedImports "/marked" cloudMarked
      (@emptyWorld markedImports ["base_link"]) in
  @validate markedImports (settings (userData created.1)) cloudMarked = inl readersMarked
  /\ colorValues (activeColorReader readersMarked) cloudMarked = [num 5; NaN]
  /\ @calls markedImports (@_updatePointCloudRenderable markedImports cloudMarked created).2.2
       = [Call_getColorConverter (autoSelectColorField defaultSettings cloudMarked) NaN NaN].
Proof.
  cbn zeta.
  assert (Hv : @validate markedImports
                 (settings (userData (@createRenderable markedImports "/marked" cloudMarked
                                        (@emptyWorld markedImports ["base_link"])).1))
                 cloudMarked = inl readersMarked) by (vm_compute; reflexivity).
  assert (Hvalues : colorValues (activeColorReader readersMarked) cloudMarked = [num 5; NaN])
    by (vm_compute; reflexivity).
  destruct (@nan_value_poisons_the_color_domain markedImports
              (@createRenderable markedImports "/marked" cloudMarked
                 (@emptyWorld markedImports ["base_link"])).1
              (@createRenderable markedImports "/marked" cloudMarked
                 (@emptyWorld markedImports ["base_link"])).2
              cloudMarked readersMarked Hv
              ltac:(rewrite Hvalues; apply Exists_cons; right; apply Exists_cons; left; reflexivity))
    as (Hmin & Hmax & Hcalls).
  split; [exact Hv|]. split; [exact Hvalues|].
  etrans; [exact Hcalls|].
  rewrite (Hmin eq_refl), (Hmax eq_refl). reflexivity.
Defined.

End PointCloudsColors.

(* ===================================================================== *)
(** ** A message decoded again *)
(* ===================================================================== *)

Module PointCloudsAgain.
Import Js Eff Ros Three PointClouds PointCloudsFacts PointCloudsColors.
Local Open Scope eff_scope.

Section Again.
Context `{Imports}.

(** Two lists of [k * n] numbers that agree point by point are equal. *)
Lemma list_eq_by_points (k n : nat) (l1 l2 : list number) :
  0 < k -> length l1 = k * n -> length l2 = k * n ->
  (forall i j, i < n -> j < k -> l1 !! (k * i + j) = l2 !! (k * i + j)) ->
  l1 = l2.
Proof.
  intros Hk H1 H2 Hpoints. apply list_eq. intros idx.
  destruct (decide (idx < k * n)) as [Hlt|Hge].
  - pose proof (Nat.div_mod_eq idx k) as Hdm.
    pose proof (Nat.mod_upper_bound idx k ltac:(lia)) as Hmod.
    rewrite Hdm. apply Hpoints; [|exact Hmod].
    apply Nat.Div0.div_lt_upper_bound. lia.
  - rewrite !lookup_ge_None_2 by lia. reflexivity.
Qed.

Lemma writePosition_summary (pc : PointCloud2) (rdx rdy rdz : FieldReader) (indices : list N) :
  forall a,
    let a' := fold_left (writePosition pc rdx rdy rdz) indices a in
    buffer a' = buffer a /\ itemSize a' = itemSize a /\ needsUpdate a' = needsUpdate a.
Proof.
  induction indices as [|i indices IH]; intros a; cbn zeta; cbn [fold_left]; [repeat split|].
  destruct (IH (writePosition pc rdx rdy rdz a i)) as (-> & -> & ->). repeat split.
Qed.

Lemma writeColor_summary (pc : PointCloud2) (rdc : FieldReader)
    (conv : ColorRGBA -> number -> ColorRGBA) (indices : list N) :
  forall acc,
    let acc' := fold_left (writeColor pc rdc conv) indices acc in
    buffer acc'.1 = buffer acc.1 /\ itemSize acc'.1 = itemSize acc.1
    /\ needsUpdate acc'.1 = needsUpdate acc.1.
Proof.
  induction indices as [|i indices IH]; intros acc; cbn zeta; cbn [fold_left]; [repeat split|].
  destruct (IH (writeColor pc rdc conv acc i)) as (-> & -> & ->). repeat split.
Qed.

Lemma attribute_eq (a b : BufferAttribute) :
  array a = array b -> itemSize a = itemSize b -> needsUpdate a = needsUpdate b ->
  buffer a = buffer b -> a = b.
Proof. destruct a, b. cbn. intros -> -> -> ->. reflexivity. Qed.

(** Writing all points makes the positions independent of what the array
    held before. *)
Lemma positions_overwritten (pc : PointCloud2) (rdx rdy rdz : FieldReader)
    (a b : BufferAttribute) (n : nat) :
  itemSize a = 3%N -> itemSize b = 3%N ->
  length (array a) = 3 * n -> length (array b) = 3 * n ->
  array (fold_left (writePosition pc rdx rdy rdz) (N.of_nat <$> seq 0 n) a)
  = array (fold_left (writePosition pc rdx rdy rdz) (N.of_nat <$> seq 0 n) b).
Proof.
  intros Ha Hb Hla Hlb.
  destruct (written_positions pc rdx rdy rdz a n Ha Hla n ltac:(lia)) as (_ & Hla' & Hpa).
  destruct (written_positions pc rdx rdy rdz b n Hb Hlb n ltac:(lia)) as (_ & Hlb' & Hpb).
  apply (list_eq_by_points 3 n); [lia | exact Hla' | exact Hlb' |].
  intros i j Hi Hj. destruct (Hpa i Hi) as (Hx & Hy & Hz). destruct (Hpb i Hi) as (Hx' & Hy' & Hz').
  destruct j as [|[|[|j]]]; [| | |lia].
  - rewrite Nat.add_0_r. congruence.
  - congruence.
  - congruence.
Qed.

Lemma colors_overwritten (pc : PointCloud2) (rdc : FieldReader)
    (conv : ColorRGBA -> number -> ColorRGBA) (a b : BufferAttribute) (c0 c1 : ColorRGBA)
    (n : nat) :
  (forall c c' v, conv c v = conv c' v) ->
  itemSize a = 4%N -> itemSize b = 4%N ->
  length (array a) = 4 * n -> length (array b) = 4 * n ->
  array (fold_left (writeColor pc rdc conv) (N.of_nat <$> seq 0 n) (a, c0)).1
  = array (fold_left (writeColor pc rdc conv) (N.of_nat <$> seq 0 n) (b, c1)).1.
Proof.
  intros Hconv Ha Hb Hla Hlb.
  destruct (written_colors pc rdc conv a c0 n Ha Hla n ltac:(lia)) as (_ & Hla' & _ & Hpa).
  destruct (written_colors pc rdc conv b c1 n Hb Hlb n ltac:(lia)) as (_ & Hlb' & _ & Hpb).
  apply (list_eq_by_points 4 n); [lia | exact Hla' | exact Hlb' |].
  intros i j Hi Hj.
  destruct (Hpa i Hi) as (Hr & Hg & Hb0 & Ha0). destruct (Hpb i Hi) as (Hr' & Hg' & Hb' & Ha').
  assert (Hsame :
    fold_left conv ((fun i : nat => rdc (data pc) (N.of_nat i * point_step pc)%N) <$> seq 0 (S i)) c0
    = fold_left conv ((fun i : nat => rdc (data pc) (N.of_nat i * point_step pc)%N) <$> seq 0 (S i)) c1).
  { rewrite seq_S, fmap_app, !fold_left_app. cbn. apply Hconv. }
  rewrite Hsame in Hr, Hg, Hb0, Ha0.
  destruct j as [|[|[|[|j]]]]; [| | | |lia].
  - rewrite Nat.add_0_r. congruence.
  - congruence.
  - congruence.
  - congruence.
Qed.

(** X17. The same message again: it is decoded into the same typed arrays and
    leaves the position attribute as it is; so it does the colour attribute
    when the converter assigns all four channels of the colour it is
    given. *)
Theorem same_message_again_changes_no_position
    (r : PointCloudRenderable) (w : World) (pc : PointCloud2) (rs : Readers) :
  validate (settings (userData r)) pc = inl rs ->
  geometry_ok (geometry (userData r)) ->
  let once := (_updatePointCloudRenderable pc (r, w)).2 in
  let twice := (_updatePointCloudRenderable pc once).2 in
  let domain := colorDomain (settings (userData r)) (activeColorReader rs) pc in
  let convert := getColorConverter (settings (userData r)) domain.1 domain.2 in
  (_updatePointCloudRenderable pc once).1 = Return tt
  /\ getAttribute "position" (geometry (userData twice.1))
       = getAttribute "position" (geometry (userData once.1))
  /\ buffers (geometry (userData twice.1)) = buffers (geometry (userData once.1))
  /\ next_id twice.2 = next_id once.2
  /\ ((forall c c' v, convert c v = convert c' v) ->
      getAttribute "color" (geometry (userData twice.1))
        = getAttribute "color" (geometry (userData once.1))).
Proof.
  intros Hv [Hpos Hcol]. cbn zeta.
  destruct (_updatePointCloudRenderable pc (r, w)) as [c1 [r1 w1]] eqn:Honce.
  assert (Hr1 : r1 = (_updatePointCloudRenderable pc (r, w)).2.1) by (rewrite Honce; reflexivity).
  assert (Hw1 : w1 = (_updatePointCloudRenderable pc (r, w)).2.2) by (rewrite Honce; reflexivity).
  cbn [fst snd].
  assert (Hsettings : settings (userData r1) = settings (userData r))
    by (rewrite Hr1; apply update_keeps_settings).
  assert (Hv1 : validate (settings (userData r1)) pc = inl rs) by (rewrite Hsettings; exact Hv).
  (* the first run *)
  pose proof Hpos as Hpos0. pose proof Hcol as Hcol0.
  apply (resize_attribute_ok (pointCount pc) (next_id w)) in Hpos0, Hcol0.
  destruct Hpos0 as (p0 & Hp0 & Hp0size & Hp0len).
  destruct Hcol0 as (c0 & Hc0 & Hc0size & Hc0len).
  rewrite resize_itemCount in Hp0len, Hc0len.
  destruct (decode_both pc rs (stamped pc r, w) p0 c0 Hp0 Hc0)
    as (s1 & Hrun1 & Hp1 & Hcl1 & _).
  assert (Hs1 : s1 = (r1, w1)).
  { rewrite (update_accepted r w pc rs Hv), Hrun1 in Honce. congruence. }
  subst s1. cbn [fst snd] in Hp1, Hcl1.
  change (settings (userData (stamped pc r))) with (settings (userData r)) in Hcl1.
  destruct (update_accepted_geometry r w pc rs Hv) as (Hcount & _).
  rewrite <- Hr1 in Hcount.
  (* the second run *)
  assert (Hresize : (resize (pointCount pc) (next_id w1) (geometry (userData (stamped pc r1)))).1
                    = geometry (userData r1)).
  { change (geometry (userData (stamped pc r1))) with (geometry (userData r1)).
    rewrite <- Hcount, resize_same_count. reflexivity. }
  destruct (decode_both pc rs (stamped pc r1, w1) _ _
              ltac:(cbn zeta; cbn [fst snd]; rewrite Hresize; exact Hp1)
              ltac:(cbn zeta; cbn [fst snd]; rewrite Hresize; exact Hcl1))
    as (s2 & Hrun2 & Hp2 & Hcl2 & _).
  cbn [fst snd] in Hp2, Hcl2.
  change (settings (userData (stamped pc r1))) with (settings (userData r1)) in Hcl2.
  rewrite Hsettings in Hcl2.
  rewrite (update_accepted r1 w1 pc rs Hv1), Hrun2. cbn [fst snd].
  destruct (update_accepted_geometry r1 w1 pc rs Hv1) as (_ & Hsame & _).
  rewrite (update_accepted r1 w1 pc rs Hv1), Hrun2 in Hsame. cbn [fst snd] in Hsame.
  assert (Hnext : next_id s2.2 = next_id w1).
  { assert (Hk : next_id (decode pc rs (stamped pc r1, w1)).2.2
                 = next_id w1
                   + (resize (pointCount pc) (next_id w1) (geometry (userData r1))).2).
    { unfold decode, bind at 1. unfold gets at 1. cbn [fst snd].
      unfold bind at 1. rewrite geometry_resize_run.
      unfold bind at 1. unfold on_world at 1, modify at 1. cbn [fst snd].
      match goal with
      | |- next_id (?m ?s0).2.2 = _ =>
          assert (Hkeep : keeps (fun s => next_id s.2) m); [| rewrite (Hkeep s0); reflexivity]
      end.
      apply keeps_bind.
      { apply keeps_for_each. intros i. unfold decodePoint.
        apply keeps_bind; [apply keeps_with_attribute; intros s a _; reflexivity | intros _].
        apply keeps_bind; [apply keeps_modify; intros s; reflexivity | intros _].
        apply keeps_bind; [apply keeps_gets | intros c].
        apply keeps_with_attribute. intros s a _. reflexivity. }
      intros _.
      apply keeps_bind; [|intros _]; apply keeps_with_attribute; intros s a _; reflexivity. }
    rewrite Hrun2 in Hk. cbn [fst snd] in Hk. rewrite Hk, <- Hcount, resize_same_count.
    cbn. lia. }
  split; [reflexivity|]. split; [|split; [exact (Hsame (eq_sym Hcount)) | split; [exact Hnext|]]].
  - rewrite Hp2, Hp1. f_equal. unfold pointIndices.
    set (W := writePosition pc _ _ _).
    set (idx := N.of_nat <$> seq 0 (N.to_nat (pointCount pc))).
    destruct (writePosition_summary pc (nullish (xReader rs) zeroReader)
                (nullish (yReader rs) zeroReader) (nullish (zReader rs) zeroReader) idx p0)
      as (Hb0 & Hs0 & Hn0).
    destruct (writePosition_summary pc (nullish (xReader rs) zeroReader)
                (nullish (yReader rs) zeroReader) (nullish (zReader rs) zeroReader) idx
                (set_needsUpdate true (fold_left W idx p0)))
      as (Hb1 & Hs1 & Hn1).
    cbn zeta in Hb0, Hs0, Hn0, Hb1, Hs1, Hn1. fold W in Hb0, Hs0, Hn0, Hb1, Hs1, Hn1.
    destruct (written_positions pc (nullish (xReader rs) zeroReader)
                (nullish (yReader rs) zeroReader) (nullish (zReader rs) zeroReader)
                p0 (N.to_nat (pointCount pc)) Hp0size ltac:(lia)
                (N.to_nat (pointCount pc)) ltac:(lia)) as (_ & Hlen1 & _).
    cbn zeta in Hlen1. fold W idx in Hlen1.
    apply attribute_eq; cbn [array itemSize needsUpdate buffer set_needsUpdate].
    + subst W idx.
      apply (positions_overwritten pc _ _ _ _ _ (N.to_nat (pointCount pc)));
        cbn [array itemSize set_needsUpdate]; try assumption; try lia;
        try (rewrite Hs0; exact Hp0size).
    + rewrite Hs1. reflexivity.
    + reflexivity.
    + rewrite Hb1. reflexivity.
  - intros Hconv. rewrite Hcl2, Hcl1. f_equal. unfold pointIndices.
    set (conv := getColorConverter (settings (userData r)) _ _) in *.
    set (WC := writeColor pc (activeColorReader rs) conv).
    set (idx := N.of_nat <$> seq 0 (N.to_nat (pointCount pc))).
    destruct (writeColor_summary pc (activeColorReader rs) conv idx (c0, tempColor w))
      as (Hb0 & Hs0 & Hn0).
    destruct (writeColor_summary pc (activeColorReader rs) conv idx
                (set_needsUpdate true (fold_left WC idx (c0, tempColor w)).1, tempColor w1))
      as (Hb1 & Hs1 & Hn1).
    cbn zeta in Hb0, Hs0, Hn0, Hb1, Hs1, Hn1. cbn [fst] in Hb0, Hs0, Hn0, Hb1, Hs1, Hn1.
    fold WC in Hb0, Hs0, Hn0, Hb1, Hs1, Hn1.
    destruct (written_colors pc (activeColorReader rs) conv c0 (tempColor w)
                (N.to_nat (pointCount pc)) Hc0size ltac:(lia)
                (N.to_nat (pointCount pc)) ltac:(lia)) as (_ & Hlen1 & _).
    cbn zeta in Hlen1. fold WC idx in Hlen1.
    apply attribute_eq; cbn [array itemSize needsUpdate buffer set_needsUpdate].
    + subst WC idx.
      apply (colors_overwritten pc _ conv _ _ _ _ (N.to_nat (pointCount pc)) Hconv);
        cbn [array itemSize set_needsUpdate]; try assumption; try lia;
        try (rewrite Hs0; exact Hc0size).
    + rewrite Hs1. reflexivity.
    + reflexivity.
    + rewrite Hb1. reflexivity.
Qed.

End Again.

(** The first cloud of /points decoded a second time: the same positions
    in the same typed arrays 5 and 6. *)
Lemma same_message_again_changes_no_position_witness :
  let once :=
    (_updatePointCloudRenderable cloudXY (createRenderable "/points" cloudXY world0)).2 in
  let twice := (_updatePointCloudRenderable cloudXY once).2 in
  validate (settings (userData (createRenderable "/points" cloudXY world0).1)) cloudXY
    = inl readersXY
  /\ (_updatePointCloudRenderable cloudXY once).1 = Return tt
  /\ array <$> getAttribute "position" (geometry (userData twice.1))
       = Some (num <$> [1; 2; 0; 3; 4; 0; 5; 6; 0]%Z)
  /\ buffers (geometry (userData twice.1)) = [("position", 5); ("color", 6)].
Proof.
  cbn zeta.
  assert (Hv : validate (settings (userData (createRenderable "/points" cloudXY world0).1))
                 cloudXY = inl readersXY) by (vm_compute; reflexivity).
  destruct (same_message_again_changes_no_position
              (createRenderable "/points" cloudXY world0).1
              (createRenderable "/points" cloudXY world0).2 cloudXY readersXY Hv
              (created_geometry_ok "/points" cloudXY world0))
    as (Hret & Hpos & Hbuffers & _).
  split; [exact Hv|]. split; [exact Hret|]. split.
  - etrans; [exact (f_equal (fmap array) Hpos)|]. vm_compute. reflexivity.
  - etrans; [exact Hbuffers|]. vm_compute. reflexivity.
Defined.

End PointCloudsAgain.
